(** * NOVEM backend: pipelines, datasets and lineage

    A shallow embedding of the Django apps [pipelines] and [datasets]
    (models, serializers and viewset actions) over an explicit store
    of database tables, with the properties of versioning, execution
    triggering, fingerprinting and deletion proved about it. *)

From Stdlib Require Import List String Ascii ZArith Bool Lia Arith.
From Stdlib Require Import Sorted.
From Stdlib Require Import Permutation DecimalString.
Import ListNotations.

Set Warnings "-register-all".

Local Open Scope string_scope.
Local Open Scope list_scope.

(** ** Python values

    JSONField contents ([Pipeline.config], [DatasetVersion.schema]) are
    Python values built from [None], booleans, integers, strings, lists
    and dicts.  A dict is kept as the list of its items in insertion
    order; floats are not covered.  A [str] is a sequence of code points
    below 256. *)

Module Py.

Inductive value : Type :=
| PyNone
| PyBool (b : bool)
| PyInt (n : Z)
| PyStr (s : string)
| PyList (xs : list value)
| PyDict (items : list (string * value)).

(** Induction over values that reaches inside lists and dicts. *)
Section ValueInd.
Variable P : value -> Prop.
Hypothesis HNone : P PyNone.
Hypothesis HBool : forall b, P (PyBool b).
Hypothesis HInt : forall n, P (PyInt n).
Hypothesis HStr : forall s, P (PyStr s).
Hypothesis HList : forall xs, Forall P xs -> P (PyList xs).
Hypothesis HDict : forall items, Forall (fun kv => P (snd kv)) items -> P (PyDict items).

Fixpoint value_ind' (v : value) : P v :=
  match v with
  | PyNone => HNone
  | PyBool b => HBool b
  | PyInt n => HInt n
  | PyStr s => HStr s
  | PyList xs =>
      HList xs ((fix go (l : list value) : Forall P l :=
                   match l with
                   | [] => Forall_nil _
                   | x :: l' => Forall_cons x (value_ind' x) (go l')
                   end) xs)
  | PyDict items =>
      HDict items ((fix go (l : list (string * value)) : Forall (fun kv => P (snd kv)) l :=
                      match l with
                      | [] => Forall_nil _
                      | kv :: l' =>
                          Forall_cons (P := fun kv => P (snd kv)) kv
                            (match kv as p return P (snd p) with
                             | (_, w) => value_ind' w
                             end) (go l')
                      end) items)
  end.
End ValueInd.

(** [dict.get]-style lookup: the value of the first item with key [k]. *)
Fixpoint lookup {A : Type} (k : string) (items : list (string * A)) : option A :=
  match items with
  | [] => None
  | (k', v) :: rest => if (k' =? k)%string then Some v else lookup k rest
  end.

Definition has_key {A : Type} (k : string) (items : list (string * A)) : bool :=
  match lookup k items with Some _ => true | None => false end.

(** Membership of a string in a list of strings ([x in [...]]). *)
Definition str_in (x : string) (l : list string) : bool :=
  existsb (fun y => (x =? y)%string) l.

(** Truth value of an object, as [if v:] and [not v] test it. *)
Definition truthy (v : value) : bool :=
  match v with
  | PyNone => false
  | PyBool b => b
  | PyInt n => negb (n =? 0)%Z
  | PyStr s => negb (s =? EmptyString)%string
  | PyList xs => match xs with [] => false | _ => true end
  | PyDict items => match items with [] => false | _ => true end
  end.

Definition str_truthy (s : string) : bool := negb (s =? EmptyString)%string.

(** Python [==]: booleans compare as the integers 0 and 1, lists
    element by element, dicts as mappings (the order of items does not
    count). *)
Fixpoint py_eq (a b : value) {struct a} : bool :=
  match a, b with
  | PyNone, PyNone => true
  | PyBool x, PyBool y => Bool.eqb x y
  | PyBool x, PyInt y => (Z.b2z x =? y)%Z
  | PyInt x, PyBool y => (x =? Z.b2z y)%Z
  | PyInt x, PyInt y => (x =? y)%Z
  | PyStr x, PyStr y => (x =? y)%string
  | PyList xs, PyList ys =>
      (fix go (l : list value) (r : list value) {struct l} : bool :=
         match l, r with
         | [], [] => true
         | x :: l', y :: r' => py_eq x y && go l' r'
         | _, _ => false
         end) xs ys
  | PyDict xs, PyDict ys =>
      (List.length xs =? List.length ys)%nat &&
      (fix go (l : list (string * value)) {struct l} : bool :=
         match l with
         | [] => true
         | (k, v) :: l' =>
             match lookup k ys with
             | Some w => py_eq v w
             | None => false
             end && go l'
         end) xs
  | _, _ => false
  end.

Definition py_ne (a b : value) : bool := negb (py_eq a b).

(** [len(v)]: defined on strings, lists and dicts; a [TypeError] otherwise. *)
Definition len (v : value) : option Z :=
  match v with
  | PyStr s => Some (Z.of_nat (String.length s))
  | PyList xs => Some (Z.of_nat (List.length xs))
  | PyDict items => Some (Z.of_nat (List.length items))
  | _ => None
  end.

(** [repr] of an integer, as [str(n)] and f-strings print it. *)
Definition str_of_int (n : Z) : string := NilZero.string_of_int (Z.to_int n).

(** *** json.dumps(v, sort_keys=True) *)

Definition quote : string := String "034"%char EmptyString.
Definition backslash : string := String "092"%char EmptyString.

Definition hex_digit (n : nat) : ascii :=
  match n with
  | 0 => "0" | 1 => "1" | 2 => "2" | 3 => "3" | 4 => "4"
  | 5 => "5" | 6 => "6" | 7 => "7" | 8 => "8" | 9 => "9"
  | 10 => "a" | 11 => "b" | 12 => "c" | 13 => "d" | 14 => "e"
  | _ => "f"
  end%char.

(** One character of [encode_basestring_ascii]: the short escapes,
    [\u00xx] for everything else outside [' '..'~']. *)
Definition escape_char (c : ascii) : string :=
  let n := nat_of_ascii c in
  if (n =? 34)%nat then backslash ++ quote
  else if (n =? 92)%nat then backslash ++ backslash
  else if (n =? 10)%nat then backslash ++ "n"
  else if (n =? 13)%nat then backslash ++ "r"
  else if (n =? 9)%nat then backslash ++ "t"
  else if (n =? 12)%nat then backslash ++ "f"
  else if (n =? 8)%nat then backslash ++ "b"
  else if ((n <? 32)%nat || (126 <? n)%nat)%bool then
    backslash ++ "u00" ++ String (hex_digit (n / 16)) (String (hex_digit (n mod 16)) EmptyString)
  else String c EmptyString.

Fixpoint escape (s : string) : string :=
  match s with
  | EmptyString => EmptyString
  | String c s' => escape_char c ++ escape s'
  end.

Definition encode_basestring_ascii (s : string) : string :=
  quote ++ escape s ++ quote.

(** [sorted(dct.items())]: a stable insertion sort on the key.  Keys of
    a dict are distinct, so the tuple comparison never reaches the
    values. *)
Fixpoint insert_item {A : Type} (kv : string * A) (l : list (string * A)) : list (string * A) :=
  match l with
  | [] => [kv]
  | h :: t => if (fst kv <=? fst h)%string then kv :: l else h :: insert_item kv t
  end.

Definition sorted_items {A : Type} (l : list (string * A)) : list (string * A) :=
  fold_right insert_item [] l.

Definition encode_item (kv : string * string) : string :=
  encode_basestring_ascii (fst kv) ++ ": " ++ snd kv.

(** The encoder.  A dict's values are encoded first and the encoded
    items sorted by key afterwards; [dumps_dict] below shows this is the
    library's order of work (sort the items, then encode each). *)
Fixpoint dumps_sorted (v : value) : string :=
  match v with
  | PyNone => "null"
  | PyBool true => "true"
  | PyBool false => "false"
  | PyInt n => str_of_int n
  | PyStr s => encode_basestring_ascii s
  | PyList xs => "[" ++ String.concat ", " (map dumps_sorted xs) ++ "]"
  | PyDict items =>
      "{" ++ String.concat ", "
               (map encode_item
                  (sorted_items (map (fun kv => match kv with (k, w) => (k, dumps_sorted w) end) items)))
          ++ "}"
  end.

(** Dicts are well formed when their keys are distinct, at every depth. *)
Fixpoint distinct (l : list string) : bool :=
  match l with
  | [] => true
  | x :: l' => negb (str_in x l') && distinct l'
  end.

Fixpoint well_formed (v : value) : bool :=
  match v with
  | PyList xs => forallb well_formed xs
  | PyDict items =>
      distinct (map fst items) &&
      forallb (fun kv => match kv with (_, w) => well_formed w end) items
  | _ => true
  end.

(** Two values that differ at most in the order of the items of their
    dicts. *)
Inductive same_content : value -> value -> Prop :=
| sc_none : same_content PyNone PyNone
| sc_bool : forall b, same_content (PyBool b) (PyBool b)
| sc_int : forall n, same_content (PyInt n) (PyInt n)
| sc_str : forall s, same_content (PyStr s) (PyStr s)
| sc_list : forall xs ys,
    Forall2 same_content xs ys -> same_content (PyList xs) (PyList ys)
| sc_dict : forall xs zs ys,
    Forall2 (fun x z => fst x = fst z /\ same_content (snd x) (snd z)) xs zs ->
    Permutation zs ys ->
    same_content (PyDict xs) (PyDict ys).



End Py.

(** ** HTTP status codes ([rest_framework.status]) *)

Module Http.

Inductive status : Type :=
| HTTP_200_OK
| HTTP_201_CREATED
| HTTP_204_NO_CONTENT
| HTTP_400_BAD_REQUEST
| HTTP_404_NOT_FOUND
| HTTP_500_INTERNAL_SERVER_ERROR.

Definition status_eqb (a b : status) : bool :=
  match a, b with
  | HTTP_200_OK, HTTP_200_OK
  | HTTP_201_CREATED, HTTP_201_CREATED
  | HTTP_204_NO_CONTENT, HTTP_204_NO_CONTENT
  | HTTP_400_BAD_REQUEST, HTTP_400_BAD_REQUEST
  | HTTP_404_NOT_FOUND, HTTP_404_NOT_FOUND
  | HTTP_500_INTERNAL_SERVER_ERROR, HTTP_500_INTERNAL_SERVER_ERROR => true
  | _, _ => false
  end.

(** A response that reports a failure to the caller. *)
Definition is_error (c : status) : bool :=
  match c with
  | HTTP_400_BAD_REQUEST | HTTP_404_NOT_FOUND | HTTP_500_INTERNAL_SERVER_ERROR => true
  | _ => false
  end.

End Http.

(** ** Models

    One record per Django model, one module per record so that fields
    keep their names.  Primary keys (UUIDs and auto ids) are natural
    numbers, foreign keys hold the key of the row they point to,
    nullable columns are options, datetimes are integers.  CharFields
    with [choices] are plain strings, as in the database. *)

Definition pk := nat.
Definition datetime := Z.
Bind Scope Z_scope with datetime.

Module Pipeline.
Record t : Type := mk {
  id : pk;
  name : string;
  description : string;
  project : pk;
  data_source : pk;
  target_dataset_name : string;
  execution_mode : string;
  schedule_expression : string;
  config : Py.value;
  estimated_memory_mb : option Z;
  estimated_cpu_percent : option Z;
  estimated_duration_seconds : option Z;
  estimated_row_count : option Z;
  state : string;
  last_run_at : option datetime;
  last_run_status : string;
  next_scheduled_run : option datetime;
  current_version : Z;
  created_at : datetime;
  updated_at : datetime;
  created_by : option pk;
  is_deleted : bool;
  deleted_at : option datetime
}.

Definition set_state (p : t) (st : string) : t :=
  mk (id p) (name p) (description p) (project p) (data_source p)
     (target_dataset_name p) (execution_mode p) (schedule_expression p)
     (config p) (estimated_memory_mb p) (estimated_cpu_percent p)
     (estimated_duration_seconds p) (estimated_row_count p)
     st (last_run_at p) (last_run_status p) (next_scheduled_run p)
     (current_version p) (created_at p) (updated_at p) (created_by p)
     (is_deleted p) (deleted_at p).

Definition set_estimates (p : t) (mem cpu dur rows : option Z) : t :=
  mk (id p) (name p) (description p) (project p) (data_source p)
     (target_dataset_name p) (execution_mode p) (schedule_expression p)
     (config p) mem cpu dur rows
     (state p) (last_run_at p) (last_run_status p) (next_scheduled_run p)
     (current_version p) (created_at p) (updated_at p) (created_by p)
     (is_deleted p) (deleted_at p).

Definition set_current_version (p : t) (n : Z) : t :=
  mk (id p) (name p) (description p) (project p) (data_source p)
     (target_dataset_name p) (execution_mode p) (schedule_expression p)
     (config p) (estimated_memory_mb p) (estimated_cpu_percent p)
     (estimated_duration_seconds p) (estimated_row_count p)
     (state p) (last_run_at p) (last_run_status p) (next_scheduled_run p)
     n (created_at p) (updated_at p) (created_by p)
     (is_deleted p) (deleted_at p).

(** [auto_now=True]: every save stamps [updated_at]. *)
Definition set_updated_at (p : t) (now : datetime) : t :=
  mk (id p) (name p) (description p) (project p) (data_source p)
     (target_dataset_name p) (execution_mode p) (schedule_expression p)
     (config p) (estimated_memory_mb p) (estimated_cpu_percent p)
     (estimated_duration_seconds p) (estimated_row_count p)
     (state p) (last_run_at p) (last_run_status p) (next_scheduled_run p)
     (current_version p) (created_at p) now (created_by p)
     (is_deleted p) (deleted_at p).
End Pipeline.

Module PipelineVersion.
Record t : Type := mk {
  id : pk;
  pipeline : pk;
  version_number : Z;
  config_snapshot : Py.value;
  created_by : option pk;
  created_at : datetime;
  change_description : string
}.
End PipelineVersion.

Module PipelineExecution.
Record t : Type := mk {
  id : pk;
  pipeline : pk;
  pipeline_version : option pk;
  state : string;
  trigger_type : string;
  triggered_by : option pk;
  queued_at : datetime;
  started_at : option datetime;
  completed_at : option datetime;
  rows_processed : option Z;
  rows_failed : Z;
  bytes_processed : option Z;
  peak_memory_mb : option Z;
  peak_cpu_percent : option Z;
  execution_log : string;
  error_message : string;
  error_traceback : string;
  created_dataset_version : option pk
}.

(** The [duration_seconds] property. *)
Definition duration_seconds (e : t) : option Z :=
  match started_at e, completed_at e with
  | Some s, Some c => Some (c - s)%Z
  | _, _ => None
  end.

(** [on_delete=SET_NULL] of [created_dataset_version]. *)
Definition clear_created_dataset_version (e : t) : t :=
  mk (id e) (pipeline e) (pipeline_version e) (state e) (trigger_type e)
     (triggered_by e) (queued_at e) (started_at e) (completed_at e)
     (rows_processed e) (rows_failed e) (bytes_processed e)
     (peak_memory_mb e) (peak_cpu_percent e) (execution_log e)
     (error_message e) (error_traceback e) None.

(** [on_delete=SET_NULL] of [pipeline_version]. *)
Definition clear_pipeline_version (e : t) : t :=
  mk (id e) (pipeline e) None (state e) (trigger_type e)
     (triggered_by e) (queued_at e) (started_at e) (completed_at e)
     (rows_processed e) (rows_failed e) (bytes_processed e)
     (peak_memory_mb e) (peak_cpu_percent e) (execution_log e)
     (error_message e) (error_traceback e) (created_dataset_version e).

(** Of the five [STATES], [completed], [failed] and [cancelled] end a
    run; an execution in any other state is still active. *)
Definition terminal_states : list string := ["completed"; "failed"; "cancelled"].
Definition is_terminal (e : t) : bool := Py.str_in (state e) terminal_states.
End PipelineExecution.

Module Dataset.
Record t : Type := mk {
  id : pk;
  name : string;
  description : string;
  project : pk;
  visibility : string;
  tags : Py.value;
  current_version : Z;
  created_at : datetime;
  updated_at : datetime;
  created_by : option pk;
  is_deleted : bool;
  deleted_at : option datetime
}.
End Dataset.

(** [quality_score] and [null_percentage] are FloatFields and are left
    out of the record. *)
Module DatasetVersion.
Record t : Type := mk {
  id : pk;
  dataset : pk;
  version_number : Z;
  state : string;
  schema : Py.value;
  schema_hash : string;
  row_count : Z;
  column_count : Z;
  storage_size_bytes : Z;
  storage_table_name : string;
  duplicate_count : Z;
  outlier_count : Z;
  column_profiles : Py.value;
  created_at : datetime;
  created_by : option pk;
  created_by_pipeline : option pk;
  change_description : string
}.

Definition set_schema_hash (v : t) (h : string) : t :=
  mk (id v) (dataset v) (version_number v) (state v) (schema v) h
     (row_count v) (column_count v) (storage_size_bytes v)
     (storage_table_name v) (duplicate_count v) (outlier_count v)
     (column_profiles v) (created_at v) (created_by v)
     (created_by_pipeline v) (change_description v).

Definition set_column_count (v : t) (n : Z) : t :=
  mk (id v) (dataset v) (version_number v) (state v) (schema v) (schema_hash v)
     (row_count v) n (storage_size_bytes v)
     (storage_table_name v) (duplicate_count v) (outlier_count v)
     (column_profiles v) (created_at v) (created_by v)
     (created_by_pipeline v) (change_description v).

Definition set_created_at (v : t) (time : datetime) : t :=
  mk (id v) (dataset v) (version_number v) (state v) (schema v) (schema_hash v)
     (row_count v) (column_count v) (storage_size_bytes v)
     (storage_table_name v) (duplicate_count v) (outlier_count v)
     (column_profiles v) time (created_by v)
     (created_by_pipeline v) (change_description v).

(** [on_delete=SET_NULL] of [created_by_pipeline]. *)
Definition clear_created_by_pipeline (v : t) : t :=
  mk (id v) (dataset v) (version_number v) (state v) (schema v) (schema_hash v)
     (row_count v) (column_count v) (storage_size_bytes v)
     (storage_table_name v) (duplicate_count v) (outlier_count v)
     (column_profiles v) (created_at v) (created_by v)
     None (change_description v).
End DatasetVersion.

Module DatasetLineage.
Record t : Type := mk {
  id : pk;
  dataset_version : pk;
  source_type : string;
  source_data_source : option pk;
  source_pipeline : option pk;
  source_dataset_version : option pk;
  transformation_details : Py.value;
  created_at : datetime
}.

Definition clear_source_pipeline (l : t) : t :=
  mk (id l) (dataset_version l) (source_type l) (source_data_source l)
     None (source_dataset_version l) (transformation_details l) (created_at l).

Definition clear_source_dataset_version (l : t) : t :=
  mk (id l) (dataset_version l) (source_type l) (source_data_source l)
     (source_pipeline l) None (transformation_details l) (created_at l).
End DatasetLineage.

Module DatasetQuery.
Record t : Type := mk {
  id : pk;
  dataset_version : pk;
  query_sql : string;
  query_hash : string;
  executed_by : option pk;
  executed_at : datetime;
  execution_time_ms : option Z;
  rows_returned : option Z;
  success : bool;
  error_message : string
}.

Definition set_query_hash (q : t) (h : string) : t :=
  mk (id q) (dataset_version q) (query_sql q) h (executed_by q)
     (executed_at q) (execution_time_ms q) (rows_returned q)
     (success q) (error_message q).
End DatasetQuery.

(** Of [datasources.DataSource] only the key and the name are read here. *)
Module DataSource.
Record t : Type := mk {
  id : pk;
  name : string
}.
End DataSource.

(** Of [projects.Project] only the key and the name are read here. *)
Module Project.
Record t : Type := mk {
  id : pk;
  name : string
}.
End Project.

(** [projects.ProjectMembership]: which user belongs to which project. *)
Module ProjectMembership.
Record t : Type := mk {
  project : pk;
  user : pk
}.
End ProjectMembership.

(** ** The database

    One list of rows per table.  [next_pk] stands for [uuid.uuid4] and
    the auto-increment counters: the key the next inserted row gets. *)

Record Store : Type := mkStore {
  pipelines : list Pipeline.t;
  pipeline_versions : list PipelineVersion.t;
  pipeline_executions : list PipelineExecution.t;
  datasets : list Dataset.t;
  dataset_versions : list DatasetVersion.t;
  dataset_lineage : list DatasetLineage.t;
  dataset_queries : list DatasetQuery.t;
  data_sources : list DataSource.t;
  projects : list Project.t;
  project_memberships : list ProjectMembership.t;
  next_pk : pk
}.

Definition with_pipelines (s : Store) (l : list Pipeline.t) : Store :=
  mkStore l (pipeline_versions s) (pipeline_executions s) (datasets s)
          (dataset_versions s) (dataset_lineage s) (dataset_queries s)
          (data_sources s) (projects s) (project_memberships s) (next_pk s).

Definition with_pipeline_versions (s : Store) (l : list PipelineVersion.t) : Store :=
  mkStore (pipelines s) l (pipeline_executions s) (datasets s)
          (dataset_versions s) (dataset_lineage s) (dataset_queries s)
          (data_sources s) (projects s) (project_memberships s) (next_pk s).

Definition with_pipeline_executions (s : Store) (l : list PipelineExecution.t) : Store :=
  mkStore (pipelines s) (pipeline_versions s) l (datasets s)
          (dataset_versions s) (dataset_lineage s) (dataset_queries s)
          (data_sources s) (projects s) (project_memberships s) (next_pk s).

Definition with_dataset_versions (s : Store) (l : list DatasetVersion.t) : Store :=
  mkStore (pipelines s) (pipeline_versions s) (pipeline_executions s) (datasets s)
          l (dataset_lineage s) (dataset_queries s)
          (data_sources s) (projects s) (project_memberships s) (next_pk s).

Definition with_dataset_lineage (s : Store) (l : list DatasetLineage.t) : Store :=
  mkStore (pipelines s) (pipeline_versions s) (pipeline_executions s) (datasets s)
          (dataset_versions s) l (dataset_queries s)
          (data_sources s) (projects s) (project_memberships s) (next_pk s).

Definition with_dataset_queries (s : Store) (l : list DatasetQuery.t) : Store :=
  mkStore (pipelines s) (pipeline_versions s) (pipeline_executions s) (datasets s)
          (dataset_versions s) (dataset_lineage s) l
          (data_sources s) (projects s) (project_memberships s) (next_pk s).

Definition with_next_pk (s : Store) (n : pk) : Store :=
  mkStore (pipelines s) (pipeline_versions s) (pipeline_executions s) (datasets s)
          (dataset_versions s) (dataset_lineage s) (dataset_queries s)
          (data_sources s) (projects s) (project_memberships s) n.

(** ** The ORM calls the code uses *)

Module Orm.

(** [QuerySet.get]: the single matching row, or one of two exceptions. *)
Inductive get_result (A : Type) : Type :=
| Found (row : A)
| DoesNotExist
| MultipleObjectsReturned.
Arguments Found {A} row.
Arguments DoesNotExist {A}.
Arguments MultipleObjectsReturned {A}.

Definition get {A : Type} (rows : list A) : get_result A :=
  match rows with
  | [] => DoesNotExist
  | [row] => Found row
  | _ => MultipleObjectsReturned
  end.

(** [QuerySet.count]. *)
Definition count {A : Type} (rows : list A) : Z := Z.of_nat (List.length rows).

(** [option] keys compared with a key ([fk == pk]). *)
Definition refers_to (fk : option pk) (k : pk) : bool :=
  match fk with Some k' => (k' =? k)%nat | None => false end.

(** The related managers: [pipeline.versions], [pipeline.executions],
    [dataset.versions], [version.lineage]. *)
Definition versions_of (s : Store) (p : pk) : list PipelineVersion.t :=
  filter (fun v => (PipelineVersion.pipeline v =? p)%nat) (pipeline_versions s).

Definition executions_of (s : Store) (p : pk) : list PipelineExecution.t :=
  filter (fun e => (PipelineExecution.pipeline e =? p)%nat) (pipeline_executions s).

Definition dataset_versions_of (s : Store) (d : pk) : list DatasetVersion.t :=
  filter (fun v => (DatasetVersion.dataset v =? d)%nat) (dataset_versions s).

Definition lineage_of (s : Store) (v : pk) : list DatasetLineage.t :=
  filter (fun l => (DatasetLineage.dataset_version l =? v)%nat) (dataset_lineage s).

(** [user.project_memberships.values_list('project_id', flat=True)]. *)
Definition user_projects (s : Store) (u : pk) : list pk :=
  map ProjectMembership.project
      (filter (fun m => (ProjectMembership.user m =? u)%nat) (project_memberships s)).

Definition pk_in (k : pk) (l : list pk) : bool := existsb (Nat.eqb k) l.

(** [instance.save()] of an existing pipeline: the row with its key is
    rewritten ([updated_at] is [auto_now]). *)
Definition save_pipeline (s : Store) (now : datetime) (p : Pipeline.t) : Store :=
  let p' := Pipeline.set_updated_at p now in
  with_pipelines s
    (map (fun q => if (Pipeline.id q =? Pipeline.id p)%nat then p' else q) (pipelines s)).

(** [unique_together = ['pipeline', 'version_number']]. *)
Definition version_slot_taken (s : Store) (p : pk) (n : Z) : bool :=
  existsb (fun v => (PipelineVersion.pipeline v =? p)%nat &&
                    (PipelineVersion.version_number v =? n)%Z)
          (pipeline_versions s).

(** [config_snapshot] is NOT NULL, and Python [None] is written as
    SQL NULL. *)
Definition is_null (v : Py.value) : bool :=
  match v with Py.PyNone => true | _ => false end.

(** [PipelineVersion.objects.create(...)]: [None] is the
    [IntegrityError] of the unique constraint or of NOT NULL. *)
Definition create_pipeline_version (s : Store) (now : datetime) (p : pk) (n : Z)
           (snapshot : Py.value) (by_user : option pk) (note : string)
  : option (Store * PipelineVersion.t) :=
  if is_null snapshot || version_slot_taken s p n then None
  else
    let v := PipelineVersion.mk (next_pk s) p n snapshot by_user now note in
    Some (with_next_pk (with_pipeline_versions s (v :: pipeline_versions s)) (S (next_pk s)), v).

(** Does the execution's [pipeline_version] point to a version of
    pipeline [p]? *)
Definition runs_version_of (s : Store) (p : pk) (e : PipelineExecution.t) : bool :=
  existsb (fun v => refers_to (PipelineExecution.pipeline_version e) (PipelineVersion.id v) &&
                    (PipelineVersion.pipeline v =? p)%nat)
          (pipeline_versions s).

(** [pipeline.delete()]: versions and executions go with it
    ([on_delete=CASCADE]); [pipeline_version], [created_by_pipeline] and
    [source_pipeline] of the rows that stay are set to NULL. *)
Definition delete_pipeline (s : Store) (p : pk) : Store :=
  mkStore
    (filter (fun q => negb (Pipeline.id q =? p)%nat) (pipelines s))
    (filter (fun v => negb (PipelineVersion.pipeline v =? p)%nat) (pipeline_versions s))
    (map (fun e => if runs_version_of s p e
                   then PipelineExecution.clear_pipeline_version e else e)
         (filter (fun e => negb (PipelineExecution.pipeline e =? p)%nat) (pipeline_executions s)))
    (datasets s)
    (map (fun v => if refers_to (DatasetVersion.created_by_pipeline v) p
                   then DatasetVersion.clear_created_by_pipeline v else v)
         (dataset_versions s))
    (map (fun l => if refers_to (DatasetLineage.source_pipeline l) p
                   then DatasetLineage.clear_source_pipeline l else l)
         (dataset_lineage s))
    (dataset_queries s) (data_sources s) (projects s) (project_memberships s) (next_pk s).

(** [version.delete()] of a dataset version: its lineage edges and
    query log go with it (CASCADE); references to it from other lineage
    edges and from executions are set to NULL. *)
Definition delete_dataset_version (s : Store) (v : pk) : Store :=
  mkStore
    (pipelines s) (pipeline_versions s)
    (map (fun e => if refers_to (PipelineExecution.created_dataset_version e) v
                   then PipelineExecution.clear_created_dataset_version e else e)
         (pipeline_executions s))
    (datasets s)
    (filter (fun w => negb (DatasetVersion.id w =? v)%nat) (dataset_versions s))
    (map (fun l => if refers_to (DatasetLineage.source_dataset_version l) v
                   then DatasetLineage.clear_source_dataset_version l else l)
         (filter (fun l => negb (DatasetLineage.dataset_version l =? v)%nat) (dataset_lineage s)))
    (filter (fun q => negb (DatasetQuery.dataset_version q =? v)%nat) (dataset_queries s))
    (data_sources s) (projects s) (project_memberships s) (next_pk s).

End Orm.

(** ** Requests and responses

    A request carries the authenticated user ([IsAuthenticated] has
    already passed), the clock ([timezone.now()]) and the query
    parameters the viewsets read. *)

Record Request : Type := mkRequest {
  user : pk;
  now : datetime;
  query_project : option pk;
  query_state : option string;
  query_visibility : option string;
  query_search : option string
}.

Inductive body : Type :=
| NoContent
| ErrorDetail (error : string)
| ValidationError (field message : string)
| FieldErrors (errors : list (string * list string))
| Http404
| Exception (name : string)
| PipelineData (p : Pipeline.t)
| PipelineListData (ps : list Pipeline.t)
| ExecutionData (e : PipelineExecution.t)
| EstimatesData (memory_mb cpu_percent duration_seconds row_count : Z)
| StatusMessage (status message : string)
| QueryResultData (columns : list string) (rows : list (list Py.value))
                  (row_count execution_time_ms : Z).

Record Response : Type := mkResponse {
  status_code : Http.status;
  data : body
}.

Definition error_response (msg : string) : Response :=
  mkResponse Http.HTTP_400_BAD_REQUEST (ErrorDetail msg).
Definition not_found : Response := mkResponse Http.HTTP_404_NOT_FOUND Http404.
Definition server_error (exc : string) : Response :=
  mkResponse Http.HTTP_500_INTERNAL_SERVER_ERROR (Exception exc).

(** [if param:] on an optional query parameter. *)
Definition given (param : option string) : option string :=
  match param with
  | Some v => if Py.str_truthy v then Some v else None
  | None => None
  end.

(** ** Text: the [str] methods and operators the code uses *)

Module Text.

Definition lower_char (c : ascii) : ascii :=
  let n := nat_of_ascii c in
  if ((65 <=? n)%nat && (n <=? 90)%nat)%bool then ascii_of_nat (n + 32) else c.

Fixpoint lower (s : string) : string :=
  match s with
  | EmptyString => EmptyString
  | String c s' => String (lower_char c) (lower s')
  end.

(** [needle in hay] on strings. *)
Fixpoint contains (needle hay : string) : bool :=
  String.prefix needle hay ||
  match hay with
  | EmptyString => false
  | String _ rest => contains needle rest
  end.

(** [name__icontains=needle]. *)
Definition icontains (hay needle : string) : bool :=
  contains (lower needle) (lower hay).

(** [str.isspace] of one character (code points below 256). *)
Definition is_space (c : ascii) : bool :=
  let n := nat_of_ascii c in
  ((9 <=? n)%nat && (n <=? 13)%nat) || ((28 <=? n)%nat && (n <=? 32)%nat) ||
  (n =? 133)%nat || (n =? 160)%nat.

Fixpoint lstrip (s : string) : string :=
  match s with
  | EmptyString => EmptyString
  | String c s' => if is_space c then lstrip s' else s
  end.

Fixpoint rstrip (s : string) : string :=
  match s with
  | EmptyString => EmptyString
  | String c s' =>
      match rstrip s' with
      | EmptyString => if is_space c then EmptyString else String c EmptyString
      | rest => String c rest
      end
  end.

(** [s.strip()]. *)
Definition strip (s : string) : string := rstrip (lstrip s).

End Text.

(** ** pipelines/serializers.py *)

Module PipelineSerializer.

(** The writable fields of [Meta.fields]: a request body ([None] for a
    key the body does not have) and, once it has passed
    [run_validation], the [validated_data] that [create] and [update]
    receive.  [state], [current_version], [is_deleted] and the other
    read-only fields never appear in it.

    A body holds, for each key it has, a value of the field's type: a
    string for a CharField, a key for a related field, an integer of
    the column's range or null for a nullable IntegerField, JSON
    (possibly null) for the JSONField. *)
Record validated_data : Type := mk {
  name : option string;
  description : option string;
  project : option pk;
  data_source : option pk;
  target_dataset_name : option string;
  execution_mode : option string;
  schedule_expression : option string;
  config : option Py.value;
  estimated_memory_mb : option (option Z);
  estimated_cpu_percent : option (option Z);
  estimated_duration_seconds : option (option Z);
  estimated_row_count : option (option Z);
  next_scheduled_run : option (option datetime)
}.

Definition get {A : Type} (field : option A) (default : A) : A :=
  match field with Some v => v | None => default end.

(** *** The fields [ModelSerializer] builds from the model

    Each returns the internal value or the codes of the errors raised
    ([ErrorDetail.code]). *)

Definition null_character : string := String "000"%char EmptyString.

(** [CharField]: the text is stripped ([trim_whitespace]); a blank
    text is an error unless the model field has [blank=True]; then the
    validators run: [MaxLengthValidator] when the model field has a
    [max_length], and [ProhibitNullCharactersValidator]. *)
Definition char_field (allow_blank : bool) (max_length : option nat) (data : string)
  : string + list string :=
  let value := Text.strip data in
  if (value =? EmptyString)%string then
    if allow_blank then inl EmptyString else inr ["blank"]
  else
    match
      (match max_length with
       | Some n => if (n <? String.length value)%nat then ["max_length"] else []
       | None => []
       end) ++
      (if Text.contains null_character value then ["null_characters_not_allowed"] else [])
    with
    | [] => inl value
    | errors => inr errors
    end.

(** [ChoiceField], for a model field with [choices]. *)
Definition choice_field (choices : list string) (data : string) : string + list string :=
  if Py.str_in data choices then inl data else inr ["invalid_choice"].

(** [PrimaryKeyRelatedField(queryset=Model.objects.all())]. *)
Definition related_field {A : Type} (key : A -> pk) (queryset : list A) (data : pk)
  : pk + list string :=
  if existsb (fun row => (key row =? data)%nat) queryset then inl data
  else inr ["does_not_exist"].

(** [JSONField] of a column that is not nullable. *)
Definition json_field (data : Py.value) : Py.value + list string :=
  match data with
  | Py.PyNone => inr ["null"]
  | _ => inl data
  end.

(** One field of [to_internal_value]: a key the body lacks is an
    error when the field is required and the update is not partial,
    and is skipped otherwise. *)
Definition run_field {A : Type} (partial required : bool) (check : A -> A + list string)
           (data : option A) : option A + list string :=
  match data with
  | Some x =>
      match check x with
      | inl value => inl (Some value)
      | inr errors => inr errors
      end
  | None => if required && negb partial then inr ["required"] else inl None
  end.

Definition value_of {A : Type} (result : option A + list string) : option A :=
  match result with inl value => value | inr _ => None end.

Definition errors_of {A : Type} (field : string) (result : option A + list string)
  : list (string * list string) :=
  match result with inl _ => [] | inr errors => [(field, errors)] end.

Definition EXECUTION_MODES : list string := ["manual"; "scheduled"; "on_demand"].

(** [to_internal_value]: every writable field is run, in the order of
    [Meta.fields]; the errors of all fields are collected.  A field is
    required when its model field has no default and is neither
    [blank] nor [null]: [name], [project], [data_source] and
    [target_dataset_name]. *)
Definition to_internal_value (s : Store) (partial : bool) (data : validated_data)
  : validated_data + list (string * list string) :=
  let name' := run_field partial true (char_field false (Some 255%nat)) (name data) in
  let description' := run_field partial false (char_field true None) (description data) in
  let project' :=
    run_field partial true (related_field Project.id (projects s)) (project data) in
  let data_source' :=
    run_field partial true (related_field DataSource.id (data_sources s)) (data_source data) in
  let target_dataset_name' :=
    run_field partial true (char_field false (Some 255%nat)) (target_dataset_name data) in
  let execution_mode' :=
    run_field partial false (choice_field EXECUTION_MODES) (execution_mode data) in
  let schedule_expression' :=
    run_field partial false (char_field true (Some 255%nat)) (schedule_expression data) in
  let config' := run_field partial false json_field (config data) in
  match errors_of "name" name' ++ errors_of "description" description' ++
        errors_of "project" project' ++ errors_of "data_source" data_source' ++
        errors_of "target_dataset_name" target_dataset_name' ++
        errors_of "execution_mode" execution_mode' ++
        errors_of "schedule_expression" schedule_expression' ++
        errors_of "config" config' with
  | [] =>
      inl (mk (value_of name') (value_of description') (value_of project')
              (value_of data_source') (value_of target_dataset_name')
              (value_of execution_mode') (value_of schedule_expression')
              (value_of config')
              (estimated_memory_mb data) (estimated_cpu_percent data)
              (estimated_duration_seconds data) (estimated_row_count data)
              (next_scheduled_run data))
  | errors => inr errors
  end.

(** [validate(self, data)]: [Some (field, message)] is the raised
    [serializers.ValidationError]. *)
Definition validate (data : validated_data) : option (string * string) :=
  match execution_mode data with
  | Some mode =>
      if (mode =? "scheduled")%string then
        if negb (Py.str_truthy (get (schedule_expression data) EmptyString)) then
          Some ("schedule_expression",
                "Schedule expression is required for scheduled pipelines")
        else None
      else None
  | None => None
  end.

(** [run_validation]: the fields first, then [validate]; what is
    raised becomes the body of the 400 response. *)
Definition run_validation (s : Store) (partial : bool) (data : validated_data)
  : validated_data + body :=
  match to_internal_value s partial data with
  | inr errors => inr (FieldErrors errors)
  | inl value =>
      match validate value with
      | Some (field, message) => inr (ValidationError field message)
      | None => inl value
      end
  end.

(** The row of [Pipeline.objects.create] can be inserted: [project]
    and [data_source] are given and name stored rows (NOT NULL and the
    foreign keys), and [config] is not [None] (NOT NULL). *)
Definition insertable (s : Store) (data : validated_data) : option (pk * pk) :=
  match project data, data_source data, config data with
  | _, _, Some Py.PyNone => None
  | Some pr, Some ds, _ =>
      if existsb (fun row => (Project.id row =? pr)%nat) (projects s) &&
         existsb (fun row => (DataSource.id row =? ds)%nat) (data_sources s)
      then Some (pr, ds) else None
  | _, _, _ => None
  end.

(** [create(self, validated_data)], with [created_by] as
    [perform_create] passes it.  The pipeline row takes the model
    defaults for what the data leaves out.  The outcome is the new
    store and the created pipeline, or the name of the exception
    raised. *)
Definition create (s : Store) (rq : Request) (data : validated_data)
  : Store * (Pipeline.t + string) :=
  match insertable s data with
  | Some (pr, ds) =>
      let pipeline :=
        Pipeline.mk (next_pk s)
          (get (name data) EmptyString) (get (description data) EmptyString)
          pr ds
          (get (target_dataset_name data) EmptyString)
          (get (execution_mode data) "manual")
          (get (schedule_expression data) EmptyString)
          (get (config data) (Py.PyDict []))
          (get (estimated_memory_mb data) None)
          (get (estimated_cpu_percent data) None)
          (get (estimated_duration_seconds data) None)
          (get (estimated_row_count data) None)
          "draft" None EmptyString
          (get (next_scheduled_run data) None)
          1%Z (now rq) (now rq) (Some (user rq)) false None in
      let s1 := with_next_pk (with_pipelines s (pipeline :: pipelines s)) (S (next_pk s)) in
      match Orm.create_pipeline_version s1 (now rq) (Pipeline.id pipeline) 1%Z
              (get (config data) (Py.PyDict [])) (Some (user rq)) "Initial version" with
      | Some (s2, _) => (s2, inl pipeline)
      | None => (s1, inr "IntegrityError")
      end
  | None => (s, inr "IntegrityError")
  end.

(** The [setattr] loop of [update]. *)
Definition assign (instance : Pipeline.t) (data : validated_data) : Pipeline.t :=
  Pipeline.mk (Pipeline.id instance)
    (get (name data) (Pipeline.name instance))
    (get (description data) (Pipeline.description instance))
    (get (project data) (Pipeline.project instance))
    (get (data_source data) (Pipeline.data_source instance))
    (get (target_dataset_name data) (Pipeline.target_dataset_name instance))
    (get (execution_mode data) (Pipeline.execution_mode instance))
    (get (schedule_expression data) (Pipeline.schedule_expression instance))
    (get (config data) (Pipeline.config instance))
    (get (estimated_memory_mb data) (Pipeline.estimated_memory_mb instance))
    (get (estimated_cpu_percent data) (Pipeline.estimated_cpu_percent instance))
    (get (estimated_duration_seconds data) (Pipeline.estimated_duration_seconds instance))
    (get (estimated_row_count data) (Pipeline.estimated_row_count instance))
    (Pipeline.state instance) (Pipeline.last_run_at instance)
    (Pipeline.last_run_status instance)
    (get (next_scheduled_run data) (Pipeline.next_scheduled_run instance))
    (Pipeline.current_version instance) (Pipeline.created_at instance)
    (Pipeline.updated_at instance) (Pipeline.created_by instance)
    (Pipeline.is_deleted instance) (Pipeline.deleted_at instance).

(** ['config' in validated_data and validated_data['config'] != instance.config] *)
Definition config_changed (instance : Pipeline.t) (data : validated_data) : bool :=
  match config data with
  | Some c => Py.py_ne c (Pipeline.config instance)
  | None => false
  end.

(** [update(self, instance, validated_data)].  [change_description] is
    not a field of the serializer, so the note is always the default.
    The data has passed [run_validation], so the keys it holds name
    stored rows and [instance.save()] meets no constraint. *)
Definition update (s : Store) (rq : Request) (instance : Pipeline.t) (data : validated_data)
  : Store * (Pipeline.t + string) :=
  let changed := config_changed instance data in
  let instance1 := assign instance data in
  if changed then
    let instance2 :=
      Pipeline.set_current_version instance1 (Pipeline.current_version instance1 + 1)%Z in
    match Orm.create_pipeline_version s (now rq) (Pipeline.id instance2)
            (Pipeline.current_version instance2)
            (get (config data) (Py.PyDict [])) (Some (user rq))
            "Configuration updated" with
    | Some (s1, _) =>
        (Orm.save_pipeline s1 (now rq) instance2, inl (Pipeline.set_updated_at instance2 (now rq)))
    | None => (s, inr "IntegrityError")
    end
  else
    (Orm.save_pipeline s (now rq) instance1, inl (Pipeline.set_updated_at instance1 (now rq))).

End PipelineSerializer.

(** ** pipelines/views.py *)

Module PipelineViewSet.

(** [get_queryset]: the pipelines of the user's projects that are not
    flagged deleted, narrowed by the [project] and [state] query
    parameters when given.  Row order ([Meta.ordering]) is the table
    order here. *)
Definition get_queryset (s : Store) (rq : Request) : list Pipeline.t :=
  let user_projects := Orm.user_projects s (user rq) in
  let queryset :=
    filter (fun p => Orm.pk_in (Pipeline.project p) user_projects &&
                     negb (Pipeline.is_deleted p))
           (pipelines s) in
  let queryset :=
    match query_project rq with
    | Some project_id => filter (fun p => (Pipeline.project p =? project_id)%nat) queryset
    | None => queryset
    end in
  match given (query_state rq) with
  | Some state => filter (fun p => (Pipeline.state p =? state)%string) queryset
  | None => queryset
  end.

(** [self.get_object()]: the row of the queryset with primary key [k]. *)
Definition get_object (s : Store) (rq : Request) (k : pk) : Orm.get_result Pipeline.t :=
  Orm.get (filter (fun p => (Pipeline.id p =? k)%nat) (get_queryset s rq)).

(** A detail action: [Http404] when [get_object] finds nothing. *)
Definition on_object (s : Store) (rq : Request) (k : pk)
           (action : Pipeline.t -> Store * Response) : Store * Response :=
  match get_object s rq k with
  | Orm.Found pipeline => action pipeline
  | Orm.DoesNotExist => (s, not_found)
  | Orm.MultipleObjectsReturned => (s, server_error "MultipleObjectsReturned")
  end.

(** [create] of [ModelViewSet]: [serializer.is_valid(raise_exception=True)],
    then [perform_create]. *)
Definition create (s : Store) (rq : Request) (data : PipelineSerializer.validated_data)
  : Store * Response :=
  match PipelineSerializer.run_validation s false data with
  | inr errors => (s, mkResponse Http.HTTP_400_BAD_REQUEST errors)
  | inl validated =>
      match PipelineSerializer.create s rq validated with
      | (s', inl pipeline) => (s', mkResponse Http.HTTP_201_CREATED (PipelineData pipeline))
      | (s', inr exc) => (s', server_error exc)
      end
  end.

(** [update] of [ModelViewSet]: PUT with [partial = false], PATCH with
    [partial = true]. *)
Definition update (s : Store) (rq : Request) (k : pk) (partial : bool)
           (data : PipelineSerializer.validated_data) : Store * Response :=
  on_object s rq k (fun instance =>
    match PipelineSerializer.run_validation s partial data with
    | inr errors => (s, mkResponse Http.HTTP_400_BAD_REQUEST errors)
    | inl validated =>
        match PipelineSerializer.update s rq instance validated with
        | (s', inl pipeline) => (s', mkResponse Http.HTTP_200_OK (PipelineData pipeline))
        | (s', inr exc) => (s', server_error exc)
        end
    end).

(** [partial_update] of [ModelViewSet]. *)
Definition partial_update (s : Store) (rq : Request) (k : pk)
           (data : PipelineSerializer.validated_data) : Store * Response :=
  update s rq k true data.

(** [destroy]: the viewset does not override it, so it is the one of
    [ModelViewSet]: [instance.delete()] and 204. *)
Definition destroy (s : Store) (rq : Request) (k : pk) : Store * Response :=
  on_object s rq k (fun instance =>
    (Orm.delete_pipeline s (Pipeline.id instance),
     mkResponse Http.HTTP_204_NO_CONTENT NoContent)).

(** [execute]: the [trigger_type] of the request data defaults to
    ['manual']. *)
Definition execute (s : Store) (rq : Request) (k : pk) (trigger_type : option string)
  : Store * Response :=
  on_object s rq k (fun pipeline =>
    if (Pipeline.state pipeline =? "running")%string then
      (s, error_response "Pipeline is already running")
    else if negb (Py.str_in (Pipeline.state pipeline) ["ready"; "completed"; "failed"]) then
      (s, error_response ("Pipeline cannot be executed in " ++ Pipeline.state pipeline ++ " state"))
    else
      match Orm.get (filter (fun v => (PipelineVersion.version_number v =?
                                       Pipeline.current_version pipeline)%Z)
                            (Orm.versions_of s (Pipeline.id pipeline))) with
      | Orm.DoesNotExist => (s, error_response "Pipeline has no valid version")
      | Orm.MultipleObjectsReturned => (s, server_error "MultipleObjectsReturned")
      | Orm.Found current_version =>
          let execution :=
            PipelineExecution.mk (next_pk s) (Pipeline.id pipeline)
              (Some (PipelineVersion.id current_version))
              "queued"
              (match trigger_type with Some t => t | None => "manual" end)
              (Some (user rq))
              (now rq) None None None 0%Z None None None
              EmptyString EmptyString EmptyString None in
          let s1 :=
            with_next_pk
              (with_pipeline_executions s (execution :: pipeline_executions s))
              (S (next_pk s)) in
          let s2 := Orm.save_pipeline s1 (now rq) (Pipeline.set_state pipeline "running") in
          (s2, mkResponse Http.HTTP_201_CREATED (ExecutionData execution))
      end).

(** [estimate_resources]: the mock estimates are written to the row. *)
Definition estimate_resources (s : Store) (rq : Request) (k : pk) : Store * Response :=
  on_object s rq k (fun pipeline =>
    let pipeline' :=
      Pipeline.set_estimates pipeline (Some 512%Z) (Some 40%Z) (Some 120%Z) (Some 10000%Z) in
    (Orm.save_pipeline s (now rq) pipeline',
     mkResponse Http.HTTP_200_OK (EstimatesData 512 40 120 10000))).

(** [validate]. *)
Definition validate (s : Store) (rq : Request) (k : pk) : Store * Response :=
  on_object s rq k (fun pipeline =>
    (Orm.save_pipeline s (now rq) (Pipeline.set_state pipeline "validating"),
     mkResponse Http.HTTP_200_OK
       (StatusMessage "validation_started" "Pipeline validation has been initiated"))).

(** [next_scheduled_run__lte=now]: a NULL column matches nothing. *)
Definition lte (field : option datetime) (bound : datetime) : bool :=
  match field with Some t => (t <=? bound)%Z | None => false end.

(** [scheduled]. *)
Definition scheduled (s : Store) (rq : Request) : Store * Response :=
  let pipelines :=
    filter (fun p => (Pipeline.execution_mode p =? "scheduled")%string &&
                     (Pipeline.state p =? "ready")%string &&
                     lte (Pipeline.next_scheduled_run p) (now rq))
           (get_queryset s rq) in
  (s, mkResponse Http.HTTP_200_OK (PipelineListData pipelines)).

(** The requests the viewset answers that can change the store, and
    the listing of due pipelines. *)
Inductive call : Type :=
| Create (data : PipelineSerializer.validated_data)
| Update (k : pk) (data : PipelineSerializer.validated_data)
| PartialUpdate (k : pk) (data : PipelineSerializer.validated_data)
| Destroy (k : pk)
| Execute (k : pk) (trigger_type : option string)
| EstimateResources (k : pk)
| Validate (k : pk)
| Scheduled.

Definition dispatch (s : Store) (rq : Request) (c : call) : Store * Response :=
  match c with
  | Create data => create s rq data
  | Update k data => update s rq k false data
  | PartialUpdate k data => partial_update s rq k data
  | Destroy k => destroy s rq k
  | Execute k trigger_type => execute s rq k trigger_type
  | EstimateResources k => estimate_resources s rq k
  | Validate k => validate s rq k
  | Scheduled => scheduled s rq
  end.

(** The store after a sequence of requests. *)
Fixpoint run (s : Store) (requests : list (Request * call)) : Store :=
  match requests with
  | [] => s
  | (rq, c) :: rest => run (fst (dispatch s rq c)) rest
  end.

End PipelineViewSet.

(** ** datasets/models.py: the methods *)


Module DatasetVersionMethods.

(** ['columns' in self.schema]; [None] is the [TypeError] of a schema
    that is not a container. *)
Definition contains_columns (schema : Py.value) : option bool :=
  match schema with
  | Py.PyDict items => Some (Py.has_key "columns" items)
  | Py.PyList xs => Some (existsb (fun x => Py.py_eq x (Py.PyStr "columns")) xs)
  | Py.PyStr s => Some (Text.contains "columns" s)
  | _ => None
  end.

(** [len(self.schema['columns'])]; [None] is a [TypeError]. *)
Definition len_columns (schema : Py.value) : option Z :=
  match schema with
  | Py.PyDict items =>
      match Py.lookup "columns" items with
      | Some columns => Py.len columns
      | None => None
      end
  | _ => None
  end.

Section Hashing.
(** [hashlib.sha256(text.encode()).hexdigest()]. *)
Variable sha256_hexdigest : string -> string.

(** [calculate_schema_hash]. *)
Definition calculate_schema_hash (v : DatasetVersion.t) : string :=
  let schema_str := Py.dumps_sorted (DatasetVersion.schema v) in
  sha256_hexdigest schema_str.

(** The first statement of [save]: the hash is filled in when the
    schema is present and no hash is stored. *)
Definition fill_schema_hash (v : DatasetVersion.t) : DatasetVersion.t :=
  if Py.truthy (DatasetVersion.schema v) && negb (Py.str_truthy (DatasetVersion.schema_hash v))
  then DatasetVersion.set_schema_hash v (calculate_schema_hash v)
  else v.

(** The second statement of [save]: the column count. *)
Definition fill_column_count (v : DatasetVersion.t) : option DatasetVersion.t :=
  if Py.truthy (DatasetVersion.schema v) then
    match contains_columns (DatasetVersion.schema v) with
    | Some true =>
        match len_columns (DatasetVersion.schema v) with
        | Some n => Some (DatasetVersion.set_column_count v n)
        | None => None
        end
    | Some false => Some v
    | None => None
    end
  else Some v.

(** [unique_together = ['dataset', 'version_number']], seen from the
    row being written. *)
Definition slot_taken (s : Store) (v : DatasetVersion.t) : bool :=
  existsb (fun w => negb (DatasetVersion.id w =? DatasetVersion.id v)%nat &&
                    (DatasetVersion.dataset w =? DatasetVersion.dataset v)%nat &&
                    (DatasetVersion.version_number w =? DatasetVersion.version_number v)%Z)
          (dataset_versions s).

(** The key of the instance is the key of a stored row. *)
Definition key_taken (s : Store) (v : DatasetVersion.t) : bool :=
  existsb (fun w => (DatasetVersion.id w =? DatasetVersion.id v)%nat) (dataset_versions s).

(** NOT NULL of the two JSONFields: Python [None] is written as SQL
    NULL. *)
Definition null_column (v : DatasetVersion.t) : bool :=
  Orm.is_null (DatasetVersion.schema v) || Orm.is_null (DatasetVersion.column_profiles v).

(** The foreign keys [dataset] and [created_by_pipeline] point to no
    row.  ([created_by] is taken to name a user.) *)
Definition dangling (s : Store) (v : DatasetVersion.t) : bool :=
  negb (existsb (fun d => (Dataset.id d =? DatasetVersion.dataset v)%nat) (datasets s)) ||
  match DatasetVersion.created_by_pipeline v with
  | Some k => negb (existsb (fun p => (Pipeline.id p =? k)%nat) (pipelines s))
  | None => false
  end.

(** The table after [super().save()] has written the row.  [adding]
    is [self._state.adding]: true for an instance built in Python,
    false for one read from the database or saved before.  An
    instance that is being added is inserted (the key has a default,
    so no UPDATE is tried) and its key must be new: [None] is the
    [IntegrityError] of the primary key.  Otherwise the row with the
    key is updated, and inserted when there is none. *)
Definition write (s : Store) (adding : bool) (v : DatasetVersion.t) : option Store :=
  if adding then
    if key_taken s v then None
    else Some (with_dataset_versions s (v :: dataset_versions s))
  else if key_taken s v then
    Some (with_dataset_versions s
            (map (fun w => if (DatasetVersion.id w =? DatasetVersion.id v)%nat then v else w)
                 (dataset_versions s)))
  else Some (with_dataset_versions s (v :: dataset_versions s)).

(** [created_at] is [auto_now_add]: an instance whose row is inserted
    takes the time of the insert. *)
Definition stamp (s : Store) (now : datetime) (adding : bool) (v : DatasetVersion.t)
  : DatasetVersion.t :=
  if adding || negb (key_taken s v) then DatasetVersion.set_created_at v now else v.

(** [save], at time [now]: the instance as written, or the exception
    raised. *)
Definition save (s : Store) (now : datetime) (adding : bool) (v : DatasetVersion.t)
  : Store * (DatasetVersion.t + string) :=
  match fill_column_count (fill_schema_hash v) with
  | None => (s, inr "TypeError")
  | Some filled =>
      let v' := stamp s now adding filled in
      if null_column v' || dangling s v' || slot_taken s v' then (s, inr "IntegrityError")
      else
        match write s adding v' with
        | Some s' => (s', inl v')
        | None => (s, inr "IntegrityError")
        end
  end.
End Hashing.

End DatasetVersionMethods.

Module DatasetQueryMethods.
Section Hashing.
Variable sha256_hexdigest : string -> string.

(** [save]: the query hash is filled in when absent. *)
Definition fill_query_hash (q : DatasetQuery.t) : DatasetQuery.t :=
  if Py.str_truthy (DatasetQuery.query_sql q) && negb (Py.str_truthy (DatasetQuery.query_hash q))
  then DatasetQuery.set_query_hash q (sha256_hexdigest (DatasetQuery.query_sql q))
  else q.

(** [DatasetQuery.objects.create(...)] as [query] calls it. *)
Definition create (s : Store) (rq : Request) (version : pk) (query_sql : string)
           (execution_time_ms rows_returned : Z) : Store * DatasetQuery.t :=
  let q :=
    fill_query_hash
      (DatasetQuery.mk (next_pk s) version query_sql EmptyString (Some (user rq))
                       (now rq) (Some execution_time_ms) (Some rows_returned)
                       true EmptyString) in
  (with_next_pk (with_dataset_queries s (q :: dataset_queries s)) (S (next_pk s)), q).
End Hashing.
End DatasetQueryMethods.

Module DatasetLineageMethods.

Definition exists_row {A : Type} (key : A -> pk) (rows : list A) (fk : option pk) : bool :=
  match fk with
  | Some k => existsb (fun r => (key r =? k)%nat) rows
  | None => true
  end.

(** [DatasetLineage.objects.create(...)].  The model declares no
    [clean], no validators and no constraint besides its foreign keys:
    the row is inserted when every key it holds points to a row, and
    [None] (an [IntegrityError]) otherwise.  The details are taken to
    be a JSON document, not Python [None], which the NOT NULL column
    does not take. *)
Definition create (s : Store) (now : datetime) (dataset_version : pk) (source_type : string)
           (source_data_source source_pipeline source_dataset_version : option pk)
           (transformation_details : Py.value)
  : option (Store * DatasetLineage.t) :=
  if exists_row DatasetVersion.id (dataset_versions s) (Some dataset_version) &&
     exists_row DataSource.id (data_sources s) source_data_source &&
     exists_row Pipeline.id (pipelines s) source_pipeline &&
     exists_row DatasetVersion.id (dataset_versions s) source_dataset_version
  then
    let edge :=
      DatasetLineage.mk (next_pk s) dataset_version source_type source_data_source
                        source_pipeline source_dataset_version transformation_details now in
    Some (with_next_pk (with_dataset_lineage s (edge :: dataset_lineage s)) (S (next_pk s)), edge)
  else None.

End DatasetLineageMethods.

(** ** datasets/serializers.py *)

Module DatasetLineageSerializer.

(** The row a foreign key points to. *)
Definition related {A : Type} (key : A -> pk) (rows : list A) (k : pk) : option A :=
  find (fun r => (key r =? k)%nat) rows.

(** [str(version)]: the dataset's name and the version number. *)
Definition version_str (s : Store) (v : DatasetVersion.t) : option string :=
  match related Dataset.id (datasets s) (DatasetVersion.dataset v) with
  | Some d => Some (Dataset.name d ++ " v" ++ Py.str_of_int (DatasetVersion.version_number v))%string
  | None => None
  end.

(** [get_source_name]: the name of the upstream entity when the
    reference that goes with [source_type] is set, [None] otherwise.
    (A key that points to no row cannot be stored; it reads as [None]
    here.) *)
Definition get_source_name (s : Store) (obj : DatasetLineage.t) : option string :=
  match DatasetLineage.source_type obj, DatasetLineage.source_data_source obj,
        DatasetLineage.source_pipeline obj, DatasetLineage.source_dataset_version obj with
  | source_type, sds, sp, sdv =>
      if ((source_type =? "source")%string &&
          match sds with Some _ => true | None => false end)%bool then
        match sds with
        | Some k => option_map DataSource.name (related DataSource.id (data_sources s) k)
        | None => None
        end
      else if ((source_type =? "pipeline")%string &&
               match sp with Some _ => true | None => false end)%bool then
        match sp with
        | Some k => option_map Pipeline.name (related Pipeline.id (pipelines s) k)
        | None => None
        end
      else if ((source_type =? "dataset")%string &&
               match sdv with Some _ => true | None => false end)%bool then
        match sdv with
        | Some k =>
            match related DatasetVersion.id (dataset_versions s) k with
            | Some v => version_str s v
            | None => None
            end
        | None => None
        end
      else None
  end.

End DatasetLineageSerializer.

(** ** datasets/views.py *)

Module DatasetViewSet.

(** [get_queryset]: datasets of the user's projects that are not
    flagged deleted, narrowed by [project], [visibility] and [search]. *)
Definition get_queryset (s : Store) (rq : Request) : list Dataset.t :=
  let user_projects := Orm.user_projects s (user rq) in
  let queryset :=
    filter (fun d => Orm.pk_in (Dataset.project d) user_projects &&
                     negb (Dataset.is_deleted d))
           (datasets s) in
  let queryset :=
    match query_project rq with
    | Some project_id => filter (fun d => (Dataset.project d =? project_id)%nat) queryset
    | None => queryset
    end in
  let queryset :=
    match given (query_visibility rq) with
    | Some visibility => filter (fun d => (Dataset.visibility d =? visibility)%string) queryset
    | None => queryset
    end in
  match given (query_search rq) with
  | Some search => filter (fun d => Text.icontains (Dataset.name d) search) queryset
  | None => queryset
  end.

Definition get_object (s : Store) (rq : Request) (k : pk) : Orm.get_result Dataset.t :=
  Orm.get (filter (fun d => (Dataset.id d =? k)%nat) (get_queryset s rq)).

Definition on_object (s : Store) (rq : Request) (k : pk)
           (action : Dataset.t -> Store * Response) : Store * Response :=
  match get_object s rq k with
  | Orm.Found dataset => action dataset
  | Orm.DoesNotExist => (s, not_found)
  | Orm.MultipleObjectsReturned => (s, server_error "MultipleObjectsReturned")
  end.

(** [dataset.versions.get(version_number=version_number)]. *)
Definition get_version (s : Store) (dataset : Dataset.t) (version_number : Z)
  : Orm.get_result DatasetVersion.t :=
  Orm.get (filter (fun v => (DatasetVersion.version_number v =? version_number)%Z)
                  (Orm.dataset_versions_of s (Dataset.id dataset))).

(** The 404 of a version that is not there.  The number is printed as
    an integer; where the code takes it from the URL or the query
    string it prints the text it was given (leading zeros kept). *)
Definition version_not_found (version_number : Z) : Response :=
  mkResponse Http.HTTP_404_NOT_FOUND
    (ErrorDetail ("Version " ++ Py.str_of_int version_number ++ " not found")).

(** [delete_version]. *)
Definition delete_version (s : Store) (rq : Request) (k : pk) (version_number : Z)
  : Store * Response :=
  on_object s rq k (fun dataset =>
    match get_version s dataset version_number with
    | Orm.DoesNotExist => (s, version_not_found version_number)
    | Orm.MultipleObjectsReturned => (s, server_error "MultipleObjectsReturned")
    | Orm.Found version =>
        if (Orm.count (Orm.dataset_versions_of s (Dataset.id dataset)) =? 1)%Z then
          (s, error_response "Cannot delete the only version")
        else if (DatasetVersion.version_number version =? Dataset.current_version dataset)%Z then
          (s, error_response
                "Cannot delete the current version. Set a different version as current first.")
        else
          (Orm.delete_dataset_version s (DatasetVersion.id version),
           mkResponse Http.HTTP_204_NO_CONTENT NoContent)
    end).

(** The request data of [query]. *)
Module QueryData.
Record t : Type := mk {
  version : option Z;
  query : option string;
  limit : option Z
}.
End QueryData.

Section Hashing.
Variable sha256_hexdigest : string -> string.

(** [query]: the result is the mock the code returns for now. *)
Definition query (s : Store) (rq : Request) (k : pk) (data : QueryData.t)
  : Store * Response :=
  on_object s rq k (fun dataset =>
    let version_number :=
      match QueryData.version data with Some n => n | None => Dataset.current_version dataset end in
    let query_sql := match QueryData.query data with Some q => q | None => EmptyString end in
    if negb (Py.str_truthy query_sql) then
      (s, error_response "Query SQL is required")
    else
      match get_version s dataset version_number with
      | Orm.DoesNotExist => (s, version_not_found version_number)
      | Orm.MultipleObjectsReturned => (s, server_error "MultipleObjectsReturned")
      | Orm.Found version =>
          if negb (DatasetVersion.state version =? "ready")%string then
            (s, error_response
                  ("Dataset version is not ready (state: " ++
                   DatasetVersion.state version ++ ")"))
          else
            let columns := ["id"; "name"; "age"] in
            let rows := [[Py.PyInt 1; Py.PyStr "Alice"; Py.PyInt 30];
                         [Py.PyInt 2; Py.PyStr "Bob"; Py.PyInt 25]] in
            let row_count := 2%Z in
            let execution_time_ms := 45%Z in
            let (s', _) :=
              DatasetQueryMethods.create sha256_hexdigest s rq (DatasetVersion.id version)
                query_sql execution_time_ms row_count in
            (s', mkResponse Http.HTTP_200_OK
                   (QueryResultData columns rows row_count execution_time_ms))
      end).
End Hashing.

End DatasetViewSet.

(** ** Vocabulary of the properties *)

(** The executions of pipeline [k] that have not ended. *)
Definition active_executions (s : Store) (k : pk) : list PipelineExecution.t :=
  filter (fun e => negb (PipelineExecution.is_terminal e)) (Orm.executions_of s k).

(** The lifecycle states from which [execute] starts a run. *)
Definition triggerable (state : string) : bool :=
  Py.str_in state ["ready"; "completed"; "failed"].

(** No row of pipeline [k] is in a state from which a run can start. *)
Definition locked (s : Store) (k : pk) : Prop :=
  forall p, In p (pipelines s) -> Pipeline.id p = k -> triggerable (Pipeline.state p) = false.

(** Every stored version of pipeline [k] is numbered at most [n]. *)
Definition versions_bounded (s : Store) (k : pk) (n : Z) : bool :=
  forallb (fun v => (PipelineVersion.version_number v <=? n)%Z) (Orm.versions_of s k).

(** The version numbers of pipeline [k], newest row first. *)
Definition version_numbers (s : Store) (k : pk) : list Z :=
  map PipelineVersion.version_number (Orm.versions_of s k).






(** ** A small database

    One project (10) with one member (user 1), two pipelines with
    their first versions, a dataset with three versions and one with a
    single version, and a lineage edge.  User 2 belongs to no project. *)

Module Sample.
Import Py.

Definition filter_config : value :=
  PyDict [("steps", PyList [PyDict [("type", PyStr "filter_rows")]])].
Definition dedupe_config : value :=
  PyDict [("steps", PyList [PyDict [("type", PyStr "drop_duplicates")]])].

Definition alice : Request := mkRequest 1 100 None None None None.
Definition bob : Request := mkRequest 2 100 None None None None.

Definition sales : Pipeline.t :=
  Pipeline.mk 1 "sales" EmptyString 10 20 "sales_clean" "manual" EmptyString
              filter_config None None None None "ready" None EmptyString None
              1 0 0 (Some 1) false None.
Definition nightly : Pipeline.t :=
  Pipeline.mk 3 "nightly" EmptyString 10 20 "sales_daily" "scheduled" "0 2 * * *"
              filter_config None None None None "ready" None EmptyString (Some 90%Z)
              1 0 0 (Some 1) false None.

Definition sales_v1 : PipelineVersion.t :=
  PipelineVersion.mk 2 1 1 filter_config (Some 1) 0 "Initial version".
Definition nightly_v1 : PipelineVersion.t :=
  PipelineVersion.mk 4 3 1 filter_config (Some 1) 0 "Initial version".

Definition id_first : value :=
  PyDict [("columns",
           PyList [PyDict [("name", PyStr "id"); ("type", PyStr "INTEGER")];
                   PyDict [("name", PyStr "total"); ("type", PyStr "DECIMAL")]])].
(** The same schema with the keys of every dict in another order. *)
Definition type_first : value :=
  PyDict [("columns",
           PyList [PyDict [("type", PyStr "INTEGER"); ("name", PyStr "id")];
                   PyDict [("type", PyStr "DECIMAL"); ("name", PyStr "total")]])].

Definition orders : Dataset.t :=
  Dataset.mk 30 "orders" EmptyString 10 "project" (PyList []) 2 0 0 (Some 1) false None.
Definition solo : Dataset.t :=
  Dataset.mk 35 "solo" EmptyString 10 "project" (PyList []) 1 0 0 (Some 1) false None.

Definition orders_v1 : DatasetVersion.t :=
  DatasetVersion.mk 31 30 1 "ready" id_first "f00d" 10 2 100 "datasets_10_orders_v1"
                    0 0 (PyDict []) 0 (Some 1) (Some 1) EmptyString.
Definition orders_v2 : DatasetVersion.t :=
  DatasetVersion.mk 32 30 2 "ready" id_first "f00d" 12 2 120 "datasets_10_orders_v2"
                    0 0 (PyDict []) 0 (Some 1) (Some 1) EmptyString.
Definition orders_v3 : DatasetVersion.t :=
  DatasetVersion.mk 33 30 3 "creating" type_first EmptyString 0 0 0 "datasets_10_orders_v3"
                    0 0 (PyDict []) 0 (Some 1) None EmptyString.
Definition solo_v1 : DatasetVersion.t :=
  DatasetVersion.mk 36 35 1 "ready" id_first "f00d" 1 2 10 "datasets_10_solo_v1"
                    0 0 (PyDict []) 0 (Some 1) None EmptyString.

Definition edge : DatasetLineage.t :=
  DatasetLineage.mk 40 32 "pipeline" None (Some 1) None (PyDict []) 0.

Definition store : Store :=
  mkStore [sales; nightly] [sales_v1; nightly_v1] []
          [orders; solo] [orders_v1; orders_v2; orders_v3; solo_v1]
          [edge] [] [DataSource.mk 20 "warehouse"]
          [Project.mk 10 "analytics"]
          [ProjectMembership.mk 10 1] 100.

(** The sample database after user 1 has started a run of [sales]. *)
Definition store_running : Store := fst (PipelineViewSet.execute store alice 1 None).

(** A change of config, and a request for a scheduled pipeline without
    its schedule. *)
Definition new_config : PipelineSerializer.validated_data :=
  PipelineSerializer.mk None None None None None None None (Some dedupe_config)
                        None None None None None.
Definition definition : PipelineSerializer.validated_data :=
  PipelineSerializer.mk (Some "returns") None (Some 10) (Some 20) (Some "returns_clean")
                        None None (Some dedupe_config) None None None None None.


(** The sample database while a run of [sales] that was started at
    time 60 is going on and the pipeline is (again) in state ready. *)
Definition earlier_run : PipelineExecution.t :=
  PipelineExecution.mk 50 1 (Some 2) "running" "manual" (Some 1) 60 (Some 61%Z) None
                       None 0 None None None EmptyString EmptyString EmptyString None.
Definition store_midrun : Store := with_pipeline_executions store [earlier_run].


(** A stand-in for SHA-256 where an example needs one: the properties
    use the digest only as a function of the text. *)
Definition digest (text : string) : string := text.

End Sample.

(** ** The read-only actions and the serializer's method fields *)

Module Ordering.

(** [order_by('-key')]: a stable sort, largest key first. *)
Fixpoint insert_desc {A : Type} (key : A -> Z) (x : A) (l : list A) : list A :=
  match l with
  | [] => [x]
  | h :: t => if (key h <=? key x)%Z then x :: l else h :: insert_desc key x t
  end.

Definition order_desc {A : Type} (key : A -> Z) (l : list A) : list A :=
  fold_right (insert_desc key) [] l.

(** [QuerySet.first()]. *)
Definition first {A : Type} (l : list A) : option A := hd_error l.

End Ordering.

(** What a read-only action answers with. *)
Module Read.

Inductive payload : Type :=
| Refused (b : body)
| VersionsData (versions : list PipelineVersion.t)
| SchemaData (version : Z) (schema : Py.value) (schema_hash : string)
| LineageData (dataset : string) (version : Z)
              (lineage : list (DatasetLineage.t * option string))
| QueriesData (queries : list DatasetQuery.t).

Record response : Type := mk {
  status : Http.status;
  content : payload
}.

Definition not_found : response := mk Http.HTTP_404_NOT_FOUND (Refused Http404).
Definition error (code : Http.status) (msg : string) : response :=
  mk code (Refused (ErrorDetail msg)).
Definition server_error (exc : string) : response :=
  mk Http.HTTP_500_INTERNAL_SERVER_ERROR (Refused (Exception exc)).

End Read.

Module PipelineReads.

(** [PipelineSerializer.get_current_version_detail]: [None] when the
    pipeline has no version numbered [current_version]; the other
    exception of [get] is not caught. *)
Definition get_current_version_detail (s : Store) (obj : Pipeline.t)
  : option PipelineVersion.t + string :=
  match Orm.get (filter (fun v => (PipelineVersion.version_number v =?
                                   Pipeline.current_version obj)%Z)
                        (Orm.versions_of s (Pipeline.id obj))) with
  | Orm.Found version => inl (Some version)
  | Orm.DoesNotExist => inl None
  | Orm.MultipleObjectsReturned => inr "MultipleObjectsReturned"
  end.

(** [PipelineSerializer.get_latest_execution]: [obj.executions.first()]
    under [ordering = ['-queued_at']]. *)
Definition get_latest_execution (s : Store) (obj : Pipeline.t) : option PipelineExecution.t :=
  Ordering.first
    (Ordering.order_desc PipelineExecution.queued_at (Orm.executions_of s (Pipeline.id obj))).

(** [PipelineViewSet.versions]: the versions of the pipeline under
    [ordering = ['-version_number']]. *)
Definition versions (s : Store) (rq : Request) (k : pk) : Read.response :=
  match PipelineViewSet.get_object s rq k with
  | Orm.Found pipeline =>
      Read.mk Http.HTTP_200_OK
        (Read.VersionsData
           (Ordering.order_desc PipelineVersion.version_number
              (Orm.versions_of s (Pipeline.id pipeline))))
  | Orm.DoesNotExist => Read.not_found
  | Orm.MultipleObjectsReturned => Read.server_error "MultipleObjectsReturned"
  end.

End PipelineReads.

Module DatasetReads.

(** [Dataset.get_latest_version]:
    [self.versions.order_by('-version_number').first()]. *)
Definition get_latest_version (s : Store) (dataset : Dataset.t) : option DatasetVersion.t :=
  Ordering.first
    (Ordering.order_desc DatasetVersion.version_number
       (Orm.dataset_versions_of s (Dataset.id dataset))).

(** [DatasetViewSet.schema]. *)
Definition schema (s : Store) (rq : Request) (k : pk) : Read.response :=
  match DatasetViewSet.get_object s rq k with
  | Orm.Found dataset =>
      match get_latest_version s dataset with
      | None => Read.error Http.HTTP_404_NOT_FOUND "No versions available"
      | Some version =>
          Read.mk Http.HTTP_200_OK
            (Read.SchemaData (DatasetVersion.version_number version)
                             (DatasetVersion.schema version)
                             (DatasetVersion.schema_hash version))
      end
  | Orm.DoesNotExist => Read.not_found
  | Orm.MultipleObjectsReturned => Read.server_error "MultipleObjectsReturned"
  end.

(** [DatasetViewSet.lineage]: the edges of one version under
    [ordering = ['-created_at']], each with its [source_name]; the
    version is the one the request names, the current one otherwise. *)
Definition lineage (s : Store) (rq : Request) (k : pk) (version : option Z) : Read.response :=
  match DatasetViewSet.get_object s rq k with
  | Orm.Found dataset =>
      let version_number :=
        match version with Some n => n | None => Dataset.current_version dataset end in
      match DatasetViewSet.get_version s dataset version_number with
      | Orm.DoesNotExist =>
          Read.error Http.HTTP_404_NOT_FOUND
            ("Version " ++ Py.str_of_int version_number ++ " not found")
      | Orm.MultipleObjectsReturned => Read.server_error "MultipleObjectsReturned"
      | Orm.Found v =>
          Read.mk Http.HTTP_200_OK
            (Read.LineageData (Dataset.name dataset) (DatasetVersion.version_number v)
               (map (fun l => (l, DatasetLineageSerializer.get_source_name s l))
                    (Ordering.order_desc DatasetLineage.created_at
                       (Orm.lineage_of s (DatasetVersion.id v)))))
      end
  | Orm.DoesNotExist => Read.not_found
  | Orm.MultipleObjectsReturned => Read.server_error "MultipleObjectsReturned"
  end.

(** [dataset_version__dataset=dataset]: the log rows of the versions
    of one dataset. *)
Definition logged_for (s : Store) (d : pk) (q : DatasetQuery.t) : bool :=
  existsb (fun v => (DatasetVersion.id v =? DatasetQuery.dataset_version q)%nat &&
                    (DatasetVersion.dataset v =? d)%nat)
          (dataset_versions s).

(** [DatasetViewSet.query_history]: the queryset the action serializes
    under [ordering = ['-executed_at']] (a configured paginator cuts its
    page from this list).  A [success] parameter, even an empty one,
    keeps the rows whose flag equals [success.lower() == 'true']. *)
Definition query_history (s : Store) (rq : Request) (k : pk) (success : option string)
  : Read.response :=
  match DatasetViewSet.get_object s rq k with
  | Orm.Found dataset =>
      let queries := filter (logged_for s (Dataset.id dataset)) (dataset_queries s) in
      let queries :=
        match success with
        | Some flag =>
            filter (fun q => Bool.eqb (DatasetQuery.success q)
                                      (Text.lower flag =? "true")%string)
                   queries
        | None => queries
        end in
      Read.mk Http.HTTP_200_OK
        (Read.QueriesData (Ordering.order_desc DatasetQuery.executed_at queries))
  | Orm.DoesNotExist => Read.not_found
  | Orm.MultipleObjectsReturned => Read.server_error "MultipleObjectsReturned"
  end.

End DatasetReads.

(** ** Vocabulary of the further properties *)

(** [n; n - 1; ...; 1]. *)
Fixpoint countdown (n : nat) : list Z :=
  match n with
  | O => []
  | S m => Z.of_nat n :: countdown m
  end.

(** The versions of the pipeline of row [p] are numbered
    [current_version] down to 1, newest row first. *)
Definition history_ok (s : Store) (p : Pipeline.t) : Prop :=
  (1 <= Pipeline.current_version p)%Z /\
  version_numbers s (Pipeline.id p) = countdown (Z.to_nat (Pipeline.current_version p)).

(** Every pipeline has its gap-free history, and no row carries a key
    that is still to be handed out. *)
Definition consistent (s : Store) : Prop :=
  Forall (fun p => (Pipeline.id p < next_pk s)%nat /\ history_ok s p) (pipelines s) /\
  Forall (fun v => (PipelineVersion.pipeline v < next_pk s)%nat) (pipeline_versions s).

(** The requests that address the pipeline with key [k]. *)
Definition addresses (c : PipelineViewSet.call) (k : pk) : bool :=
  match c with
  | PipelineViewSet.Update k' _ | PipelineViewSet.PartialUpdate k' _
  | PipelineViewSet.Destroy k'
  | PipelineViewSet.Execute k' _ | PipelineViewSet.EstimateResources k'
  | PipelineViewSet.Validate k' => (k' =? k)%nat
  | _ => false
  end.

(** The caller of [rq] cannot see any row with key [k]: each is
    flagged deleted or belongs to a project the caller is not in. *)
Definition hidden (s : Store) (rq : Request) (k : pk) : Prop :=
  forall p, In p (pipelines s) -> Pipeline.id p = k ->
            Pipeline.is_deleted p = true \/
            Orm.pk_in (Pipeline.project p) (Orm.user_projects s (user rq)) = false.

(** Primary keys are distinct. *)
Definition distinct_keys {A : Type} (key : A -> pk) (rows : list A) : Prop :=
  NoDup (map key rows).

(** * Properties *)

(** ** The canonical JSON text does not depend on the order of keys *)

Module PyFacts.
Import Py.

Lemma compare_not_Gt_trans (a b c : string) :
  String.compare a b <> Gt -> String.compare b c <> Gt -> String.compare a c <> Gt.
Proof.
  revert b c; induction a as [|x a IH]; intros [|y b] [|z c]; simpl; try congruence.
  unfold Ascii.compare.
  destruct (N.compare_spec (N_of_ascii x) (N_of_ascii y)) as [Hxy|Hxy|Hxy];
    destruct (N.compare_spec (N_of_ascii y) (N_of_ascii z)) as [Hyz|Hyz|Hyz];
    try congruence; intros Hab Hbc.
  - rewrite Hxy, Hyz, N.compare_refl. now apply IH with b.
  - rewrite Hxy. apply N.compare_lt_iff in Hyz. now rewrite Hyz.
  - rewrite <- Hyz. apply N.compare_lt_iff in Hxy. now rewrite Hxy.
  - assert (H : (N_of_ascii x < N_of_ascii z)%N) by lia.
    apply N.compare_lt_iff in H. now rewrite H.
Qed.

Lemma leb_trans (a b c : string) :
  (a <=? b)%string = true -> (b <=? c)%string = true -> (a <=? c)%string = true.
Proof.
  unfold String.leb; intros Hab Hbc.
  assert (H : String.compare a c <> Gt).
  { apply compare_not_Gt_trans with b.
    - destruct (String.compare a b); congruence.
    - destruct (String.compare b c); congruence. }
  destruct (String.compare a c); congruence.
Qed.

Lemma leb_false_flip (a b : string) :
  (a <=? b)%string = false -> (b <=? a)%string = true.
Proof.
  intros H; destruct (String.leb_total a b) as [E|E]; congruence.
Qed.

(** Two insertions with different keys commute. *)
Lemma insert_item_comm {A : Type} (x y : string * A) (l : list (string * A)) :
  fst x <> fst y ->
  insert_item x (insert_item y l) = insert_item y (insert_item x l).
Proof.
  intros Hne; induction l as [|h t IH]; simpl.
  - destruct (fst x <=? fst y)%string eqn:Exy, (fst y <=? fst x)%string eqn:Eyx; try reflexivity.
    + exfalso; apply Hne; now apply String.leb_antisym.
    + apply leb_false_flip in Exy; congruence.
  - destruct (fst y <=? fst h)%string eqn:Eyh, (fst x <=? fst h)%string eqn:Exh; simpl.
    + destruct (fst x <=? fst y)%string eqn:Exy, (fst y <=? fst x)%string eqn:Eyx;
        rewrite ?Exh, ?Eyh; try reflexivity.
      * exfalso; apply Hne; now apply String.leb_antisym.
      * apply leb_false_flip in Exy; congruence.
    + destruct (fst x <=? fst y)%string eqn:Exy.
      * rewrite (leb_trans _ _ _ Exy Eyh) in Exh; discriminate.
      * now rewrite Exh, Eyh.
    + destruct (fst y <=? fst x)%string eqn:Eyx.
      * rewrite (leb_trans _ _ _ Eyx Exh) in Eyh; discriminate.
      * now rewrite Eyh, Exh.
    + now rewrite Exh, Eyh, IH.
Qed.

Lemma sorted_items_perm {A : Type} (l1 l2 : list (string * A)) :
  Permutation l1 l2 -> NoDup (map fst l1) -> sorted_items l1 = sorted_items l2.
Proof.
  induction 1 as [|x l l' Hp IH|x y l|l l' l'' Hp1 IH1 Hp2 IH2]; intros Hnd; simpl.
  - reflexivity.
  - inversion Hnd; subst. now rewrite IH.
  - apply insert_item_comm.
    simpl in Hnd. inversion Hnd as [|? ? Hin _]; subst.
    intros E. apply Hin. left. now symmetry.
  - rewrite IH1 by assumption. apply IH2.
    eapply Permutation_NoDup; [apply Permutation_map; exact Hp1 | exact Hnd].
Qed.

Lemma str_in_In (x : string) (l : list string) : str_in x l = true <-> In x l.
Proof.
  unfold str_in. rewrite existsb_exists. split.
  - intros [y [Hy E]]. apply String.eqb_eq in E. now subst.
  - intros H. exists x. split; [assumption | apply String.eqb_refl].
Qed.

Lemma distinct_NoDup (l : list string) : distinct l = true -> NoDup l.
Proof.
  induction l as [|x l IH]; simpl; intros H; constructor.
  - apply andb_prop in H as [H _]. intros Hin. apply str_in_In in Hin.
    rewrite Hin in H. discriminate.
  - apply andb_prop in H as [_ H]. now apply IH.
Qed.

(** Sorting commutes with encoding the values: the encoder's items are
    the sorted items of the dict, each encoded in turn. *)
Lemma insert_item_map {A B : Type} (f : A -> B) (kv : string * A) (l : list (string * A)) :
  insert_item (fst kv, f (snd kv)) (map (fun x => (fst x, f (snd x))) l) =
  map (fun x => (fst x, f (snd x))) (insert_item kv l).
Proof.
  induction l as [|h t IH]; simpl; [reflexivity|].
  destruct (fst kv <=? fst h)%string; simpl; [reflexivity | now rewrite IH].
Qed.

Lemma sorted_items_map {A B : Type} (f : A -> B) (l : list (string * A)) :
  sorted_items (map (fun x => (fst x, f (snd x))) l) =
  map (fun x => (fst x, f (snd x))) (sorted_items l).
Proof.
  induction l as [|h t IH]; simpl; [reflexivity|].
  rewrite IH. apply insert_item_map.
Qed.

Lemma encoded_items_eq (items : list (string * value)) :
  map (fun kv => match kv with (k, w) => (k, dumps_sorted w) end) items =
  map (fun x => (fst x, dumps_sorted (snd x))) items.
Proof. apply map_ext. now intros [k w]. Qed.

Lemma dumps_dict (items : list (string * value)) :
  dumps_sorted (PyDict items) =
  ("{" ++ String.concat ", "
            (map (fun kv => encode_basestring_ascii (fst kv) ++ ": " ++ dumps_sorted (snd kv))
                 (sorted_items items))
       ++ "}")%string.
Proof.
  simpl. rewrite encoded_items_eq, sorted_items_map, map_map. reflexivity.
Qed.

(** The encoded items of two dicts with the same content are a
    permutation of each other. *)
Lemma same_content_dumps (a : value) :
  forall b, same_content a b -> well_formed a = true -> dumps_sorted a = dumps_sorted b.
Proof.
  induction a as [| | | |xs IH|items IH] using value_ind'; intros other Hsc Hwf;
    inversion Hsc; subst; try reflexivity.
  - (* lists *)
    simpl. f_equal. f_equal. f_equal.
    simpl in Hwf. rewrite forallb_forall in Hwf.
    match goal with H : Forall2 same_content xs _ |- _ => rename H into HF end.
    clear Hsc. induction HF as [|x y xs' ys' Hxy HF IHF]; simpl; [reflexivity|].
    inversion IH; subst. f_equal.
    + match goal with H : forall b, same_content x b -> _ |- _ => apply H end;
        [assumption | apply Hwf; now left].
    + apply IHF; [assumption | intros z Hz; apply Hwf; now right].
  - (* dicts *)
    simpl. f_equal. f_equal. f_equal. f_equal.
    simpl in Hwf. apply andb_prop in Hwf as [Hd Hwf].
    rewrite forallb_forall in Hwf.
    match goal with H : Forall2 _ items ?z, P : Permutation ?z _ |- _ =>
      rename H into HF; rename P into HP; rename z into zs end.
    rewrite !encoded_items_eq.
    assert (E : map (fun x => (fst x, dumps_sorted (snd x))) items =
                map (fun x => (fst x, dumps_sorted (snd x))) zs).
    { clear Hsc HP Hd. induction HF as [|x z xs' zs' [Hk Hv] HF IHF]; simpl; [reflexivity|].
      inversion IH; subst. f_equal.
      - rewrite Hk. f_equal.
        match goal with H : forall b, same_content (snd x) b -> _ |- _ => apply H end;
          [assumption|].
        specialize (Hwf x (or_introl eq_refl)). now destruct x.
      - apply IHF; [assumption | intros w Hw; apply Hwf; now right]. }
    rewrite E. apply sorted_items_perm.
    + now apply Permutation_map.
    + rewrite <- E, map_map. simpl. now apply distinct_NoDup.
Qed.

Lemma lookup_in {A : Type} (l : list (string * A)) (k : string) (w : A) :
  NoDup (map fst l) -> In (k, w) l -> lookup k l = Some w.
Proof.
  induction l as [|[k' v'] l IH]; simpl; [contradiction|].
  intros Hnd [E|Hin].
  - injection E as -> ->. now rewrite String.eqb_refl.
  - inversion Hnd as [|? ? Hnot Hnd']; subst.
    destruct (String.eqb_spec k' k) as [->|Hne].
    + exfalso. apply Hnot. change k with (fst (k, w)). now apply in_map.
    + now apply IH.
Qed.

Lemma forall2_keys (xs zs : list (string * value)) :
  Forall2 (fun x z => fst x = fst z /\ same_content (snd x) (snd z)) xs zs ->
  map fst xs = map fst zs.
Proof.
  induction 1 as [|x z xs zs [Hk _] _ IH]; simpl; [reflexivity|]. now rewrite Hk, IH.
Qed.

(** Values with the same content are equal for Python's [==]. *)
Lemma py_eq_same_content (a : value) :
  forall b, same_content a b -> well_formed a = true -> py_eq a b = true.
Proof.
  induction a as [| | | |xs IH|items IH] using value_ind'; intros other Hsc Hwf;
    inversion Hsc; subst; simpl.
  - reflexivity.
  - apply Bool.eqb_reflx.
  - apply Z.eqb_refl.
  - apply String.eqb_refl.
  - simpl in Hwf. rewrite forallb_forall in Hwf.
    match goal with H : Forall2 same_content xs _ |- _ => rename H into HF end.
    clear Hsc. induction HF as [|x y xs' ys' Hxy HF IHF]; [reflexivity|].
    inversion IH; subst. apply andb_true_intro. split.
    + match goal with H : forall b, same_content x b -> _ |- _ => apply H end;
        [assumption | apply Hwf; now left].
    + apply IHF; [assumption | intros z Hz; apply Hwf; now right].
  - simpl in Hwf. apply andb_prop in Hwf as [Hd Hwf].
    rewrite forallb_forall in Hwf.
    match goal with H : Forall2 _ items ?z, P : Permutation ?z _ |- _ =>
      rename H into HF; rename P into HP; rename z into zs end.
    assert (Hnd : NoDup (map fst ys)).
    { eapply Permutation_NoDup; [apply Permutation_map; exact HP|].
      rewrite <- (forall2_keys _ _ HF). now apply PyFacts.distinct_NoDup. }
    apply andb_true_intro. split.
    + apply Nat.eqb_eq. rewrite <- (Permutation_length HP).
      pose proof (f_equal (@List.length string) (forall2_keys _ _ HF)) as Hlen.
      now rewrite !length_map in Hlen.
    + assert (Hin : forall z, In z zs -> In z ys)
        by (intros z Hz; now apply (Permutation_in _ HP)).
      clear Hsc HP Hd. induction HF as [|x z xs' zs' [Hk Hv] HF IHF]; [reflexivity|].
      inversion IH; subst. destruct x as [k v], z as [k' w]. simpl in Hk, Hv. subst k'.
      rewrite (lookup_in ys k w Hnd (Hin _ (or_introl eq_refl))).
      apply andb_true_intro. split.
      * match goal with H : forall b, same_content (snd (k, v)) b -> _ |- _ =>
          apply (H w Hv) end.
        apply (Hwf (k, v)). now left.
      * apply IHF; [assumption | intros y Hy; apply Hwf; now right
                   | intros y Hy; apply Hin; now right].
Qed.



End PyFacts.

(** ** Schema fingerprints *)

Module FingerprintFacts.
Import DatasetVersionMethods.

Section Hashing.
Variable sha256_hexdigest : string -> string.

Lemma schema_hash_set_column_count (v : DatasetVersion.t) (n : Z) :
  DatasetVersion.schema_hash (DatasetVersion.set_column_count v n) = DatasetVersion.schema_hash v.
Proof. reflexivity. Qed.

Lemma fill_column_count_hash (v v' : DatasetVersion.t) :
  fill_column_count v = Some v' -> DatasetVersion.schema_hash v' = DatasetVersion.schema_hash v.
Proof.
  unfold fill_column_count.
  destruct (Py.truthy (DatasetVersion.schema v)); [|now intros [= <-]].
  destruct (contains_columns (DatasetVersion.schema v)) as [[|]|]; try discriminate.
  - destruct (len_columns (DatasetVersion.schema v)); [|discriminate].
    now intros [= <-].
  - now intros [= <-].
Qed.

(** A stored hash survives the first statement of [save]. *)
Lemma fill_schema_hash_keeps (u : DatasetVersion.t) :
  DatasetVersion.schema_hash u <> EmptyString ->
  fill_schema_hash sha256_hexdigest u = u.
Proof.
  intros H. unfold fill_schema_hash, Py.str_truthy.
  destruct (String.eqb_spec (DatasetVersion.schema_hash u) EmptyString) as [E|E];
    [contradiction|].
  simpl. now rewrite andb_false_r.
Qed.

(** What [save] returns carries the hash the first statement left. *)
(** The time stamp touches [created_at] only. *)
Lemma stamp_cases (s : Store) (now : datetime) (adding : bool) (v : DatasetVersion.t) :
  stamp s now adding v = v \/ stamp s now adding v = DatasetVersion.set_created_at v now.
Proof. unfold stamp. destruct (adding || negb (key_taken s v)); auto. Qed.

Lemma save_hash (s s' : Store) (now : datetime) (adding : bool) (u u' : DatasetVersion.t) :
  save sha256_hexdigest s now adding u = (s', inl u') ->
  DatasetVersion.schema_hash u' =
  DatasetVersion.schema_hash (fill_schema_hash sha256_hexdigest u).
Proof.
  unfold save.
  destruct (fill_column_count (fill_schema_hash sha256_hexdigest u)) as [w|] eqn:E;
    [|discriminate].
  cbv zeta.
  destruct (null_column _ || dangling s _ || slot_taken s _); [discriminate|].
  destruct (write s adding _); [|discriminate].
  intros [= _ <-]. rewrite <- (fill_column_count_hash _ _ E).
  destruct (stamp_cases s now adding w) as [->| ->]; reflexivity.
Qed.

(** A [save] that raises leaves the store as it was. *)
Lemma save_raises (s s' : Store) (now : datetime) (adding : bool) (u : DatasetVersion.t)
      (exc : string) :
  save sha256_hexdigest s now adding u = (s', inr exc) -> s' = s.
Proof.
  unfold save.
  destruct (fill_column_count (fill_schema_hash sha256_hexdigest u)) as [w|];
    [|now intros [= <- _]].
  cbv zeta.
  destruct (null_column _ || dangling s _ || slot_taken s _); [now intros [= <- _]|].
  destruct (write s adding _); [discriminate | now intros [= <- _]].
Qed.

End Hashing.

(** C5.  The fingerprint is the hash of the canonical JSON text of the
    schema: two versions whose schemas have the same content, whatever
    the order of the keys of their dicts, get the same fingerprint.
    [save] computes the fingerprint only for a version that stores none:
    a version that already stores one keeps it through [save], and a
    version with a schema and no stored fingerprint gets the computed
    one. *)
Theorem schema_fingerprint_canonical_and_kept
        (sha256_hexdigest : string -> string) (v w u : DatasetVersion.t) (s : Store)
        (now : datetime) (adding : bool) :
  Py.well_formed (DatasetVersion.schema v) = true ->
  Py.same_content (DatasetVersion.schema v) (DatasetVersion.schema w) ->
  DatasetVersion.schema_hash u <> EmptyString ->
  calculate_schema_hash sha256_hexdigest v = calculate_schema_hash sha256_hexdigest w /\
  DatasetVersion.schema_hash (fill_schema_hash sha256_hexdigest u) = DatasetVersion.schema_hash u /\
  match save sha256_hexdigest s now adding u with
  | (s', inl u') => DatasetVersion.schema_hash u' = DatasetVersion.schema_hash u
  | (s', inr _) => s' = s
  end /\
  (DatasetVersion.schema_hash v = EmptyString ->
   Py.truthy (DatasetVersion.schema v) = true ->
   DatasetVersion.schema_hash (fill_schema_hash sha256_hexdigest v) =
   sha256_hexdigest (Py.dumps_sorted (DatasetVersion.schema v))).
Proof.
  intros Hwf Hsc Hset. repeat split.
  - unfold calculate_schema_hash. f_equal. now apply PyFacts.same_content_dumps.
  - now rewrite fill_schema_hash_keeps.
  - destruct (save sha256_hexdigest s now adding u) as [s' [u'|exc]] eqn:E.
    + rewrite (save_hash _ _ _ _ _ _ _ E). now rewrite fill_schema_hash_keeps.
    + exact (save_raises _ _ _ _ _ _ _ E).
  - intros Hnone Htruthy. unfold fill_schema_hash, Py.str_truthy.
    rewrite Htruthy, Hnone. reflexivity.
Qed.

Lemma sample_schemas_same_content : Py.same_content Sample.id_first Sample.type_first.
Proof.
  unfold Sample.id_first, Sample.type_first.
  eapply Py.sc_dict; [|apply Permutation_refl].
  constructor; [|constructor]. split; [reflexivity|]. simpl.
  apply Py.sc_list.
  constructor; [|constructor; [|constructor]].
  - eapply Py.sc_dict; [|apply perm_swap].
    repeat constructor.
  - eapply Py.sc_dict; [|apply perm_swap].
    repeat constructor.
Qed.

Lemma schema_fingerprint_canonical_and_kept_witness :
  Py.well_formed (DatasetVersion.schema Sample.orders_v1) = true /\
  Py.same_content (DatasetVersion.schema Sample.orders_v1)
                  (DatasetVersion.schema Sample.orders_v3) /\
  DatasetVersion.schema_hash Sample.orders_v2 <> EmptyString /\
  calculate_schema_hash Sample.digest Sample.orders_v1 =
  calculate_schema_hash Sample.digest Sample.orders_v3 /\
  DatasetVersion.schema_hash (fill_schema_hash Sample.digest Sample.orders_v2) = "f00d".
Proof.
  assert (H1 : Py.well_formed (DatasetVersion.schema Sample.orders_v1) = true) by reflexivity.
  assert (H3 : DatasetVersion.schema_hash Sample.orders_v2 <> EmptyString) by discriminate.
  destruct (schema_fingerprint_canonical_and_kept Sample.digest
              Sample.orders_v1 Sample.orders_v3 Sample.orders_v2 Sample.store 100 false
              H1 sample_schemas_same_content H3) as (Ha & Hb & _).
  repeat split; try assumption. exact sample_schemas_same_content.
Defined.

End FingerprintFacts.

(** ** Pipelines: lookups and saves *)

Module PipelineFacts.
Import PipelineViewSet.

Lemma get_found {A : Type} (rows : list A) (row : A) :
  Orm.get rows = Orm.Found row -> rows = [row].
Proof.
  destruct rows as [|x [|y rest]]; simpl; intros H; try discriminate.
  now inversion H.
Qed.

Lemma in_get_queryset (s : Store) (rq : Request) (p : Pipeline.t) :
  In p (get_queryset s rq) <->
  In p (pipelines s) /\
  Orm.pk_in (Pipeline.project p) (Orm.user_projects s (user rq)) = true /\
  Pipeline.is_deleted p = false /\
  (forall project_id, query_project rq = Some project_id -> Pipeline.project p = project_id) /\
  (forall state, given (query_state rq) = Some state -> Pipeline.state p = state).
Proof.
  unfold get_queryset.
  destruct (given (query_state rq)) as [st|]; destruct (query_project rq) as [pr|];
    rewrite ?filter_In, ?andb_true_iff, ?negb_true_iff, ?Nat.eqb_eq, ?String.eqb_eq;
    split.
  - intros [[[Hin [Hm Hd]] Hp] Hs]. repeat split; try assumption.
    + now intros ? [= <-].
    + now intros ? [= <-].
  - intros (Hin & Hm & Hd & Hp & Hs). repeat split; auto.
  - intros [[Hin [Hm Hd]] Hs]. repeat split; try assumption.
    + discriminate.
    + now intros ? [= <-].
  - intros (Hin & Hm & Hd & Hp & Hs). repeat split; auto.
  - intros [[Hin [Hm Hd]] Hp]. repeat split; try assumption.
    + now intros ? [= <-].
    + discriminate.
  - intros (Hin & Hm & Hd & Hp & Hs). repeat split; auto.
  - intros [Hin [Hm Hd]]. repeat split; try assumption; discriminate.
  - intros (Hin & Hm & Hd & Hp & Hs). repeat split; auto.
Qed.

(** What [get_object] returns is a stored row with the key asked for,
    not flagged deleted, of a project of the user. *)
Lemma get_object_found (s : Store) (rq : Request) (k : pk) (p : Pipeline.t) :
  get_object s rq k = Orm.Found p ->
  In p (pipelines s) /\ Pipeline.id p = k /\ Pipeline.is_deleted p = false /\
  Orm.pk_in (Pipeline.project p) (Orm.user_projects s (user rq)) = true.
Proof.
  unfold get_object. intros H. apply get_found in H.
  assert (Hin : In p (filter (fun q => (Pipeline.id q =? k)%nat) (get_queryset s rq)))
    by (rewrite H; now left).
  apply filter_In in Hin as [Hq Hid]. apply Nat.eqb_eq in Hid.
  apply in_get_queryset in Hq as (Hin & Hm & Hd & _). auto.
Qed.

Lemma triggerable_cases (st : string) :
  triggerable st = true -> st = "ready" \/ st = "completed" \/ st = "failed".
Proof.
  unfold triggerable. rewrite PyFacts.str_in_In. simpl. intuition.
Qed.

Lemma triggerable_not_running (st : string) :
  triggerable st = true -> (st =? "running")%string = false.
Proof.
  intros H. destruct (triggerable_cases st H) as [->|[->| ->]]; reflexivity.
Qed.

Lemma pipelines_save (s : Store) (now : datetime) (p : Pipeline.t) :
  pipelines (Orm.save_pipeline s now p) =
  map (fun q => if (Pipeline.id q =? Pipeline.id p)%nat
                then Pipeline.set_updated_at p now else q) (pipelines s).
Proof. reflexivity. Qed.

(** After a save, the rows with the saved key are the saved instance;
    the others are as before. *)
Lemma in_pipelines_save (s : Store) (now : datetime) (p q : Pipeline.t) :
  In q (pipelines (Orm.save_pipeline s now p)) ->
  (q = Pipeline.set_updated_at p now /\ exists q0, In q0 (pipelines s) /\ Pipeline.id q0 = Pipeline.id p)
  \/ (In q (pipelines s) /\ Pipeline.id q <> Pipeline.id p).
Proof.
  rewrite pipelines_save, in_map_iff. intros [q0 [E Hin]].
  destruct (Nat.eqb_spec (Pipeline.id q0) (Pipeline.id p)) as [Hid|Hid].
  - left. split; [now symmetry | now exists q0].
  - right. subst q. now split.
Qed.

Lemma saved_row_present (s : Store) (now : datetime) (p q0 : Pipeline.t) :
  In q0 (pipelines s) -> Pipeline.id q0 = Pipeline.id p ->
  In (Pipeline.set_updated_at p now) (pipelines (Orm.save_pipeline s now p)).
Proof.
  intros Hin Hid. rewrite pipelines_save, in_map_iff. exists q0. split; [|assumption].
  now rewrite Hid, Nat.eqb_refl.
Qed.

(** C3.  For a pipeline in state ready, completed or failed, [execute]
    looks up the version numbered [current_version]: when there is
    none it answers 400 'Pipeline has no valid version' and changes
    nothing; when there is one it adds exactly one execution, in state
    queued and bound to that version, sets the state of the pipeline
    to running and answers 201 with the execution. *)
Theorem execute_creates_queued_execution
        (s : Store) (rq : Request) (k : pk) (trigger_type : option string)
        (pipeline : Pipeline.t) :
  get_object s rq k = Orm.Found pipeline ->
  triggerable (Pipeline.state pipeline) = true ->
  match Orm.get (filter (fun v => (PipelineVersion.version_number v =?
                                   Pipeline.current_version pipeline)%Z)
                        (Orm.versions_of s k)) with
  | Orm.DoesNotExist =>
      execute s rq k trigger_type = (s, error_response "Pipeline has no valid version")
  | Orm.MultipleObjectsReturned =>
      execute s rq k trigger_type = (s, server_error "MultipleObjectsReturned")
  | Orm.Found current_version =>
      exists s' execution,
        execute s rq k trigger_type =
          (s', mkResponse Http.HTTP_201_CREATED (ExecutionData execution)) /\
        pipeline_executions s' = execution :: pipeline_executions s /\
        PipelineExecution.state execution = "queued" /\
        PipelineExecution.pipeline execution = k /\
        PipelineExecution.pipeline_version execution = Some (PipelineVersion.id current_version) /\
        PipelineExecution.triggered_by execution = Some (user rq) /\
        pipeline_versions s' = pipeline_versions s /\
        (exists q, In q (pipelines s') /\ Pipeline.id q = k) /\
        (forall q, In q (pipelines s') -> Pipeline.id q = k -> Pipeline.state q = "running") /\
        (forall q, In q (pipelines s') -> Pipeline.id q <> k -> In q (pipelines s))
  end.
Proof.
  intros Hget Htrig.
  destruct (get_object_found _ _ _ _ Hget) as (Hin & Hid & _).
  unfold execute, on_object. rewrite Hget.
  rewrite (triggerable_not_running _ Htrig).
  unfold triggerable in Htrig. rewrite Htrig. simpl negb. cbv iota.
  rewrite Hid.
  destruct (Orm.get _) as [current_version| |]; try reflexivity.
  eexists; eexists. split; [reflexivity|].
  repeat split.
  - exists (Pipeline.set_updated_at (Pipeline.set_state pipeline "running") (now rq)).
    split; [|exact Hid].
    apply saved_row_present with pipeline; [exact Hin | reflexivity].
  - intros q Hq Hk. apply in_pipelines_save in Hq as [[-> _]|[_ Hne]]; [reflexivity|].
    simpl in Hne. congruence.
  - intros q Hq Hk. apply in_pipelines_save in Hq as [[-> _]|[Hq _]]; [|exact Hq].
    simpl in Hk. congruence.
Qed.

(** *** One active execution at a time *)

(** The two ways [execute] can end: it refuses and leaves the store
    alone, or it found the pipeline in a triggerable state and wrote the
    execution and the new state. *)
Lemma execute_cases (s s' : Store) (rq : Request) (k : pk) (trigger_type : option string)
      (r : Response) :
  execute s rq k trigger_type = (s', r) ->
  (s' = s /\ Http.is_error (status_code r) = true /\
   (forall p, get_object s rq k = Orm.Found p ->
              triggerable (Pipeline.state p) = false ->
              status_code r = Http.HTTP_400_BAD_REQUEST))
  \/
  (exists pipeline execution,
      get_object s rq k = Orm.Found pipeline /\
      triggerable (Pipeline.state pipeline) = true /\
      status_code r = Http.HTTP_201_CREATED /\
      PipelineExecution.pipeline execution = Pipeline.id pipeline /\
      PipelineExecution.state execution = "queued" /\
      s' = Orm.save_pipeline
             (with_next_pk (with_pipeline_executions s (execution :: pipeline_executions s))
                           (S (next_pk s)))
             (now rq) (Pipeline.set_state pipeline "running")).
Proof.
  unfold execute, on_object.
  destruct (get_object s rq k) as [pipeline| |] eqn:Hget.
  - destruct (Pipeline.state pipeline =? "running")%string eqn:Erun.
    { intros [= <- <-]. left. repeat split. }
    destruct (Py.str_in (Pipeline.state pipeline) ["ready"; "completed"; "failed"]) eqn:Etrig;
      simpl negb; cbv iota.
    2:{ intros [= <- <-]. left. repeat split. }
    destruct (Orm.get _) as [current_version| |].
    + intros [= <- <-]. right. eexists; eexists. repeat split; try reflexivity. exact Etrig.
    + intros [= <- <-]. left. repeat split.
    + intros [= <- <-]. left. split; [reflexivity|]. split; [reflexivity|].
      intros p [= <-] Hno. unfold triggerable in Hno. congruence.
  - intros [= <- <-]. left. repeat split. discriminate.
  - intros [= <- <-]. left. repeat split. discriminate.
Qed.

Lemma locked_same_pipelines (s s' : Store) (k : pk) :
  pipelines s' = pipelines s -> locked s k -> locked s' k.
Proof. unfold locked. intros E H p. rewrite E. apply H. Qed.

Lemma locked_save (s : Store) (now : datetime) (p : Pipeline.t) (k : pk) :
  locked s k ->
  (Pipeline.id p = k -> triggerable (Pipeline.state p) = false) ->
  locked (Orm.save_pipeline s now p) k.
Proof.
  intros Hl Hp q Hq Hk.
  apply in_pipelines_save in Hq as [[-> _]|[Hq _]].
  - simpl in *. now apply Hp.
  - now apply Hl.
Qed.

(** A successful [execute] leaves the pipeline locked. *)
Lemma locked_after_execute (s s' : Store) (rq : Request) (k : pk)
      (trigger_type : option string) (r : Response) :
  execute s rq k trigger_type = (s', r) ->
  status_code r = Http.HTTP_201_CREATED ->
  locked s' k.
Proof.
  intros He Hs. apply execute_cases in He as [(-> & Herr & _)|(p & e & Hget & _ & _ & _ & _ & ->)].
  - rewrite Hs in Herr. discriminate.
  - apply get_object_found in Hget as (_ & Hid & _).
    intros q Hq Hk. apply in_pipelines_save in Hq as [[-> _]|[_ Hne]].
    + reflexivity.
    + simpl in Hne. congruence.
Qed.

(** [execute] on a locked pipeline refuses and changes nothing. *)
Lemma execute_locked (s : Store) (rq : Request) (k : pk) (trigger_type : option string) :
  locked s k ->
  exists r, execute s rq k trigger_type = (s, r) /\
            Http.is_error (status_code r) = true /\
            (forall p, get_object s rq k = Orm.Found p ->
                       status_code r = Http.HTTP_400_BAD_REQUEST).
Proof.
  intros Hl. destruct (execute s rq k trigger_type) as [s' r] eqn:He.
  apply execute_cases in He as [(-> & Herr & H400)|(p & e & Hget & Htrig & _)].
  - exists r. repeat split; [assumption|].
    intros p Hget. apply (H400 p Hget).
    apply get_object_found in Hget as (Hin & Hid & _). now apply Hl.
  - apply get_object_found in Hget as (Hin & Hid & _).
    rewrite (Hl p Hin Hid) in Htrig. discriminate.
Qed.

(** The serializer's [update] writes the instance with its state
    untouched, or nothing. *)
Lemma serializer_update_pipelines (s s' : Store) (rq : Request) (instance : Pipeline.t)
      (data : PipelineSerializer.validated_data) res :
  PipelineSerializer.update s rq instance data = (s', res) ->
  pipeline_executions s' = pipeline_executions s /\
  (pipelines s' = pipelines s \/
   exists p, Pipeline.id p = Pipeline.id instance /\
             Pipeline.state p = Pipeline.state instance /\
             pipelines s' = pipelines (Orm.save_pipeline s (now rq) p)).
Proof.
  unfold PipelineSerializer.update.
  destruct (PipelineSerializer.config_changed instance data).
  - unfold Orm.create_pipeline_version.
    destruct (Orm.is_null _ || Orm.version_slot_taken _ _ _).
    + intros [= <- _]. split; [reflexivity | now left].
    + intros [= <- _]. split; [reflexivity|]. right.
      exists (Pipeline.set_current_version (PipelineSerializer.assign instance data)
                (Pipeline.current_version (PipelineSerializer.assign instance data) + 1)%Z).
      repeat split; reflexivity.
  - intros [= <- _]. split; [reflexivity|]. right.
    exists (PipelineSerializer.assign instance data). repeat split; reflexivity.
Qed.

Lemma serializer_create_pipelines (s s' : Store) (rq : Request)
      (data : PipelineSerializer.validated_data) res :
  PipelineSerializer.create s rq data = (s', res) ->
  pipeline_executions s' = pipeline_executions s /\
  (pipelines s' = pipelines s \/
   exists p, Pipeline.state p = "draft" /\ pipelines s' = p :: pipelines s).
Proof.
  unfold PipelineSerializer.create.
  destruct (PipelineSerializer.insertable s data) as [[pr ds]|].
  - unfold Orm.create_pipeline_version.
    destruct (Orm.is_null _ || Orm.version_slot_taken _ _ _);
      intros [= <- _]; (split; [reflexivity|]); right; eexists; (split; [|reflexivity]);
      reflexivity.
  - intros [= <- _]. split; [reflexivity | now left].
Qed.

(** A row that can be inserted has a config that is not null. *)
Lemma insertable_config (s : Store) (data : PipelineSerializer.validated_data) keys :
  PipelineSerializer.insertable s data = Some keys ->
  Orm.is_null (PipelineSerializer.get (PipelineSerializer.config data) (Py.PyDict [])) = false.
Proof.
  unfold PipelineSerializer.insertable.
  destruct (PipelineSerializer.config data) as [[| | | | |]|]; try reflexivity.
  destruct (PipelineSerializer.project data), (PipelineSerializer.data_source data);
    discriminate.
Qed.

(** The viewset's [create] and [update] refuse and leave the store
    alone, or hand validated data to the serializer. *)
Lemma create_store (s : Store) (rq : Request) (raw : PipelineSerializer.validated_data) :
  fst (create s rq raw) = s \/
  exists data, fst (create s rq raw) = fst (PipelineSerializer.create s rq data).
Proof.
  unfold create.
  destruct (PipelineSerializer.run_validation s false raw) as [data|errors]; [|now left].
  right. exists data. now destruct (PipelineSerializer.create s rq data) as [s' [p|exc]].
Qed.

Lemma update_store (s : Store) (rq : Request) (k : pk) (partial : bool)
      (raw : PipelineSerializer.validated_data) :
  fst (update s rq k partial raw) = s \/
  exists instance data,
    get_object s rq k = Orm.Found instance /\
    fst (update s rq k partial raw) = fst (PipelineSerializer.update s rq instance data).
Proof.
  unfold update, on_object.
  destruct (get_object s rq k) as [instance| |]; try now left.
  destruct (PipelineSerializer.run_validation s partial raw) as [data|errors]; [|now left].
  right. exists instance, data. split; [reflexivity|].
  now destruct (PipelineSerializer.update s rq instance data) as [s' [p|exc]].
Qed.

(** No request of the viewset unlocks a locked pipeline. *)
Lemma dispatch_locked (s : Store) (rq : Request) (c : call) (k : pk) :
  locked s k -> locked (fst (dispatch s rq c)) k.
Proof.
  intros Hl.
  assert (Hupdate : forall k' partial data, locked (fst (update s rq k' partial data)) k).
  { intros k' partial raw. unfold update, on_object.
    destruct (get_object s rq k') as [instance| |] eqn:Hget; try exact Hl.
    destruct (PipelineSerializer.run_validation s partial raw) as [data|errors];
      [|exact Hl].
    apply get_object_found in Hget as (Hin & Hid & _).
    destruct (PipelineSerializer.update s rq instance data) as [s' [p|exc]] eqn:E;
      apply serializer_update_pipelines in E as [_ [E|(q & Hqid & Hqs & E)]]; simpl;
      try (now apply (locked_same_pipelines s));
      apply (locked_same_pipelines (Orm.save_pipeline s (now rq) q)); try assumption;
      apply locked_save; try assumption;
      intros Hk; rewrite Hqs; apply Hl; congruence. }
  destruct c as [raw|k' data|k' data|k'|k' tt|k'|k'|]; simpl.
  - (* create *)
    unfold create.
    destruct (PipelineSerializer.run_validation s false raw) as [data|errors];
      [|exact Hl].
    destruct (PipelineSerializer.create s rq data) as [s' [p|exc]] eqn:E;
      apply serializer_create_pipelines in E as [_ [E|(q & Hq & E)]]; simpl;
      try (now apply (locked_same_pipelines s));
      intros x Hx Hk; rewrite E in Hx; destruct Hx as [<-|Hx];
        try (now rewrite Hq); now apply Hl.
  - (* update *) apply Hupdate.
  - (* partial_update *) apply Hupdate.
  - (* destroy *)
    unfold destroy, on_object.
    destruct (get_object s rq k') as [instance| |]; try exact Hl.
    simpl. intros q Hq. apply filter_In in Hq as [Hq _]. now apply Hl.
  - (* execute *)
    destruct (execute s rq k' tt) as [s' r] eqn:E. simpl.
    apply execute_cases in E as [(-> & _)|(p & e & Hget & _ & _ & _ & _ & ->)]; [exact Hl|].
    apply locked_save; [|reflexivity].
    now apply (locked_same_pipelines s).
  - (* estimate_resources *)
    unfold estimate_resources, on_object.
    destruct (get_object s rq k') as [p| |] eqn:Hget; try exact Hl. simpl.
    apply get_object_found in Hget as (Hin & Hid & _).
    apply locked_save; [exact Hl|]. simpl. intros Hk. apply Hl; congruence.
  - (* validate *)
    unfold validate, on_object.
    destruct (get_object s rq k') as [p| |]; try exact Hl. simpl.
    now apply locked_save.
  - exact Hl.
Qed.

Lemma active_same (s s' : Store) (k : pk) :
  pipeline_executions s' = pipeline_executions s ->
  active_executions s' k = active_executions s k.
Proof. unfold active_executions, Orm.executions_of. now intros ->. Qed.

Lemma active_after_cascade (f : PipelineExecution.t -> PipelineExecution.t)
      (g h : PipelineExecution.t -> bool) (l : list PipelineExecution.t) :
  (forall e, h (f e) = h e) ->
  (List.length (filter h (map f (filter g l))) <= List.length (filter h l))%nat.
Proof.
  intros Hf. induction l as [|e l IH]; simpl; [lia|].
  destruct (g e); simpl; rewrite ?Hf; destruct (h e); simpl; lia.
Qed.

Lemma filter_filter {A : Type} (f g : A -> bool) (l : list A) :
  filter f (filter g l) = filter (fun x => g x && f x) l.
Proof.
  induction l as [|x l IH]; simpl; [reflexivity|].
  destruct (g x); simpl; [destruct (f x)|]; now rewrite IH.
Qed.

Lemma filter_none {A : Type} (f : A -> bool) (l : list A) :
  (forall x, f x = false) -> filter f l = [].
Proof.
  intros H. induction l as [|x l IH]; simpl; [reflexivity|]. now rewrite H.
Qed.

(** No request adds an active execution to a locked pipeline. *)
Lemma dispatch_active (s : Store) (rq : Request) (c : call) (k : pk) :
  locked s k ->
  (List.length (active_executions (fst (dispatch s rq c)) k) <=
   List.length (active_executions s k))%nat.
Proof.
  intros Hl.
  assert (Hupdate : forall k' partial raw,
             (List.length (active_executions (fst (update s rq k' partial raw)) k) <=
              List.length (active_executions s k))%nat).
  { intros k' partial raw.
    destruct (update_store s rq k' partial raw) as [->|(instance & data & _ & ->)]; [lia|].
    destruct (PipelineSerializer.update s rq instance data) as [s' res] eqn:E.
    apply serializer_update_pipelines in E as [E _]. simpl.
    rewrite (active_same _ _ _ E). lia. }
  destruct c as [raw|k' data|k' data|k'|k' tt|k'|k'|]; simpl.
  - destruct (create_store s rq raw) as [->|(data & ->)]; [lia|].
    destruct (PipelineSerializer.create s rq data) as [s' res] eqn:E.
    apply serializer_create_pipelines in E as [E _]. simpl.
    rewrite (active_same _ _ _ E). lia.
  - apply Hupdate.
  - apply Hupdate.
  - unfold destroy, on_object.
    destruct (get_object s rq k') as [instance| |]; try (simpl; lia).
    simpl. unfold active_executions, Orm.executions_of. simpl.
    rewrite !filter_filter. apply active_after_cascade.
    intros e. unfold PipelineExecution.is_terminal.
    destruct (Orm.runs_version_of s (Pipeline.id instance) e); reflexivity.
  - destruct (execute s rq k' tt) as [s' r] eqn:E. simpl.
    apply execute_cases in E as [(-> & _)|(p & e & Hget & Htrig & _ & He & _ & ->)]; [lia|].
    apply get_object_found in Hget as (Hin & Hid & _).
    unfold active_executions, Orm.executions_of. simpl.
    destruct (Nat.eqb_spec (PipelineExecution.pipeline e) k) as [Hk|Hk]; [|lia].
    exfalso. rewrite (Hl p Hin) in Htrig; [discriminate | congruence].
  - unfold estimate_resources, on_object.
    destruct (get_object s rq k') as [p| |]; simpl;
      try (rewrite (active_same s) by reflexivity); lia.
  - unfold validate, on_object.
    destruct (get_object s rq k') as [p| |]; simpl;
      try (rewrite (active_same s) by reflexivity); lia.
  - lia.
Qed.

Lemma run_locked (requests : list (Request * call)) (s : Store) (k : pk) :
  locked s k ->
  locked (run s requests) k /\
  (List.length (active_executions (run s requests) k) <=
   List.length (active_executions s k))%nat.
Proof.
  revert s. induction requests as [|[rq c] rest IH]; intros s Hl; simpl.
  - split; [assumption | lia].
  - destruct (IH (fst (dispatch s rq c)) (dispatch_locked s rq c k Hl)) as [H1 H2].
    split; [assumption|].
    pose proof (dispatch_active s rq c k Hl). lia.
Qed.

(** The run a successful [execute] starts is the one active run more. *)
Lemma active_after_execute (s s' : Store) (rq : Request) (k : pk)
      (trigger_type : option string) (r : Response) :
  execute s rq k trigger_type = (s', r) ->
  status_code r = Http.HTTP_201_CREATED ->
  List.length (active_executions s' k) = S (List.length (active_executions s k)).
Proof.
  intros He Hs. apply execute_cases in He as [(-> & Herr & _)|(p & e & Hget & _ & _ & He & Hq & ->)].
  - rewrite Hs in Herr. discriminate.
  - apply get_object_found in Hget as (_ & Hid & _).
    unfold active_executions, Orm.executions_of. simpl.
    rewrite He, Hid, Nat.eqb_refl. simpl.
    unfold PipelineExecution.is_terminal. rewrite Hq. reflexivity.
Qed.

(** C1, as the code has it.  After [execute] has started a run of a
    pipeline (answer 201), and whatever requests the viewset serves
    afterwards, no run of that pipeline ever ends in this code, and
    every further [execute] on the pipeline is refused: the store is
    unchanged, so no execution is created, and the answer is an error,
    400 ('Pipeline is already running', or 'cannot be executed' after
    [validate]) whenever the caller can see the pipeline, whose state
    is then none of ready, completed and failed.  If the pipeline had
    no active execution before the first call, it has at most one at
    any time. *)
Theorem second_execute_is_refused
        (s s1 : Store) (rq : Request) (k : pk) (trigger_type : option string) (r1 : Response) :
  execute s rq k trigger_type = (s1, r1) ->
  status_code r1 = Http.HTTP_201_CREATED ->
  forall (requests : list (Request * call)) (rq2 : Request) (trigger_type2 : option string),
    let s2 := run s1 requests in
    exists r2,
      execute s2 rq2 k trigger_type2 = (s2, r2) /\
      Http.is_error (status_code r2) = true /\
      (forall p, get_object s2 rq2 k = Orm.Found p ->
                 status_code r2 = Http.HTTP_400_BAD_REQUEST /\
                 triggerable (Pipeline.state p) = false) /\
      (active_executions s k = [] -> (List.length (active_executions s2 k) <= 1)%nat).
Proof.
  intros He Hs requests rq2 tt2 s2.
  pose proof (locked_after_execute _ _ _ _ _ _ He Hs) as Hl.
  destruct (run_locked requests s1 k Hl) as [Hl2 Hlen].
  destruct (execute_locked s2 rq2 k tt2 Hl2) as (r2 & E & Herr & H400).
  exists r2. split; [exact E|]. split; [exact Herr|]. split.
  - intros p Hget. split; [exact (H400 p Hget)|].
    apply get_object_found in Hget as (Hin & Hid & _). exact (Hl2 p Hin Hid).
  - intros Hnone. rewrite (active_after_execute _ _ _ _ _ _ He Hs), Hnone in Hlen.
    exact Hlen.
Qed.

(** *** Versions *)

Lemma in_versions_of (s : Store) (k : pk) (v : PipelineVersion.t) :
  In v (Orm.versions_of s k) <-> In v (pipeline_versions s) /\ PipelineVersion.pipeline v = k.
Proof. unfold Orm.versions_of. now rewrite filter_In, Nat.eqb_eq. Qed.

Lemma versions_bounded_spec (s : Store) (k : pk) (n : Z) :
  versions_bounded s k n = true <->
  forall v, In v (Orm.versions_of s k) -> (PipelineVersion.version_number v <= n)%Z.
Proof.
  unfold versions_bounded. rewrite forallb_forall.
  split; intros H v Hv; specialize (H v Hv); lia.
Qed.



(** [create] leaves the pipeline it adds with the bound of C2. *)
Lemma create_versions_bounded (s s' : Store) (rq : Request)
      (data : PipelineSerializer.validated_data) (p : Pipeline.t) :
  versions_bounded s (next_pk s) 0 = true ->
  PipelineSerializer.create s rq data = (s', inl p) ->
  In p (pipelines s') /\
  versions_bounded s' (Pipeline.id p) (Pipeline.current_version p) = true.
Proof.
  intros Hb. unfold PipelineSerializer.create.
  destruct (PipelineSerializer.insertable s data) as [[pr ds]|]; [|discriminate].
  unfold Orm.create_pipeline_version.
  destruct (Orm.is_null _ || Orm.version_slot_taken _ _ _); [discriminate|].
  intros [= <- <-]. split; [now left|].
  simpl. apply versions_bounded_spec. intros v Hv.
  apply in_versions_of in Hv as [[<-|Hv] Hp]; simpl; [lia|].
  rewrite versions_bounded_spec in Hb.
  specialize (Hb v (proj2 (in_versions_of s _ v) (conj Hv Hp))). lia.
Qed.

(** *** Creation *)






Lemma errors_of_nil {A : Type} (field : string) (result : option A + list string) :
  PipelineSerializer.errors_of field result = [] -> exists value, result = inl value.
Proof. destruct result as [value|errors]; [now exists value | discriminate]. Qed.





(** *** Due pipelines *)

Lemma lte_spec (field : option datetime) (bound : datetime) :
  lte field bound = true <-> exists t, field = Some t /\ (t <= bound)%Z.
Proof.
  unfold lte. destruct field as [t|]; split.
  - intros H. exists t. split; [reflexivity | lia].
  - intros (t' & [= <-] & H). lia.
  - discriminate.
  - intros (t' & H & _). discriminate.
Qed.

(** C9, as the code has it.  [scheduled] answers with exactly the
    pipelines that the caller can see (not flagged deleted, in a
    project the caller belongs to, and passing the [project] and
    [state] filters of the request when given) and that are scheduled,
    ready and due at the time of the request.  The store is returned
    as it was. *)
Theorem scheduled_lists_visible_due_pipelines (s : Store) (rq : Request) :
  exists due,
    scheduled s rq = (s, mkResponse Http.HTTP_200_OK (PipelineListData due)) /\
    forall p,
      In p due <->
      (In p (pipelines s) /\
       Orm.pk_in (Pipeline.project p) (Orm.user_projects s (user rq)) = true /\
       Pipeline.is_deleted p = false /\
       (forall project_id, query_project rq = Some project_id -> Pipeline.project p = project_id) /\
       (forall state, given (query_state rq) = Some state -> Pipeline.state p = state)) /\
      Pipeline.execution_mode p = "scheduled" /\
      Pipeline.state p = "ready" /\
      exists t, Pipeline.next_scheduled_run p = Some t /\ (t <= now rq)%Z.
Proof.
  eexists. split; [reflexivity|].
  intros p. rewrite filter_In, !andb_true_iff, !String.eqb_eq, lte_spec, in_get_queryset.
  tauto.
Qed.

(** The claim without the caller: the pipeline [nightly] is not
    deleted, scheduled, ready and due, and [scheduled] does not list it
    for a user outside its project. *)
Lemma scheduled_misses_due_pipeline_of_other_project :
  In Sample.nightly (pipelines Sample.store) /\
  Pipeline.is_deleted Sample.nightly = false /\
  Pipeline.execution_mode Sample.nightly = "scheduled" /\
  Pipeline.state Sample.nightly = "ready" /\
  lte (Pipeline.next_scheduled_run Sample.nightly) (now Sample.bob) = true /\
  scheduled Sample.store Sample.bob =
    (Sample.store, mkResponse Http.HTTP_200_OK (PipelineListData [])).
Proof.
  repeat split. right; now left.
Qed.

(** *** Deletion *)

(** [destroy] on a pipeline the caller can see removes its row, its
    versions and its executions, whatever their state. *)
Lemma destroy_removes_history (s : Store) (rq : Request) (k : pk) (p : Pipeline.t) :
  get_object s rq k = Orm.Found p ->
  exists s',
    destroy s rq k = (s', mkResponse Http.HTTP_204_NO_CONTENT NoContent) /\
    (forall q, In q (pipelines s') -> Pipeline.id q <> k) /\
    Orm.versions_of s' k = [] /\
    Orm.executions_of s' k = [].
Proof.
  intros Hget. unfold destroy, on_object. rewrite Hget.
  apply get_object_found in Hget as (_ & Hid & _). rewrite Hid.
  eexists. split; [reflexivity|]. repeat split.
  - simpl. intros q Hq. apply filter_In in Hq as [_ Hq].
    apply negb_true_iff, Nat.eqb_neq in Hq. exact Hq.
  - unfold Orm.versions_of. simpl. rewrite filter_filter.
    apply filter_none.
    intros v. destruct (PipelineVersion.pipeline v =? k)%nat; reflexivity.
  - unfold Orm.executions_of. simpl.
    assert (H : forall l,
               filter (fun e => (PipelineExecution.pipeline e =? k)%nat)
                 (map (fun e => if Orm.runs_version_of s k e
                                then PipelineExecution.clear_pipeline_version e else e)
                      (filter (fun e => negb (PipelineExecution.pipeline e =? k)%nat) l)) = []).
    { induction l as [|e l IH]; simpl; [reflexivity|].
      destruct (PipelineExecution.pipeline e =? k)%nat eqn:E; simpl; [exact IH|].
      destruct (Orm.runs_version_of s k e); simpl; rewrite E; exact IH. }
    apply H.
Qed.

(** No request of the viewset sets [is_deleted]: a row that carries
    the flag after a request carried it before. *)
Lemma no_request_flags_deleted (s : Store) (rq : Request) (c : call) (q : Pipeline.t) :
  In q (pipelines (fst (dispatch s rq c))) ->
  Pipeline.is_deleted q = true ->
  exists p, In p (pipelines s) /\ Pipeline.id p = Pipeline.id q /\ Pipeline.is_deleted p = true.
Proof.
  assert (Hsame : forall s', pipelines s' = pipelines s -> In q (pipelines s') ->
                             Pipeline.is_deleted q = true ->
                             exists p, In p (pipelines s) /\ Pipeline.id p = Pipeline.id q /\
                                       Pipeline.is_deleted p = true).
  { intros s' E Hq Hd. rewrite E in Hq. now exists q. }
  assert (Hsave : forall s0 x x0,
             pipelines s0 = pipelines s ->
             In x0 (pipelines s) -> Pipeline.id x = Pipeline.id x0 ->
             Pipeline.is_deleted x = Pipeline.is_deleted x0 ->
             In q (pipelines (Orm.save_pipeline s0 (now rq) x)) ->
             Pipeline.is_deleted q = true ->
             exists p, In p (pipelines s) /\ Pipeline.id p = Pipeline.id q /\
                       Pipeline.is_deleted p = true).
  { intros s0 x x0 E Hx0 Hid Hdel Hq Hd.
    apply in_pipelines_save in Hq as [[-> _]|[Hq _]].
    - exists x0. simpl in *. repeat split; congruence.
    - rewrite E in Hq. now exists q. }
  assert (Hupdate : forall k' partial raw,
             In q (pipelines (fst (update s rq k' partial raw))) ->
             Pipeline.is_deleted q = true ->
             exists p, In p (pipelines s) /\ Pipeline.id p = Pipeline.id q /\
                       Pipeline.is_deleted p = true).
  { intros k' partial raw.
    destruct (update_store s rq k' partial raw) as [->|(instance & data & Hget & ->)];
      [now apply Hsame|].
    apply get_object_found in Hget as (Hin & _).
    unfold PipelineSerializer.update.
    destruct (PipelineSerializer.config_changed instance data).
    + unfold Orm.create_pipeline_version.
      destruct (Orm.is_null _ || Orm.version_slot_taken _ _ _); [now apply Hsame|].
      now apply (Hsave _ _ instance).
    + now apply (Hsave _ _ instance). }
  destruct c as [raw|k' data|k' data|k'|k' tt|k'|k'|]; simpl.
  - destruct (create_store s rq raw) as [->|(data & ->)]; [now apply Hsame|].
    unfold PipelineSerializer.create.
    destruct (PipelineSerializer.insertable s data) as [[pr ds]|]; [|now apply Hsame].
    unfold Orm.create_pipeline_version.
    destruct (Orm.is_null _ || Orm.version_slot_taken _ _ _); simpl;
      (intros [<-|Hq] Hd; [discriminate | now exists q]).
  - apply Hupdate.
  - apply Hupdate.
  - unfold destroy, on_object.
    destruct (get_object s rq k') as [instance| |]; try now apply Hsame.
    simpl. intros Hq Hd. apply filter_In in Hq as [Hq _]. now exists q.
  - destruct (execute s rq k' tt) as [s' r] eqn:E. simpl.
    apply execute_cases in E as [(-> & _)|(p & e & Hget & _ & _ & _ & _ & ->)];
      [now apply Hsame|].
    apply get_object_found in Hget as (Hin & _).
    now apply (Hsave _ _ p).
  - unfold estimate_resources, on_object.
    destruct (get_object s rq k') as [p| |] eqn:Hget; try now apply Hsame.
    apply get_object_found in Hget as (Hin & _). now apply (Hsave _ _ p).
  - unfold validate, on_object.
    destruct (get_object s rq k') as [p| |] eqn:Hget; try now apply Hsame.
    apply get_object_found in Hget as (Hin & _). now apply (Hsave _ _ p).
  - now apply Hsame.
Qed.

Lemma filter_none_in {A : Type} (f : A -> bool) (l : list A) :
  (forall x, In x l -> f x = false) -> filter f l = [].
Proof.
  induction l as [|x l IH]; simpl; intros H; [reflexivity|].
  rewrite (H x (or_introl eq_refl)). apply IH. intros y Hy. apply H. now right.
Qed.

(** C7, as the code has it.  The delete request on a pipeline the
    caller can see is accepted, 204, whether or not the pipeline has an
    execution that has not ended: nothing in it looks at executions.
    Afterwards no request finds the pipeline. *)
Theorem destroy_is_not_guarded (s : Store) (rq : Request) (k : pk) (p : Pipeline.t) :
  get_object s rq k = Orm.Found p ->
  exists s',
    destroy s rq k = (s', mkResponse Http.HTTP_204_NO_CONTENT NoContent) /\
    forall rq', get_object s' rq' k = Orm.DoesNotExist.
Proof.
  intros Hget.
  destruct (destroy_removes_history s rq k p Hget) as (s' & E & Hgone & _).
  exists s'. split; [exact E|].
  intros rq'. unfold get_object.
  rewrite filter_none_in; [reflexivity|].
  intros q Hq. apply in_get_queryset in Hq as (Hq & _).
  apply Nat.eqb_neq. now apply Hgone.
Qed.

Lemma destroy_is_not_guarded_witness :
  get_object Sample.store_running Sample.alice 1 =
    Orm.Found (Pipeline.set_updated_at (Pipeline.set_state Sample.sales "running") 100) /\
  active_executions Sample.store_running 1 <> [] /\
  exists s',
    destroy Sample.store_running Sample.alice 1 =
      (s', mkResponse Http.HTTP_204_NO_CONTENT NoContent) /\
    forall rq', get_object s' rq' 1 = Orm.DoesNotExist.
Proof.
  split; [reflexivity|]. split; [discriminate|].
  exact (destroy_is_not_guarded Sample.store_running Sample.alice 1 _ eq_refl).
Defined.

(** The claim, at an input.  The pipeline [sales] has a version and a
    queued execution.  The delete request is not refused; it answers
    204, and afterwards the row, its version and its execution are gone
    from the store: nothing is left that carries the deletion flag or a
    deletion time. *)
Lemma destroy_is_a_hard_delete :
  active_executions Sample.store_running 1 <> [] /\
  Orm.versions_of Sample.store_running 1 <> [] /\
  status_code (snd (destroy Sample.store_running Sample.alice 1)) = Http.HTTP_204_NO_CONTENT /\
  pipelines (fst (destroy Sample.store_running Sample.alice 1)) = [Sample.nightly] /\
  pipeline_versions (fst (destroy Sample.store_running Sample.alice 1)) = [Sample.nightly_v1] /\
  pipeline_executions (fst (destroy Sample.store_running Sample.alice 1)) = [].
Proof.
  repeat split; discriminate.
Qed.

(** *** The properties on the sample database *)

Lemma second_execute_is_refused_witness :
  execute Sample.store Sample.alice 1 None =
    (Sample.store_running, snd (execute Sample.store Sample.alice 1 None)) /\
  status_code (snd (execute Sample.store Sample.alice 1 None)) = Http.HTTP_201_CREATED /\
  forall requests rq2 trigger_type2,
  exists r2,
    execute (run Sample.store_running requests) rq2 1 trigger_type2 =
      (run Sample.store_running requests, r2) /\
    Http.is_error (status_code r2) = true /\
    (forall p, get_object (run Sample.store_running requests) rq2 1 = Orm.Found p ->
               status_code r2 = Http.HTTP_400_BAD_REQUEST /\
               triggerable (Pipeline.state p) = false) /\
    (active_executions Sample.store 1 = [] ->
     (List.length (active_executions (run Sample.store_running requests) 1) <= 1)%nat).
Proof.
  split; [reflexivity|]. split; [reflexivity|].
  exact (second_execute_is_refused Sample.store Sample.store_running Sample.alice 1 None
           (snd (execute Sample.store Sample.alice 1 None)) eq_refl eq_refl).
Defined.

(** The claim, at an input.  The pipeline [sales] is in state ready
    and has a run that has not ended.  [execute] does not refuse: it
    answers 201 and the pipeline has two runs that have not ended. *)
Lemma execute_ignores_a_run_that_has_not_ended :
  get_object Sample.store_midrun Sample.alice 1 = Orm.Found Sample.sales /\
  active_executions Sample.store_midrun 1 = [Sample.earlier_run] /\
  exists s' execution,
    execute Sample.store_midrun Sample.alice 1 None =
      (s', mkResponse Http.HTTP_201_CREATED (ExecutionData execution)) /\
    active_executions s' 1 = [execution; Sample.earlier_run].
Proof.
  split; [reflexivity|]. split; [reflexivity|].
  eexists; eexists. split; reflexivity.
Qed.



Lemma execute_creates_queued_execution_witness :
  get_object Sample.store Sample.alice 1 = Orm.Found Sample.sales /\
  triggerable (Pipeline.state Sample.sales) = true /\
  exists s' execution,
    execute Sample.store Sample.alice 1 None =
      (s', mkResponse Http.HTTP_201_CREATED (ExecutionData execution)) /\
    pipeline_executions s' = [execution] /\
    PipelineExecution.state execution = "queued" /\
    PipelineExecution.pipeline_version execution = Some (PipelineVersion.id Sample.sales_v1).
Proof.
  split; [reflexivity|]. split; [reflexivity|].
  pose proof (execute_creates_queued_execution Sample.store Sample.alice 1 None Sample.sales
                eq_refl eq_refl) as H.
  change (Orm.get (filter (fun v => (PipelineVersion.version_number v =?
                                     Pipeline.current_version Sample.sales)%Z)
                          (Orm.versions_of Sample.store 1)))
    with (Orm.Found Sample.sales_v1) in H.
  cbv iota in H. destruct H as (s' & e & E & He & Hq & _ & Hv & _).
  exists s', e. repeat split; assumption.
Defined.



End PipelineFacts.

(** ** Datasets *)

Module DatasetFacts.
Import DatasetViewSet.

Lemma get_version_found (s : Store) (dataset : Dataset.t) (n : Z) (version : DatasetVersion.t) :
  get_version s dataset n = Orm.Found version ->
  In version (dataset_versions s) /\
  DatasetVersion.dataset version = Dataset.id dataset /\
  DatasetVersion.version_number version = n.
Proof.
  unfold get_version. intros H. apply PipelineFacts.get_found in H.
  assert (Hin : In version
                   (filter (fun v => (DatasetVersion.version_number v =? n)%Z)
                           (Orm.dataset_versions_of s (Dataset.id dataset))))
    by (rewrite H; now left).
  apply filter_In in Hin as [Hin Hn]. apply Z.eqb_eq in Hn.
  unfold Orm.dataset_versions_of in Hin. apply filter_In in Hin as [Hin Hd].
  apply Nat.eqb_eq in Hd. auto.
Qed.

(** C4.  For a version the dataset has: when it is the only version of
    the dataset, or the one [current_version] names, [delete_version]
    answers 400 and the store stays as it is; otherwise it answers 204,
    the rows with the key of that version leave the table of versions,
    every other version stays, and the datasets (so [current_version])
    are untouched. *)
Theorem delete_version_guards
        (s : Store) (rq : Request) (k : pk) (n : Z)
        (dataset : Dataset.t) (version : DatasetVersion.t) :
  get_object s rq k = Orm.Found dataset ->
  get_version s dataset n = Orm.Found version ->
  if ((Orm.count (Orm.dataset_versions_of s (Dataset.id dataset)) =? 1)%Z ||
      (n =? Dataset.current_version dataset)%Z)%bool
  then
    exists error, delete_version s rq k n = (s, error_response error)
  else
    exists s',
      delete_version s rq k n = (s', mkResponse Http.HTTP_204_NO_CONTENT NoContent) /\
      dataset_versions s' =
        filter (fun w => negb (DatasetVersion.id w =? DatasetVersion.id version)%nat)
               (dataset_versions s) /\
      ~ In version (dataset_versions s') /\
      (forall w, In w (dataset_versions s) ->
                 DatasetVersion.id w <> DatasetVersion.id version ->
                 In w (dataset_versions s')) /\
      datasets s' = datasets s.
Proof.
  intros Hget Hver. unfold delete_version, on_object. rewrite Hget, Hver.
  destruct (get_version_found _ _ _ _ Hver) as (_ & _ & Hn). rewrite Hn.
  destruct (Orm.count _ =? 1)%Z; simpl; [eexists; reflexivity|].
  destruct (n =? Dataset.current_version dataset)%Z; [eexists; reflexivity|].
  eexists. split; [reflexivity|]. simpl. repeat split.
  - intros Hin. apply filter_In in Hin as [_ Hin]. now rewrite Nat.eqb_refl in Hin.
  - intros w Hin Hne. apply filter_In. split; [assumption|].
    now apply negb_true_iff, Nat.eqb_neq.
Qed.

Lemma delete_version_guards_witness :
  get_object Sample.store Sample.alice 30 = Orm.Found Sample.orders /\
  get_version Sample.store Sample.orders 1 = Orm.Found Sample.orders_v1 /\
  get_version Sample.store Sample.orders 2 = Orm.Found Sample.orders_v2 /\
  fst (delete_version Sample.store Sample.alice 30 2) = Sample.store /\
  exists s',
    delete_version Sample.store Sample.alice 30 1 =
      (s', mkResponse Http.HTTP_204_NO_CONTENT NoContent) /\
    dataset_versions s' = [Sample.orders_v2; Sample.orders_v3; Sample.solo_v1] /\
    datasets s' = datasets Sample.store.
Proof.
  pose proof (delete_version_guards Sample.store Sample.alice 30 2
                Sample.orders Sample.orders_v2 eq_refl eq_refl) as Hcur.
  pose proof (delete_version_guards Sample.store Sample.alice 30 1
                Sample.orders Sample.orders_v1 eq_refl eq_refl) as Hold.
  cbv beta iota in Hcur, Hold.
  change (((Orm.count (Orm.dataset_versions_of Sample.store (Dataset.id Sample.orders)) =? 1)%Z
           || (2 =? Dataset.current_version Sample.orders)%Z)%bool) with true in Hcur.
  change (((Orm.count (Orm.dataset_versions_of Sample.store (Dataset.id Sample.orders)) =? 1)%Z
           || (1 =? Dataset.current_version Sample.orders)%Z)%bool) with false in Hold.
  cbv iota in Hcur, Hold.
  destruct Hcur as (error & Hcur). destruct Hold as (s' & E & Hv & _ & _ & Hd).
  split; [reflexivity|]. split; [reflexivity|]. split; [reflexivity|].
  split; [now rewrite Hcur|].
  exists s'. split; [exact E|]. split; [rewrite Hv; reflexivity | exact Hd].
Defined.

Section Hashing.
Variable sha256_hexdigest : string -> string.

(** A request that is answered with rows wrote its log record for a
    version in state ready; any other answer leaves the store alone. *)
Lemma query_answers_only_ready (s s' : Store) (rq : Request) (k : pk)
      (data : QueryData.t) (r : Response) :
  query sha256_hexdigest s rq k data = (s', r) ->
  (s' = s /\ Http.is_error (status_code r) = true) \/
  (exists dataset version q,
      get_object s rq k = Orm.Found dataset /\
      In version (dataset_versions s) /\
      DatasetVersion.dataset version = Dataset.id dataset /\
      DatasetVersion.state version = "ready" /\
      status_code r = Http.HTTP_200_OK /\
      DatasetQuery.dataset_version q = DatasetVersion.id version /\
      dataset_queries s' = q :: dataset_queries s).
Proof.
  unfold query, on_object.
  destruct (get_object s rq k) as [dataset| |] eqn:Hget;
    try (intros [= <- <-]; left; now split).
  destruct (negb (Py.str_truthy _)); [intros [= <- <-]; left; now split|].
  destruct (get_version s dataset _) as [version| |] eqn:Hver;
    try (intros [= <- <-]; left; now split).
  destruct (DatasetVersion.state version =? "ready")%string eqn:Est; simpl;
    [|intros [= <- <-]; left; now split].
  intros [= <- <-]. right.
  apply get_version_found in Hver as (Hin & Hd & _). apply String.eqb_eq in Est.
  eexists; eexists; eexists.
  split; [reflexivity|]. split; [exact Hin|]. split; [exact Hd|]. split; [exact Est|].
  split; [reflexivity|]. split; [|reflexivity].
  unfold DatasetQueryMethods.fill_query_hash.
  destruct (_ && _)%bool; reflexivity.
Qed.
End Hashing.

(** C10.  A query aimed at a version the dataset has, whose state is
    not ready, is answered 400 and the store is left as it was: no
    query runs and no [DatasetQuery] row is written. *)
Theorem query_refused_unless_ready
        (sha256_hexdigest : string -> string)
        (s : Store) (rq : Request) (k : pk) (data : QueryData.t)
        (dataset : Dataset.t) (version : DatasetVersion.t) :
  get_object s rq k = Orm.Found dataset ->
  get_version s dataset
    (match QueryData.version data with
     | Some n => n
     | None => Dataset.current_version dataset
     end) = Orm.Found version ->
  DatasetVersion.state version <> "ready" ->
  exists error,
    query sha256_hexdigest s rq k data = (s, error_response error) /\
    (Py.str_truthy (match QueryData.query data with Some q => q | None => EmptyString end) = true ->
     error = ("Dataset version is not ready (state: " ++ DatasetVersion.state version ++ ")")%string).
Proof.
  intros Hget Hver Hst. unfold query, on_object. rewrite Hget.
  destruct (Py.str_truthy _); simpl.
  - rewrite Hver.
    destruct (String.eqb_spec (DatasetVersion.state version) "ready") as [E|E];
      [contradiction|]. simpl.
    eexists. split; reflexivity.
  - eexists. split; [reflexivity | discriminate].
Qed.

Lemma query_refused_unless_ready_witness :
  get_object Sample.store Sample.alice 30 = Orm.Found Sample.orders /\
  get_version Sample.store Sample.orders 3 = Orm.Found Sample.orders_v3 /\
  DatasetVersion.state Sample.orders_v3 <> "ready" /\
  query Sample.digest Sample.store Sample.alice 30
        (QueryData.mk (Some 3%Z) (Some "SELECT 1") None) =
    (Sample.store, error_response "Dataset version is not ready (state: creating)").
Proof.
  assert (Hst : DatasetVersion.state Sample.orders_v3 <> "ready") by discriminate.
  destruct (query_refused_unless_ready Sample.digest Sample.store Sample.alice 30
              (QueryData.mk (Some 3%Z) (Some "SELECT 1") None)
              Sample.orders Sample.orders_v3 eq_refl eq_refl Hst) as (error & E & Hmsg).
  split; [reflexivity|]. split; [reflexivity|]. split; [exact Hst|].
  rewrite E, (Hmsg eq_refl). reflexivity.
Defined.

End DatasetFacts.

(** ** Lineage *)

Module LineageFacts.
Import DatasetLineageMethods.

(** The claim, at an input: an edge of kind pipeline that names no
    pipeline (and nothing else) is not refused; it is stored, and its
    source name reads as [None]. *)
Lemma pipeline_edge_without_pipeline_is_stored :
  exists s' e,
    create Sample.store 100 32 "pipeline" None None None (Py.PyDict []) = Some (s', e) /\
    In e (dataset_lineage s') /\
    DatasetLineage.source_type e = "pipeline" /\
    DatasetLineage.source_data_source e = None /\
    DatasetLineage.source_pipeline e = None /\
    DatasetLineage.source_dataset_version e = None /\
    DatasetLineageSerializer.get_source_name s' e = None.
Proof.
  eexists; eexists. split; [reflexivity|]. repeat split. now left.
Qed.

(** C8, as the code has it.  Creating a lineage edge checks nothing
    about the kind and the upstream references: whenever the keys the
    edge holds point to rows, the edge is stored with the kind and the
    three references exactly as given, whichever of them are set.  The
    serializer shows a source name only for an edge whose reference
    matching its kind is set. *)
Theorem lineage_edge_stored_as_given
        (s : Store) (now : datetime) (dataset_version : pk) (source_type : string)
        (source_data_source source_pipeline source_dataset_version : option pk)
        (transformation_details : Py.value) :
  exists_row DatasetVersion.id (dataset_versions s) (Some dataset_version) = true ->
  exists_row DataSource.id (data_sources s) source_data_source = true ->
  exists_row Pipeline.id (pipelines s) source_pipeline = true ->
  exists_row DatasetVersion.id (dataset_versions s) source_dataset_version = true ->
  exists s' e,
    create s now dataset_version source_type source_data_source source_pipeline
           source_dataset_version transformation_details = Some (s', e) /\
    dataset_lineage s' = e :: dataset_lineage s /\
    DatasetLineage.dataset_version e = dataset_version /\
    DatasetLineage.source_type e = source_type /\
    DatasetLineage.source_data_source e = source_data_source /\
    DatasetLineage.source_pipeline e = source_pipeline /\
    DatasetLineage.source_dataset_version e = source_dataset_version /\
    (DatasetLineageSerializer.get_source_name s' e <> None ->
     (source_type = "source" /\ source_data_source <> None) \/
     (source_type = "pipeline" /\ source_pipeline <> None) \/
     (source_type = "dataset" /\ source_dataset_version <> None)).
Proof.
  intros H1 H2 H3 H4. unfold create. rewrite H1, H2, H3, H4. simpl.
  eexists; eexists. split; [reflexivity|]. repeat split.
  unfold DatasetLineageSerializer.get_source_name. simpl.
  destruct (String.eqb_spec source_type "source") as [Es|Es];
    [destruct source_data_source; simpl|simpl].
  - intros _. left. split; [assumption | discriminate].
  - destruct (String.eqb_spec source_type "pipeline") as [Ep|Ep];
      [subst; discriminate|]. simpl.
    destruct (String.eqb_spec source_type "dataset") as [Ed|Ed];
      [subst; discriminate|]. simpl. congruence.
  - destruct (String.eqb_spec source_type "pipeline") as [Ep|Ep];
      [destruct source_pipeline; simpl|simpl].
    + intros _. right. left. split; [assumption | discriminate].
    + destruct (String.eqb_spec source_type "dataset") as [Ed|Ed];
        [subst; discriminate|]. simpl. congruence.
    + destruct (String.eqb_spec source_type "dataset") as [Ed|Ed];
        [destruct source_dataset_version; simpl|simpl].
      * intros _. right. right. split; [assumption | discriminate].
      * congruence.
      * congruence.
Qed.

Lemma lineage_edge_stored_as_given_witness :
  exists_row DatasetVersion.id (dataset_versions Sample.store) (Some 33) = true /\
  exists_row DataSource.id (data_sources Sample.store) (Some 20) = true /\
  exists_row Pipeline.id (pipelines Sample.store) (Some 3) = true /\
  exists_row DatasetVersion.id (dataset_versions Sample.store) None = true /\
  exists s' e,
    create Sample.store 100 33 "dataset" (Some 20) (Some 3) None (Py.PyDict []) = Some (s', e) /\
    DatasetLineage.source_type e = "dataset" /\
    DatasetLineage.source_data_source e = Some 20 /\
    DatasetLineage.source_pipeline e = Some 3 /\
    DatasetLineage.source_dataset_version e = None.
Proof.
  destruct (lineage_edge_stored_as_given Sample.store 100 33 "dataset" (Some 20) (Some 3) None
              (Py.PyDict []) eq_refl eq_refl eq_refl eq_refl)
    as (s' & e & E & _ & _ & Ht & Hs & Hp & Hd & _).
  repeat (split; [reflexivity|]).
  exists s', e. repeat split; assumption.
Defined.

End LineageFacts.

(** ** The version history along the requests *)

Module HistoryFacts.
Import PipelineViewSet.

Lemma consistent_spec (s : Store) :
  consistent s <->
  (forall p, In p (pipelines s) -> (Pipeline.id p < next_pk s)%nat /\ history_ok s p) /\
  (forall v, In v (pipeline_versions s) -> (PipelineVersion.pipeline v < next_pk s)%nat).
Proof. unfold consistent. now rewrite !Forall_forall. Qed.

Lemma countdown_succ (n : Z) :
  (0 <= n)%Z -> countdown (Z.to_nat (n + 1)) = (n + 1)%Z :: countdown (Z.to_nat n).
Proof.
  intros H. replace (Z.to_nat (n + 1)) with (S (Z.to_nat n)) by lia.
  simpl countdown. f_equal. lia.
Qed.

Lemma countdown_bound (m : nat) (z : Z) :
  In z (countdown m) -> (1 <= z <= Z.of_nat m)%Z.
Proof.
  induction m as [|m IH]; simpl; [contradiction|].
  intros [<-|H]; [lia|]. specialize (IH H). lia.
Qed.

Lemma history_ok_frame (s s' : Store) (p q : Pipeline.t) :
  pipeline_versions s' = pipeline_versions s ->
  Pipeline.id q = Pipeline.id p ->
  Pipeline.current_version q = Pipeline.current_version p ->
  history_ok s p -> history_ok s' q.
Proof.
  unfold history_ok, version_numbers, Orm.versions_of.
  intros -> -> ->. auto.
Qed.

(** Growing the key counter and touching other tables keeps a store
    consistent. *)
Lemma consistent_frame (s s' : Store) :
  pipelines s' = pipelines s ->
  pipeline_versions s' = pipeline_versions s ->
  (next_pk s <= next_pk s')%nat ->
  consistent s -> consistent s'.
Proof.
  intros Ep Ev Hn. rewrite !consistent_spec, Ep, Ev. intros [Hp Hv]. split.
  - intros p Hin. destruct (Hp p Hin) as [Hid Hh]. split; [lia|].
    now apply (history_ok_frame s s' p p).
  - intros v Hin. specialize (Hv v Hin). lia.
Qed.

(** Saving an instance that keeps the key and the [current_version] of
    a stored row keeps a store consistent. *)
Lemma consistent_save (s : Store) (now : datetime) (x x0 : Pipeline.t) :
  In x0 (pipelines s) ->
  Pipeline.id x = Pipeline.id x0 ->
  Pipeline.current_version x = Pipeline.current_version x0 ->
  consistent s -> consistent (Orm.save_pipeline s now x).
Proof.
  intros Hx0 Hid Hcv. rewrite !consistent_spec. intros [Hp Hv]. split; [|exact Hv].
  intros q Hq. apply PipelineFacts.in_pipelines_save in Hq as [[-> _]|[Hq _]].
  - destruct (Hp x0 Hx0) as [Hlt Hh]. split; [simpl; lia|].
    now apply (history_ok_frame s _ x0).
  - destruct (Hp q Hq) as [Hlt Hh]. split; [exact Hlt|].
    now apply (history_ok_frame s _ q).
Qed.

Lemma versions_of_other (s : Store) (v : PipelineVersion.t) (rest : list PipelineVersion.t)
      (a : pk) :
  pipeline_versions s = v :: rest ->
  PipelineVersion.pipeline v <> a ->
  Orm.versions_of s a = filter (fun w => (PipelineVersion.pipeline w =? a)%nat) rest.
Proof.
  unfold Orm.versions_of. intros -> Hne. simpl.
  apply Nat.eqb_neq in Hne. now rewrite Hne.
Qed.

(** The serializer's [update] keeps a store consistent. *)
Lemma serializer_update_consistent (s s' : Store) (rq : Request) (instance : Pipeline.t)
      (data : PipelineSerializer.validated_data) res :
  In instance (pipelines s) ->
  consistent s ->
  PipelineSerializer.update s rq instance data = (s', res) ->
  consistent s'.
Proof.
  intros Hin Hc. unfold PipelineSerializer.update.
  destruct (PipelineSerializer.config_changed instance data).
  - unfold Orm.create_pipeline_version.
    destruct (Orm.is_null _ || Orm.version_slot_taken _ _ _); [now intros [= <- _]|].
    intros [= <- _]. revert Hc. rewrite !consistent_spec. intros [Hp Hv].
    destruct (Hp instance Hin) as [Hlt [Hone Hnum]].
    split.
    + intros q Hq. apply PipelineFacts.in_pipelines_save in Hq as [[-> _]|[Hq Hne]].
      * split; [simpl; lia|]. split; [simpl; lia|].
        unfold version_numbers, Orm.versions_of in *. simpl.
        rewrite Nat.eqb_refl. simpl. rewrite Hnum.
        symmetry. apply countdown_succ. lia.
      * simpl in Hq, Hne. destruct (Hp q Hq) as [Hql [Hqone Hqnum]].
        split; [simpl; lia|]. split; [exact Hqone|].
        unfold version_numbers, Orm.versions_of in *. simpl.
        destruct (Nat.eqb_spec (Pipeline.id instance) (Pipeline.id q)) as [E|E];
          [congruence | exact Hqnum].
    + simpl. intros v [<-|Hin']; simpl; [lia|]. specialize (Hv v Hin'). lia.
  - intros [= <- _]. now apply (consistent_save s _ _ instance).
Qed.

(** The serializer's [create] keeps a store consistent. *)
Lemma serializer_create_consistent (s s' : Store) (rq : Request)
      (data : PipelineSerializer.validated_data) res :
  consistent s ->
  PipelineSerializer.create s rq data = (s', res) ->
  consistent s'.
Proof.
  intros Hc. unfold PipelineSerializer.create.
  destruct (PipelineSerializer.insertable s data) as [[pr ds]|] eqn:Hins;
    [|now intros [= <- _]].
  apply PipelineFacts.insertable_config in Hins.
  unfold Orm.create_pipeline_version. simpl Pipeline.id. rewrite Hins. simpl orb.
  revert Hc. rewrite !consistent_spec. intros [Hp Hv].
  assert (Hnone : filter (fun w => (PipelineVersion.pipeline w =? next_pk s)%nat)
                         (pipeline_versions s) = []).
  { apply PipelineFacts.filter_none_in. intros v Hin. specialize (Hv v Hin).
    apply Nat.eqb_neq. lia. }
  assert (Hfree : Orm.version_slot_taken s (next_pk s) 1 = false).
  { unfold Orm.version_slot_taken.
    destruct (existsb _ (pipeline_versions s)) eqn:E; [|reflexivity].
    apply existsb_exists in E as (v & Hin & Hvv). apply andb_prop in Hvv as [Hvp _].
    apply Nat.eqb_eq in Hvp. specialize (Hv v Hin). lia. }
  change (Orm.version_slot_taken _ (next_pk s) 1) with (Orm.version_slot_taken s (next_pk s) 1).
  rewrite Hfree. intros [= <- _]. split.
  - simpl. intros q [<-|Hq].
    + split; [simpl; lia|]. split; [simpl; lia|].
      unfold version_numbers, Orm.versions_of. simpl. rewrite Nat.eqb_refl. simpl.
      now rewrite Hnone.
    + destruct (Hp q Hq) as [Hql [Hqone Hqnum]].
      split; [lia|]. split; [exact Hqone|].
      unfold version_numbers, Orm.versions_of in *. simpl.
      destruct (Nat.eqb_spec (next_pk s) (Pipeline.id q)) as [E|E]; [lia | exact Hqnum].
  - simpl. intros v [<-|Hin]; simpl; [lia|]. specialize (Hv v Hin). lia.
Qed.

Lemma filter_other_pipeline (a b : pk) (l : list PipelineVersion.t) :
  a <> b ->
  filter (fun w => (PipelineVersion.pipeline w =? a)%nat)
         (filter (fun w => negb (PipelineVersion.pipeline w =? b)%nat) l) =
  filter (fun w => (PipelineVersion.pipeline w =? a)%nat) l.
Proof.
  intros Hne. induction l as [|w l IH]; simpl; [reflexivity|].
  destruct (Nat.eqb_spec (PipelineVersion.pipeline w) b) as [Eb|Eb]; simpl.
  - destruct (Nat.eqb_spec (PipelineVersion.pipeline w) a) as [Ea|Ea]; [congruence | exact IH].
  - now rewrite IH.
Qed.

(** Every request of the viewset keeps a store consistent. *)
Lemma dispatch_consistent (s : Store) (rq : Request) (c : call) :
  consistent s -> consistent (fst (dispatch s rq c)).
Proof.
  intros Hc.
  assert (Hupdate : forall k partial raw, consistent (fst (update s rq k partial raw))).
  { intros k partial raw.
    destruct (PipelineFacts.update_store s rq k partial raw)
      as [->|(instance & data & Hget & ->)]; [exact Hc|].
    apply PipelineFacts.get_object_found in Hget as (Hin & _).
    destruct (PipelineSerializer.update s rq instance data) as [s' res] eqn:E.
    exact (serializer_update_consistent s s' rq instance data _ Hin Hc E). }
  destruct c as [raw|k data|k data|k|k tt|k|k|]; simpl.
  - destruct (PipelineFacts.create_store s rq raw) as [->|(data & ->)]; [exact Hc|].
    destruct (PipelineSerializer.create s rq data) as [s' res] eqn:E.
    exact (serializer_create_consistent s s' rq data _ Hc E).
  - apply Hupdate.
  - apply Hupdate.
  - unfold destroy, on_object.
    destruct (get_object s rq k) as [instance| |] eqn:Hget; try exact Hc.
    simpl. revert Hc. rewrite !consistent_spec. intros [Hp Hv]. split.
    + simpl. intros q Hq. apply filter_In in Hq as [Hq Hne].
      apply negb_true_iff, Nat.eqb_neq in Hne.
      destruct (Hp q Hq) as [Hql [Hqone Hqnum]].
      split; [exact Hql|]. split; [exact Hqone|].
      unfold version_numbers, Orm.versions_of in *. simpl.
      now rewrite filter_other_pipeline.
    + simpl. intros v Hin. apply filter_In in Hin as [Hin _]. now apply Hv.
  - destruct (execute s rq k tt) as [s' r] eqn:E. simpl.
    apply PipelineFacts.execute_cases in E
      as [(-> & _)|(p & e & Hget & _ & _ & _ & _ & ->)]; [exact Hc|].
    apply PipelineFacts.get_object_found in Hget as (Hin & _).
    apply (consistent_save _ _ _ p); try reflexivity; [exact Hin|].
    apply (consistent_frame s); try reflexivity; [simpl; lia | exact Hc].
  - unfold estimate_resources, on_object.
    destruct (get_object s rq k) as [p| |] eqn:Hget; try exact Hc. simpl.
    apply PipelineFacts.get_object_found in Hget as (Hin & _).
    now apply (consistent_save _ _ _ p).
  - unfold validate, on_object.
    destruct (get_object s rq k) as [p| |] eqn:Hget; try exact Hc. simpl.
    apply PipelineFacts.get_object_found in Hget as (Hin & _).
    now apply (consistent_save _ _ _ p).
  - exact Hc.
Qed.

(** X1.  Whatever requests the viewset serves, the version history of
    every pipeline stays gap-free: if in the store the versions of each
    pipeline are numbered [current_version], ..., 2, 1 (and no row
    carries a key still to be handed out), the same holds after any
    sequence of create, update, destroy, execute, estimate_resources,
    validate and scheduled requests.  A store without pipelines and
    versions is such a store. *)
Theorem requests_keep_history_gap_free (s : Store) (requests : list (Request * call)) :
  consistent s -> consistent (run s requests).
Proof.
  revert s. induction requests as [|[rq c] rest IH]; intros s Hc; simpl.
  - exact Hc.
  - apply IH. now apply dispatch_consistent.
Qed.

Lemma empty_store_consistent (s : Store) :
  pipelines s = [] -> pipeline_versions s = [] -> consistent s.
Proof. unfold consistent. intros -> ->. split; constructor. Qed.

Lemma requests_keep_history_gap_free_witness :
  consistent Sample.store /\
  consistent (run Sample.store
                [(Sample.alice, Create Sample.definition);
                 (Sample.alice, PartialUpdate 1 Sample.new_config);
                 (Sample.alice, Execute 1 None);
                 (Sample.alice, Destroy 3)]) /\
  version_numbers (run Sample.store
                     [(Sample.alice, Create Sample.definition);
                      (Sample.alice, PartialUpdate 1 Sample.new_config);
                      (Sample.alice, Execute 1 None);
                      (Sample.alice, Destroy 3)]) 1 = [2%Z; 1%Z].
Proof.
  assert (H : consistent Sample.store).
  { unfold consistent, history_ok. split; repeat constructor; simpl; lia. }
  split; [exact H|]. split; [|reflexivity].
  exact (requests_keep_history_gap_free Sample.store _ H).
Defined.

(** In a gap-free history exactly one version carries the current
    number: it is the newest row. *)
Lemma current_version_unique (s : Store) (p : Pipeline.t) :
  history_ok s p ->
  exists v rest,
    Orm.versions_of s (Pipeline.id p) = v :: rest /\
    PipelineVersion.version_number v = Pipeline.current_version p /\
    filter (fun w => (PipelineVersion.version_number w =? Pipeline.current_version p)%Z)
           (Orm.versions_of s (Pipeline.id p)) = [v].
Proof.
  unfold history_ok, version_numbers. intros [Hone Hnum].
  destruct (Z.to_nat (Pipeline.current_version p)) as [|m] eqn:Em; [lia|].
  destruct (Orm.versions_of s (Pipeline.id p)) as [|v rest]; [discriminate|].
  simpl in Hnum. injection Hnum as Hv Hrest.
  assert (Hcv : PipelineVersion.version_number v = Pipeline.current_version p) by lia.
  exists v, rest. split; [reflexivity|]. split; [exact Hcv|].
  simpl. rewrite Hcv, Z.eqb_refl. f_equal.
  apply PipelineFacts.filter_none_in. intros w Hw.
  apply Z.eqb_neq. intros E.
  assert (Hin : In (PipelineVersion.version_number w) (countdown m))
    by (rewrite <- Hrest; now apply in_map).
  apply countdown_bound in Hin. lia.
Qed.

(** X2.  In a store with gap-free histories, [execute] on a pipeline
    the caller can see, in state ready, completed or failed, always
    starts the run: the lookup of the current version cannot fail, so
    the answer is 201, never 'Pipeline has no valid version'.  The
    execution is bound to the newest version of the pipeline. *)
Theorem execute_always_finds_current_version
        (s : Store) (rq : Request) (k : pk) (trigger_type : option string)
        (pipeline : Pipeline.t) :
  consistent s ->
  get_object s rq k = Orm.Found pipeline ->
  triggerable (Pipeline.state pipeline) = true ->
  exists s' execution newest,
    execute s rq k trigger_type =
      (s', mkResponse Http.HTTP_201_CREATED (ExecutionData execution)) /\
    hd_error (Orm.versions_of s k) = Some newest /\
    PipelineVersion.version_number newest = Pipeline.current_version pipeline /\
    PipelineExecution.pipeline_version execution = Some (PipelineVersion.id newest).
Proof.
  intros Hc Hget Htrig.
  pose proof (PipelineFacts.get_object_found _ _ _ _ Hget) as (Hin & Hid & _).
  apply consistent_spec in Hc as [Hp _]. destruct (Hp pipeline Hin) as [_ Hh].
  destruct (current_version_unique s pipeline Hh) as (v & rest & Hvs & Hn & Hf).
  unfold execute, on_object. rewrite Hget.
  rewrite (PipelineFacts.triggerable_not_running _ Htrig).
  unfold triggerable in Htrig. rewrite Htrig. simpl negb. cbv iota.
  rewrite Hf. simpl Orm.get. cbv iota.
  eexists; eexists; exists v. split; [reflexivity|].
  rewrite <- Hid, Hvs. repeat split. exact Hn.
Qed.

Lemma execute_always_finds_current_version_witness :
  consistent Sample.store /\
  get_object Sample.store Sample.alice 3 = Orm.Found Sample.nightly /\
  triggerable (Pipeline.state Sample.nightly) = true /\
  exists s' execution,
    execute Sample.store Sample.alice 3 (Some "scheduled") =
      (s', mkResponse Http.HTTP_201_CREATED (ExecutionData execution)) /\
    PipelineExecution.pipeline_version execution = Some 4.
Proof.
  assert (H : consistent Sample.store).
  { unfold consistent, history_ok. split; repeat constructor; simpl; lia. }
  destruct (execute_always_finds_current_version Sample.store Sample.alice 3
              (Some "scheduled") Sample.nightly H eq_refl eq_refl)
    as (s' & e & v & E & Hhd & _ & Hv).
  split; [exact H|]. split; [reflexivity|]. split; [reflexivity|].
  exists s', e. split; [exact E|].
  injection Hhd as <-. exact Hv.
Defined.

(** A list whose keys fall strictly is already in the order of
    [order_desc]. *)
Lemma order_desc_sorted {A : Type} (key : A -> Z) (l : list A) (n : nat) :
  map key l = countdown n -> Ordering.order_desc key l = l.
Proof.
  revert n. induction l as [|x l IH]; intros n H; [reflexivity|].
  destruct n as [|m]; [discriminate|]. simpl in H. injection H as Hx Hl.
  simpl. rewrite (IH m Hl).
  destruct l as [|y l']; [reflexivity|]. simpl.
  destruct m as [|m']; [discriminate|]. simpl in Hl. injection Hl as Hy _.
  replace (key y <=? key x)%Z with true; [reflexivity|].
  symmetry. apply Z.leb_le. lia.
Qed.

(** X3.  In a store with gap-free histories the [versions] action
    lists, for a pipeline the caller can see, exactly [current_version]
    versions, numbered [current_version] down to 1 in this order, and
    the serializer's [current_version_detail] is the first of them,
    never null. *)
Theorem versions_lists_history_newest_first
        (s : Store) (rq : Request) (k : pk) (pipeline : Pipeline.t) :
  consistent s ->
  get_object s rq k = Orm.Found pipeline ->
  exists listed,
    PipelineReads.versions s rq k =
      Read.mk Http.HTTP_200_OK (Read.VersionsData listed) /\
    map PipelineVersion.version_number listed =
      countdown (Z.to_nat (Pipeline.current_version pipeline)) /\
    Forall (fun v => PipelineVersion.pipeline v = k) listed /\
    PipelineReads.get_current_version_detail s pipeline = inl (hd_error listed) /\
    hd_error listed <> None.
Proof.
  intros Hc Hget.
  pose proof (PipelineFacts.get_object_found _ _ _ _ Hget) as (Hin & Hid & _).
  apply consistent_spec in Hc as [Hp _]. destruct (Hp pipeline Hin) as [_ Hh].
  destruct (current_version_unique s pipeline Hh) as (v & rest & Hvs & Hn & Hf).
  destruct Hh as [Hone Hnum]. unfold version_numbers in Hnum.
  exists (Orm.versions_of s (Pipeline.id pipeline)).
  unfold PipelineReads.versions. rewrite Hget.
  rewrite (order_desc_sorted _ _ _ Hnum).
  split; [reflexivity|]. split; [exact Hnum|]. split.
  - apply Forall_forall. intros w Hw.
    apply PipelineFacts.in_versions_of in Hw as [_ Hw]. congruence.
  - unfold PipelineReads.get_current_version_detail. rewrite Hf, Hvs. simpl.
    split; [reflexivity | discriminate].
Qed.

Lemma versions_lists_history_newest_first_witness :
  consistent Sample.store /\
  get_object Sample.store Sample.alice 1 = Orm.Found Sample.sales /\
  exists listed,
    PipelineReads.versions Sample.store Sample.alice 1 =
      Read.mk Http.HTTP_200_OK (Read.VersionsData listed) /\
    map PipelineVersion.version_number listed = [1%Z] /\
    PipelineReads.get_current_version_detail Sample.store Sample.sales =
      inl (hd_error listed).
Proof.
  assert (H : consistent Sample.store).
  { unfold consistent, history_ok. split; repeat constructor; simpl; lia. }
  destruct (versions_lists_history_newest_first Sample.store Sample.alice 1 Sample.sales
              H eq_refl) as (listed & E & Hn & _ & Hd & _).
  split; [exact H|]. split; [reflexivity|].
  exists listed. split; [exact E|]. split; [exact Hn | exact Hd].
Defined.


End HistoryFacts.

(** ** Visibility and lifecycle along the requests *)

Module LifecycleFacts.
Import PipelineViewSet.

Lemma hidden_not_found (s : Store) (rq : Request) (k : pk) :
  hidden s rq k -> get_object s rq k = Orm.DoesNotExist.
Proof.
  intros Hh. unfold get_object.
  rewrite PipelineFacts.filter_none_in; [reflexivity|].
  intros p Hp. apply PipelineFacts.in_get_queryset in Hp as (Hin & Hm & Hd & _).
  apply Nat.eqb_neq. intros Hid.
  destruct (Hh p Hin Hid) as [H|H]; congruence.
Qed.

(** X4.  A pipeline that is flagged deleted, or that belongs to a
    project the caller is not a member of, cannot be reached: update,
    destroy, execute, estimate_resources and validate on its key all
    answer 404 and leave the store as it is. *)
Theorem hidden_pipeline_is_not_found
        (s : Store) (rq : Request) (k : pk) (c : call) :
  hidden s rq k ->
  addresses c k = true ->
  dispatch s rq c = (s, not_found).
Proof.
  intros Hh Ha. apply hidden_not_found in Hh.
  destruct c as [data|k' data|k' data|k'|k' tt|k'|k'|]; simpl in Ha; try discriminate;
    apply Nat.eqb_eq in Ha; subst k'; simpl;
    unfold partial_update, update, destroy, execute, estimate_resources, validate, on_object;
    now rewrite Hh.
Qed.

Lemma hidden_pipeline_is_not_found_witness :
  hidden Sample.store Sample.bob 1 /\
  addresses (Execute 1 None) 1 = true /\
  dispatch Sample.store Sample.bob (Execute 1 None) = (Sample.store, not_found).
Proof.
  assert (H : hidden Sample.store Sample.bob 1).
  { intros p _ _. now right. }
  split; [exact H|]. split; [reflexivity|].
  exact (hidden_pipeline_is_not_found Sample.store Sample.bob 1 (Execute 1 None) H eq_refl).
Defined.

(** X5.  No sequence of requests of the viewset flags a pipeline as
    deleted: if no stored pipeline carries [is_deleted], none does
    afterwards. *)
Theorem requests_never_flag_deleted (s : Store) (requests : list (Request * call)) :
  (forall p, In p (pipelines s) -> Pipeline.is_deleted p = false) ->
  forall q, In q (pipelines (run s requests)) -> Pipeline.is_deleted q = false.
Proof.
  revert s. induction requests as [|[rq c] rest IH]; intros s Hs; simpl.
  - exact Hs.
  - apply IH. intros q Hq.
    destruct (Pipeline.is_deleted q) eqn:Hd; [|reflexivity].
    destruct (PipelineFacts.no_request_flags_deleted s rq c q Hq Hd) as (p & Hp & _ & Hpd).
    rewrite (Hs p Hp) in Hpd. discriminate.
Qed.

Lemma requests_never_flag_deleted_witness :
  (forall p, In p (pipelines Sample.store) -> Pipeline.is_deleted p = false) /\
  forall q,
    In q (pipelines (run Sample.store
                       [(Sample.alice, Destroy 3); (Sample.alice, Validate 1)])) ->
    Pipeline.is_deleted q = false.
Proof.
  assert (H : forall p, In p (pipelines Sample.store) -> Pipeline.is_deleted p = false).
  { intros p [<-|[<-|[]]]; reflexivity. }
  split; [exact H|].
  exact (requests_never_flag_deleted Sample.store _ H).
Defined.

Lemma cascade_length (f : PipelineExecution.t -> PipelineExecution.t)
      (g : PipelineExecution.t -> bool) (l : list PipelineExecution.t) :
  (List.length (map f (filter g l)) <= List.length l)%nat.
Proof.
  rewrite length_map. induction l as [|e l IH]; simpl; [lia|].
  destruct (g e); simpl; lia.
Qed.

(** While no pipeline is triggerable, no request adds an execution. *)
Lemma dispatch_adds_no_execution (s : Store) (rq : Request) (c : call) :
  (forall k, locked s k) ->
  (List.length (pipeline_executions (fst (dispatch s rq c))) <=
   List.length (pipeline_executions s))%nat.
Proof.
  intros Hl.
  assert (Hupdate : forall k partial raw,
             (List.length (pipeline_executions (fst (update s rq k partial raw))) <=
              List.length (pipeline_executions s))%nat).
  { intros k partial raw.
    destruct (PipelineFacts.update_store s rq k partial raw)
      as [->|(instance & data & _ & ->)]; [lia|].
    destruct (PipelineSerializer.update s rq instance data) as [s' res] eqn:E.
    apply PipelineFacts.serializer_update_pipelines in E as [E _]. simpl. rewrite E. lia. }
  destruct c as [raw|k data|k data|k|k tt|k|k|]; simpl.
  - destruct (PipelineFacts.create_store s rq raw) as [->|(data & ->)]; [lia|].
    destruct (PipelineSerializer.create s rq data) as [s' res] eqn:E.
    apply PipelineFacts.serializer_create_pipelines in E as [E _]. simpl. rewrite E. lia.
  - apply Hupdate.
  - apply Hupdate.
  - unfold destroy, on_object.
    destruct (get_object s rq k) as [instance| |]; try (simpl; lia).
    simpl. apply cascade_length.
  - destruct (PipelineFacts.execute_locked s rq k tt (Hl k)) as (r & E & _).
    rewrite E. simpl. lia.
  - unfold estimate_resources, on_object.
    destruct (get_object s rq k) as [p| |]; simpl; lia.
  - unfold validate, on_object.
    destruct (get_object s rq k) as [p| |]; simpl; lia.
  - lia.
Qed.

(** X6.  The viewset alone never makes a pipeline runnable.  If no
    stored pipeline is in state ready, completed or failed, then after
    any sequence of requests none is (created pipelines are drafts, and
    no request sets one of these states), no execution has been added,
    and every [execute] is refused with the store unchanged. *)
Theorem requests_alone_never_start_a_run (s : Store) (requests : list (Request * call)) :
  (forall p, In p (pipelines s) -> triggerable (Pipeline.state p) = false) ->
  (forall p, In p (pipelines (run s requests)) -> triggerable (Pipeline.state p) = false) /\
  (List.length (pipeline_executions (run s requests)) <=
   List.length (pipeline_executions s))%nat /\
  forall rq k trigger_type,
  exists r,
    execute (run s requests) rq k trigger_type = (run s requests, r) /\
    Http.is_error (status_code r) = true.
Proof.
  intros Hs.
  assert (Hrun : forall reqs s0, (forall k, locked s0 k) ->
                   (forall k, locked (run s0 reqs) k) /\
                   (List.length (pipeline_executions (run s0 reqs)) <=
                    List.length (pipeline_executions s0))%nat).
  { induction reqs as [|[rq c] rest IH]; intros s0 Hl; simpl.
    - split; [exact Hl | lia].
    - destruct (IH (fst (dispatch s0 rq c))) as [H1 H2].
      + intros k. now apply PipelineFacts.dispatch_locked.
      + split; [exact H1|]. pose proof (dispatch_adds_no_execution s0 rq c Hl). lia. }
  destruct (Hrun requests s) as [Hl Hlen].
  { intros k p Hp _. now apply Hs. }
  split; [|split; [exact Hlen|]].
  - intros p Hp. now apply (Hl (Pipeline.id p) p).
  - intros rq k tt.
    destruct (PipelineFacts.execute_locked (run s requests) rq k tt (Hl k)) as (r & E & Herr & _).
    now exists r.
Qed.

Lemma requests_alone_never_start_a_run_witness :
  (forall p, In p (pipelines (fst (create (with_pipelines Sample.store []) Sample.alice
                                          Sample.definition))) ->
             triggerable (Pipeline.state p) = false) /\
  forall requests,
    (List.length
       (pipeline_executions
          (run (fst (create (with_pipelines Sample.store []) Sample.alice Sample.definition))
               requests)) <= 0)%nat.
Proof.
  assert (H : forall p, In p (pipelines (fst (create (with_pipelines Sample.store [])
                                                 Sample.alice Sample.definition))) ->
                        triggerable (Pipeline.state p) = false).
  { intros p [<-|[]]. reflexivity. }
  split; [exact H|]. intros requests.
  exact (proj1 (proj2 (requests_alone_never_start_a_run _ requests H))).
Defined.

(** X7.  [validate] on a pipeline the caller can see answers 200 and
    sets the state to validating whatever the state was, a running
    pipeline included; versions and executions are untouched.  From
    then on [execute] on the pipeline is refused, 400 'Pipeline cannot
    be executed in validating state', for every caller that can see
    it. *)
Theorem validate_blocks_execute (s : Store) (rq : Request) (k : pk) (p : Pipeline.t) :
  get_object s rq k = Orm.Found p ->
  exists s1,
    validate s rq k =
      (s1, mkResponse Http.HTTP_200_OK
             (StatusMessage "validation_started" "Pipeline validation has been initiated")) /\
    pipeline_versions s1 = pipeline_versions s /\
    pipeline_executions s1 = pipeline_executions s /\
    (exists q, In q (pipelines s1) /\ Pipeline.id q = k) /\
    (forall q, In q (pipelines s1) -> Pipeline.id q = k -> Pipeline.state q = "validating") /\
    forall rq2 trigger_type q,
      get_object s1 rq2 k = Orm.Found q ->
      execute s1 rq2 k trigger_type =
        (s1, error_response "Pipeline cannot be executed in validating state").
Proof.
  intros Hget.
  pose proof (PipelineFacts.get_object_found _ _ _ _ Hget) as (Hin & Hid & _).
  unfold validate, on_object. rewrite Hget.
  eexists. split; [reflexivity|]. split; [reflexivity|]. split; [reflexivity|].
  assert (Hstate : forall q,
             In q (pipelines (Orm.save_pipeline s (now rq) (Pipeline.set_state p "validating"))) ->
             Pipeline.id q = k -> Pipeline.state q = "validating").
  { intros q Hq Hk. apply PipelineFacts.in_pipelines_save in Hq as [[-> _]|[_ Hne]];
      [reflexivity | simpl in Hne; congruence]. }
  split; [|split; [exact Hstate|]].
  - exists (Pipeline.set_updated_at (Pipeline.set_state p "validating") (now rq)).
    split; [|exact Hid].
    apply PipelineFacts.saved_row_present with p; [exact Hin | reflexivity].
  - intros rq2 tt q Hq. unfold execute, on_object. rewrite Hq.
    apply PipelineFacts.get_object_found in Hq as (Hqin & Hqid & _).
    rewrite (Hstate q Hqin Hqid). reflexivity.
Qed.

Lemma validate_blocks_execute_witness :
  get_object Sample.store_running Sample.alice 1 =
    Orm.Found (Pipeline.set_updated_at (Pipeline.set_state Sample.sales "running") 100) /\
  exists s1,
    fst (validate Sample.store_running Sample.alice 1) = s1 /\
    (forall q, In q (pipelines s1) -> Pipeline.id q = 1 -> Pipeline.state q = "validating") /\
    pipeline_executions s1 = pipeline_executions Sample.store_running.
Proof.
  split; [reflexivity|].
  destruct (validate_blocks_execute Sample.store_running Sample.alice 1 _ eq_refl)
    as (s1 & E & _ & He & _ & Hs & _).
  exists s1. split; [now rewrite E|]. split; [exact Hs | exact He].
Defined.



Lemma in_order_desc {A : Type} (key : A -> Z) (l : list A) (x : A) :
  In x (Ordering.order_desc key l) -> In x l.
Proof.
  assert (Hins : forall y m, In x (Ordering.insert_desc key y m) -> x = y \/ In x m).
  { intros y m. induction m as [|h t IH]; simpl.
    - intros [<-|[]]. now left.
    - destruct (key h <=? key y)%Z; simpl.
      + intros [<-|[<-|H]]; auto.
      + intros [<-|H]; auto. destruct (IH H); auto. }
  induction l as [|y l IH]; simpl; [auto|].
  intros H. destruct (Hins _ _ H) as [->|H']; auto.
Qed.

(** X9.  After [execute] has started a run at a time later than the
    [queued_at] of every earlier execution of the pipeline, the
    serializer's [latest_execution] of the pipeline is the execution
    just created. *)
Theorem latest_execution_is_the_one_started
        (s s' : Store) (rq : Request) (k : pk) (trigger_type : option string)
        (execution : PipelineExecution.t) :
  execute s rq k trigger_type =
    (s', mkResponse Http.HTTP_201_CREATED (ExecutionData execution)) ->
  (forall e, In e (Orm.executions_of s k) -> (PipelineExecution.queued_at e < now rq)%Z) ->
  forall p, In p (pipelines s') -> Pipeline.id p = k ->
            PipelineReads.get_latest_execution s' p = Some execution.
Proof.
  intros He Hbefore p Hp Hk.
  unfold execute, on_object in He.
  destruct (get_object s rq k) as [pl| |] eqn:Hget; try discriminate.
  apply PipelineFacts.get_object_found in Hget as (_ & Hid & _).
  destruct (Pipeline.state pl =? "running")%string; [discriminate|].
  destruct (negb _); [discriminate|].
  destruct (Orm.get _) as [cv| |]; try discriminate.
  injection He as <- <-.
  unfold PipelineReads.get_latest_execution, Orm.executions_of. simpl.
  rewrite Hk, Hid, Nat.eqb_refl. simpl.
  destruct (Ordering.order_desc PipelineExecution.queued_at
              (filter (fun e => (PipelineExecution.pipeline e =? k)%nat)
                      (pipeline_executions s))) as [|h t] eqn:El; [reflexivity|].
  simpl.
  assert (Hh : (PipelineExecution.queued_at h < now rq)%Z).
  { apply Hbefore. unfold Orm.executions_of.
    apply (in_order_desc PipelineExecution.queued_at). rewrite El. now left. }
  replace (PipelineExecution.queued_at h <=? now rq)%Z with true; [reflexivity|].
  symmetry. apply Z.leb_le. lia.
Qed.

Lemma latest_execution_is_the_one_started_witness :
  PipelineReads.get_latest_execution Sample.store_midrun Sample.sales =
    Some Sample.earlier_run /\
  exists s' execution,
    execute Sample.store_midrun Sample.alice 1 None =
      (s', mkResponse Http.HTTP_201_CREATED (ExecutionData execution)) /\
    In Sample.earlier_run (Orm.executions_of Sample.store_midrun 1) /\
    (forall e, In e (Orm.executions_of Sample.store_midrun 1) ->
               (PipelineExecution.queued_at e < now Sample.alice)%Z) /\
    forall p, In p (pipelines s') -> Pipeline.id p = 1 ->
              PipelineReads.get_latest_execution s' p = Some execution.
Proof.
  split; [reflexivity|].
  eexists; eexists. split; [reflexivity|]. split; [now left|].
  assert (H : forall e, In e (Orm.executions_of Sample.store_midrun 1) ->
                        (PipelineExecution.queued_at e < now Sample.alice)%Z).
  { intros e [<-|[]]. reflexivity. }
  split; [exact H|].
  exact (latest_execution_is_the_one_started Sample.store_midrun _ Sample.alice 1
           None _ eq_refl H).
Defined.

End LifecycleFacts.

(** ** Python equality and the change of config *)

Module ConfigFacts.
Import Py.

(** X10.  Sending a pipeline its own config with the keys of its dicts
    in another order is no change of config: [update] adds no version
    and keeps [current_version], while the stored config takes the new
    order of keys. *)
Theorem update_with_reordered_config_adds_no_version
        (s : Store) (rq : Request) (instance : Pipeline.t)
        (data : PipelineSerializer.validated_data) (c : value) :
  PipelineSerializer.config data = Some c ->
  same_content c (Pipeline.config instance) ->
  well_formed c = true ->
  exists s' p,
    PipelineSerializer.update s rq instance data = (s', inl p) /\
    pipeline_versions s' = pipeline_versions s /\
    Pipeline.current_version p = Pipeline.current_version instance /\
    Pipeline.config p = c.
Proof.
  intros Hc Hsc Hwf. unfold PipelineSerializer.update, PipelineSerializer.config_changed.
  rewrite Hc. unfold py_ne. rewrite (PyFacts.py_eq_same_content c _ Hsc Hwf). simpl.
  eexists; eexists. split; [reflexivity|]. repeat split.
  simpl. now rewrite Hc.
Qed.

Lemma update_with_reordered_config_adds_no_version_witness :
  well_formed Sample.id_first = true /\
  exists s' p,
    PipelineSerializer.update Sample.store Sample.alice
      (PipelineSerializer.assign Sample.sales
         (PipelineSerializer.mk None None None None None None None (Some Sample.type_first)
                                None None None None None))
      (PipelineSerializer.mk None None None None None None None (Some Sample.id_first)
                             None None None None None) = (s', inl p) /\
    pipeline_versions s' = pipeline_versions Sample.store /\
    Pipeline.config p = Sample.id_first.
Proof.
  split; [reflexivity|].
  destruct (update_with_reordered_config_adds_no_version Sample.store Sample.alice
              (PipelineSerializer.assign Sample.sales
                 (PipelineSerializer.mk None None None None None None None
                                        (Some Sample.type_first) None None None None None))
              (PipelineSerializer.mk None None None None None None None (Some Sample.id_first)
                                     None None None None None)
              Sample.id_first eq_refl FingerprintFacts.sample_schemas_same_content eq_refl)
    as (s' & p & E & Hv & _ & Hc).
  exists s', p. split; [exact E|]. split; [exact Hv | exact Hc].
Defined.

End ConfigFacts.

(** ** Deletion and the rows that point to the deleted one *)

Module CascadeFacts.
Import DatasetViewSet.

Lemma dataset_get_object_found (s : Store) (rq : Request) (k : pk) (d : Dataset.t) :
  get_object s rq k = Orm.Found d -> In d (datasets s) /\ Dataset.id d = k.
Proof.
  unfold get_object. intros H. apply PipelineFacts.get_found in H.
  assert (Hin : In d (filter (fun x => (Dataset.id x =? k)%nat) (get_queryset s rq)))
    by (rewrite H; now left).
  apply filter_In in Hin as [Hq Hid]. apply Nat.eqb_eq in Hid. split; [|exact Hid].
  unfold get_queryset in Hq.
  destruct (given (query_search rq)); destruct (given (query_visibility rq));
    destruct (query_project rq);
    repeat (apply filter_In in Hq as [Hq _]); exact Hq.
Qed.

Lemma key_inj {A : Type} (key : A -> pk) (rows : list A) (a b : A) :
  distinct_keys key rows -> In a rows -> In b rows -> key a = key b -> a = b.
Proof.
  unfold distinct_keys. induction rows as [|x rows IH]; simpl; [contradiction|].
  intros Hnd Ha Hb Hk. inversion Hnd as [|? ? Hnot Hnd']; subst.
  destruct Ha as [->|Ha], Hb as [->|Hb].
  - reflexivity.
  - exfalso. apply Hnot. rewrite Hk. now apply in_map.
  - exfalso. apply Hnot. rewrite <- Hk. now apply in_map.
  - now apply IH.
Qed.

(** What [delete_version] does to the store: nothing, or the removal of
    the version it found, which is a version of the dataset, carries
    the number asked for, is not the current one and not the only
    one. *)
Lemma delete_version_cases (s s' : Store) (rq : Request) (k : pk) (n : Z) (r : Response) :
  delete_version s rq k n = (s', r) ->
  (s' = s /\ status_code r <> Http.HTTP_204_NO_CONTENT) \/
  (exists dataset version,
      In dataset (datasets s) /\ Dataset.id dataset = k /\
      In version (dataset_versions s) /\
      DatasetVersion.dataset version = k /\
      DatasetVersion.version_number version = n /\
      n <> Dataset.current_version dataset /\
      Orm.count (Orm.dataset_versions_of s k) <> 1%Z /\
      r = mkResponse Http.HTTP_204_NO_CONTENT NoContent /\
      s' = Orm.delete_dataset_version s (DatasetVersion.id version)).
Proof.
  unfold delete_version, on_object.
  destruct (get_object s rq k) as [dataset| |] eqn:Hget;
    try (intros [= <- <-]; left; split; [reflexivity | discriminate]).
  apply dataset_get_object_found in Hget as (Hd & Hid).
  destruct (get_version s dataset n) as [version| |] eqn:Hver;
    try (intros [= <- <-]; left; split; [reflexivity | discriminate]).
  apply DatasetFacts.get_version_found in Hver as (Hv & Hvd & Hvn).
  destruct (Z.eqb_spec (Orm.count (Orm.dataset_versions_of s (Dataset.id dataset))) 1)
    as [Ec|Ec]; [intros [= <- <-]; left; split; [reflexivity | discriminate]|].
  destruct (Z.eqb_spec (DatasetVersion.version_number version) (Dataset.current_version dataset))
    as [En|En]; [intros [= <- <-]; left; split; [reflexivity | discriminate]|].
  intros [= <- <-]. right. exists dataset, version.
  repeat split; try assumption; congruence.
Qed.

(** X11.  [delete_version] never removes the version a dataset's
    [current_version] names: with distinct primary keys, the row of
    every dataset and the version it points to are both still stored
    after any [delete_version] request. *)
Theorem delete_version_keeps_every_current_version
        (s : Store) (rq : Request) (k : pk) (n : Z) (d : Dataset.t) (w : DatasetVersion.t) :
  distinct_keys DatasetVersion.id (dataset_versions s) ->
  distinct_keys Dataset.id (datasets s) ->
  In d (datasets s) ->
  In w (dataset_versions s) ->
  DatasetVersion.dataset w = Dataset.id d ->
  DatasetVersion.version_number w = Dataset.current_version d ->
  In d (datasets (fst (delete_version s rq k n))) /\
  In w (dataset_versions (fst (delete_version s rq k n))).
Proof.
  intros Hkv Hkd Hd Hw Hwd Hwn.
  destruct (delete_version s rq k n) as [s' r] eqn:E. simpl.
  apply delete_version_cases in E
    as [(-> & _)|(dataset & version & Hds & Hid & Hv & Hvd & Hvn & Hcur & _ & _ & ->)];
    [now split|].
  split; [exact Hd|]. simpl. apply filter_In. split; [exact Hw|].
  apply negb_true_iff, Nat.eqb_neq. intros Hsame.
  assert (w = version) by (now apply (key_inj DatasetVersion.id (dataset_versions s))).
  subst w.
  assert (d = dataset).
  { apply (key_inj Dataset.id (datasets s)); try assumption. congruence. }
  subst d. congruence.
Qed.

Lemma delete_version_keeps_every_current_version_witness :
  distinct_keys DatasetVersion.id (dataset_versions Sample.store) /\
  distinct_keys Dataset.id (datasets Sample.store) /\
  In Sample.orders_v2
     (dataset_versions (fst (delete_version Sample.store Sample.alice 30 2))) /\
  In Sample.orders_v2
     (dataset_versions (fst (delete_version Sample.store Sample.alice 30 3))).
Proof.
  assert (H1 : distinct_keys DatasetVersion.id (dataset_versions Sample.store)).
  { unfold distinct_keys. simpl. repeat constructor; simpl; intuition discriminate. }
  assert (H2 : distinct_keys Dataset.id (datasets Sample.store)).
  { unfold distinct_keys. simpl. repeat constructor; simpl; intuition discriminate. }
  assert (Hd : In Sample.orders (datasets Sample.store)) by (now left).
  assert (Hw : In Sample.orders_v2 (dataset_versions Sample.store)) by (right; now left).
  split; [exact H1|]. split; [exact H2|]. split.
  - exact (proj2 (delete_version_keeps_every_current_version Sample.store Sample.alice 30 2
                    Sample.orders Sample.orders_v2 H1 H2 Hd Hw eq_refl eq_refl)).
  - exact (proj2 (delete_version_keeps_every_current_version Sample.store Sample.alice 30 3
                    Sample.orders Sample.orders_v2 H1 H2 Hd Hw eq_refl eq_refl)).
Defined.

Lemma two_rows_one_stays (rows : list DatasetVersion.t) (i : pk) :
  NoDup (map DatasetVersion.id rows) ->
  (2 <= List.length rows)%nat ->
  filter (fun w => negb (DatasetVersion.id w =? i)%nat) rows <> [].
Proof.
  destruct rows as [|a [|b rest]]; simpl; try lia.
  intros Hnd _. inversion Hnd as [|? ? Hnot _]; subst.
  destruct (Nat.eqb_spec (DatasetVersion.id a) i) as [Ea|Ea]; simpl; [|discriminate].
  destruct (Nat.eqb_spec (DatasetVersion.id b) i) as [Eb|Eb]; simpl; [|discriminate].
  exfalso. apply Hnot. left. congruence.
Qed.

Lemma filter_comm {A : Type} (f g : A -> bool) (l : list A) :
  filter f (filter g l) = filter g (filter f l).
Proof.
  induction l as [|x l IH]; simpl; [reflexivity|].
  destruct (f x) eqn:Ef, (g x) eqn:Eg; simpl; rewrite ?Ef, ?Eg, IH; reflexivity.
Qed.

Lemma nodup_filter_keys (f : DatasetVersion.t -> bool) (rows : list DatasetVersion.t) :
  NoDup (map DatasetVersion.id rows) -> NoDup (map DatasetVersion.id (filter f rows)).
Proof.
  induction rows as [|x rows IH]; simpl; [auto|].
  intros Hnd. inversion Hnd as [|? ? Hnot Hnd']; subst.
  destruct (f x); simpl; [|now apply IH].
  constructor; [|now apply IH].
  intros Hin. apply Hnot. apply in_map_iff in Hin as (y & Hy & Hin).
  apply filter_In in Hin as [Hin _]. rewrite <- Hy. now apply in_map.
Qed.

(** X12.  [delete_version] never takes the last version of a dataset:
    with distinct primary keys, every dataset that has a version before
    a [delete_version] request has one after it. *)
Theorem delete_version_leaves_no_dataset_empty
        (s : Store) (rq : Request) (k : pk) (n : Z) (j : pk) :
  distinct_keys DatasetVersion.id (dataset_versions s) ->
  Orm.dataset_versions_of s j <> [] ->
  Orm.dataset_versions_of (fst (delete_version s rq k n)) j <> [].
Proof.
  intros Hkv Hne.
  destruct (delete_version s rq k n) as [s' r] eqn:E. simpl.
  apply delete_version_cases in E
    as [(-> & _)|(dataset & version & _ & _ & Hv & Hvd & _ & _ & Hcount & _ & ->)];
    [exact Hne|].
  unfold Orm.dataset_versions_of in *. simpl. rewrite filter_comm.
  destruct (Nat.eq_dec j k) as [->|Hjk].
  - apply two_rows_one_stays; [now apply nodup_filter_keys|].
    unfold Orm.count in Hcount.
    assert (Hin : In version (filter (fun v => (DatasetVersion.dataset v =? k)%nat)
                                     (dataset_versions s))).
    { apply filter_In. split; [exact Hv | now apply Nat.eqb_eq]. }
    destruct (filter (fun v => (DatasetVersion.dataset v =? k)%nat) (dataset_versions s))
      as [|a [|b rest]]; simpl in *; [contradiction | lia | lia].
  - rewrite PipelineFacts.filter_filter.
    intros Hnil. apply Hne.
    apply PipelineFacts.filter_none_in. intros x Hx.
    destruct (DatasetVersion.dataset x =? j)%nat eqn:Exj; [|reflexivity].
    exfalso.
    assert (Hin : In x (filter (fun x0 => (DatasetVersion.dataset x0 =? j)%nat &&
                                          negb (DatasetVersion.id x0 =? DatasetVersion.id version)%nat)
                               (dataset_versions s))).
    { apply filter_In. split; [exact Hx|]. rewrite Exj. simpl.
      apply negb_true_iff, Nat.eqb_neq. intros Hsame.
      assert (x = version) by (now apply (key_inj DatasetVersion.id (dataset_versions s))).
      subst x. apply Nat.eqb_eq in Exj. congruence. }
    rewrite Hnil in Hin. exact Hin.
Qed.

Lemma delete_version_leaves_no_dataset_empty_witness :
  distinct_keys DatasetVersion.id (dataset_versions Sample.store) /\
  Orm.dataset_versions_of Sample.store 35 <> [] /\
  Orm.dataset_versions_of (fst (delete_version Sample.store Sample.alice 35 1)) 35 <> [] /\
  Orm.dataset_versions_of (fst (delete_version Sample.store Sample.alice 30 1)) 30 <> [].
Proof.
  assert (H1 : distinct_keys DatasetVersion.id (dataset_versions Sample.store)).
  { unfold distinct_keys. simpl. repeat constructor; simpl; intuition discriminate. }
  assert (H2 : Orm.dataset_versions_of Sample.store 35 <> []) by discriminate.
  assert (H3 : Orm.dataset_versions_of Sample.store 30 <> []) by discriminate.
  split; [exact H1|]. split; [exact H2|]. split.
  - exact (delete_version_leaves_no_dataset_empty Sample.store Sample.alice 35 1 35 H1 H2).
  - exact (delete_version_leaves_no_dataset_empty Sample.store Sample.alice 30 1 30 H1 H3).
Defined.

(** X13.  After [delete_version] has removed a version (answer 204),
    nothing in the store points to it any more: its own lineage edges
    and query log rows are gone, and in the lineage edges and
    executions that named it as their source or product the reference
    is NULL.  Those edges and executions themselves all stay, and so do
    pipelines, pipeline versions and datasets. *)
Theorem delete_version_leaves_no_reference
        (s s' : Store) (rq : Request) (k : pk) (n : Z) :
  delete_version s rq k n = (s', mkResponse Http.HTTP_204_NO_CONTENT NoContent) ->
  exists version,
    In version (dataset_versions s) /\
    DatasetVersion.dataset version = k /\
    DatasetVersion.version_number version = n /\
    (forall l, In l (dataset_lineage s') ->
               DatasetLineage.dataset_version l <> DatasetVersion.id version /\
               DatasetLineage.source_dataset_version l <> Some (DatasetVersion.id version)) /\
    (forall q, In q (dataset_queries s') ->
               DatasetQuery.dataset_version q <> DatasetVersion.id version) /\
    (forall e, In e (pipeline_executions s') ->
               PipelineExecution.created_dataset_version e <> Some (DatasetVersion.id version)) /\
    map PipelineExecution.id (pipeline_executions s') =
      map PipelineExecution.id (pipeline_executions s) /\
    map DatasetLineage.id (dataset_lineage s') =
      map DatasetLineage.id
          (filter (fun l => negb (DatasetLineage.dataset_version l =? DatasetVersion.id version)%nat)
                  (dataset_lineage s)) /\
    pipelines s' = pipelines s /\
    pipeline_versions s' = pipeline_versions s /\
    datasets s' = datasets s.
Proof.
  intros E. apply delete_version_cases in E
    as [(_ & Hno)|(dataset & version & _ & _ & Hv & Hvd & Hvn & _ & _ & _ & ->)];
    [now elim Hno|].
  exists version. split; [exact Hv|]. split; [exact Hvd|]. split; [exact Hvn|].
  set (i := DatasetVersion.id version).
  assert (Hrefers : forall fk, Orm.refers_to fk i = true <-> fk = Some i).
  { intros [j|]; simpl; [rewrite Nat.eqb_eq|]; split; congruence. }
  simpl.
  split; [|split; [|split; [|split; [|split; [|repeat split]]]]].
  - intros l H. apply in_map_iff in H as (l0 & <- & Hl0). split.
    + apply filter_In in Hl0 as [_ Hl0].
      apply negb_true_iff, Nat.eqb_neq in Hl0.
      destruct (Orm.refers_to (DatasetLineage.source_dataset_version l0) i); exact Hl0.
    + destruct (Orm.refers_to (DatasetLineage.source_dataset_version l0) i) eqn:Er; simpl.
      * discriminate.
      * intros Hs. apply Hrefers in Hs. congruence.
  - intros q H. apply filter_In in H as [_ H]. now apply negb_true_iff, Nat.eqb_neq in H.
  - intros e H. apply in_map_iff in H as (e0 & <- & He0).
    destruct (Orm.refers_to (PipelineExecution.created_dataset_version e0) i) eqn:Er; simpl.
    + discriminate.
    + intros Hs. apply Hrefers in Hs. congruence.
  - rewrite map_map. apply map_ext. intros e.
    destruct (Orm.refers_to (PipelineExecution.created_dataset_version e) i); reflexivity.
  - rewrite map_map. apply map_ext. intros l.
    destruct (Orm.refers_to (DatasetLineage.source_dataset_version l) i); reflexivity.
Qed.

Lemma delete_version_leaves_no_reference_witness :
  exists s',
    delete_version Sample.store Sample.alice 30 1 =
      (s', mkResponse Http.HTTP_204_NO_CONTENT NoContent) /\
    (forall l, In l (dataset_lineage s') -> DatasetLineage.dataset_version l <> 31) /\
    map DatasetLineage.id (dataset_lineage s') = [40].
Proof.
  eexists. split; [reflexivity|].
  destruct (delete_version_leaves_no_reference Sample.store _ Sample.alice 30 1 eq_refl)
    as (version & Hv & Hvd & Hn & Hl & _ & _ & _ & Hids & _).
  assert (Hversion : version = Sample.orders_v1).
  { simpl in Hv. destruct Hv as [<-|[<-|[<-|[<-|[]]]]];
      first [reflexivity | discriminate Hn | discriminate Hvd]. }
  subst version. split.
  - intros l Hin. exact (proj1 (Hl l Hin)).
  - rewrite Hids. reflexivity.
Defined.

(** X14.  Destroying a pipeline removes no dataset, dataset version,
    lineage edge or query log row: the datasets it produced stay, and
    only the references to the pipeline ([created_by_pipeline] of
    versions, [source_pipeline] of edges) are set to NULL, so that no
    row points to the destroyed pipeline. *)
Theorem destroy_keeps_the_datasets_it_produced
        (s : Store) (rq : Request) (k : pk) (p : Pipeline.t) :
  PipelineViewSet.get_object s rq k = Orm.Found p ->
  exists s',
    PipelineViewSet.destroy s rq k = (s', mkResponse Http.HTTP_204_NO_CONTENT NoContent) /\
    datasets s' = datasets s /\
    dataset_queries s' = dataset_queries s /\
    Forall2 (fun v v' => v' = v \/
                         (DatasetVersion.created_by_pipeline v = Some k /\
                          v' = DatasetVersion.clear_created_by_pipeline v))
            (dataset_versions s) (dataset_versions s') /\
    Forall2 (fun l l' => l' = l \/
                         (DatasetLineage.source_pipeline l = Some k /\
                          l' = DatasetLineage.clear_source_pipeline l))
            (dataset_lineage s) (dataset_lineage s') /\
    (forall v, In v (dataset_versions s') -> DatasetVersion.created_by_pipeline v <> Some k) /\
    (forall l, In l (dataset_lineage s') -> DatasetLineage.source_pipeline l <> Some k).
Proof.
  intros Hget. unfold PipelineViewSet.destroy, PipelineViewSet.on_object. rewrite Hget.
  apply PipelineFacts.get_object_found in Hget as (_ & Hid & _). rewrite Hid.
  assert (Hrefers : forall fk, Orm.refers_to fk k = true <-> fk = Some k).
  { intros [j|]; simpl; [rewrite Nat.eqb_eq|]; split; congruence. }
  eexists. split; [reflexivity|]. simpl.
  split; [reflexivity|]. split; [reflexivity|]. split; [|split; [|split]].
  - induction (dataset_versions s) as [|v l IH]; simpl; constructor; [|exact IH].
    destruct (Orm.refers_to (DatasetVersion.created_by_pipeline v) k) eqn:Er;
      [right; split; [now apply Hrefers | reflexivity] | now left].
  - induction (dataset_lineage s) as [|v l IH]; simpl; constructor; [|exact IH].
    destruct (Orm.refers_to (DatasetLineage.source_pipeline v) k) eqn:Er;
      [right; split; [now apply Hrefers | reflexivity] | now left].
  - intros v Hv. apply in_map_iff in Hv as (v0 & <- & _).
    destruct (Orm.refers_to (DatasetVersion.created_by_pipeline v0) k) eqn:Er; simpl.
    + discriminate.
    + intros Hs. apply Hrefers in Hs. congruence.
  - intros l Hl. apply in_map_iff in Hl as (l0 & <- & _).
    destruct (Orm.refers_to (DatasetLineage.source_pipeline l0) k) eqn:Er; simpl.
    + discriminate.
    + intros Hs. apply Hrefers in Hs. congruence.
Qed.

Lemma destroy_keeps_the_datasets_it_produced_witness :
  PipelineViewSet.get_object Sample.store Sample.alice 1 = Orm.Found Sample.sales /\
  exists s',
    PipelineViewSet.destroy Sample.store Sample.alice 1 =
      (s', mkResponse Http.HTTP_204_NO_CONTENT NoContent) /\
    datasets s' = datasets Sample.store /\
    (forall v, In v (dataset_versions s') -> DatasetVersion.created_by_pipeline v <> Some 1) /\
    List.length (dataset_versions s') = 4%nat.
Proof.
  split; [reflexivity|].
  destruct (destroy_keeps_the_datasets_it_produced Sample.store Sample.alice 1 Sample.sales
              eq_refl) as (s' & E & Hd & _ & Hv & _ & Hno & _).
  exists s'. split; [exact E|]. split; [exact Hd|]. split; [exact Hno|].
  rewrite <- (Forall2_length Hv). reflexivity.
Defined.


End CascadeFacts.

(** ** Saving a dataset version *)

Module SaveFacts.
Import DatasetVersionMethods.

Section Hashing.
Variable sha256_hexdigest : string -> string.

Lemma set_schema_hash_same (v : DatasetVersion.t) :
  DatasetVersion.set_schema_hash v (DatasetVersion.schema_hash v) = v.
Proof. now destruct v. Qed.

Lemma set_column_count_same (v : DatasetVersion.t) :
  DatasetVersion.set_column_count v (DatasetVersion.column_count v) = v.
Proof. now destruct v. Qed.

(** Filling the hash a second time changes nothing. *)
Lemma fill_schema_hash_again (v : DatasetVersion.t) :
  fill_schema_hash sha256_hexdigest (fill_schema_hash sha256_hexdigest v) =
  fill_schema_hash sha256_hexdigest v.
Proof.
  unfold fill_schema_hash.
  destruct (Py.truthy (DatasetVersion.schema v) &&
            negb (Py.str_truthy (DatasetVersion.schema_hash v)))%bool eqn:E.
  - simpl. match goal with |- (if ?c then _ else _) = _ => destruct c end; reflexivity.
  - now rewrite E.
Qed.

Lemma fill_column_count_schema (v v' : DatasetVersion.t) :
  fill_column_count v = Some v' ->
  DatasetVersion.schema v' = DatasetVersion.schema v /\
  DatasetVersion.schema_hash v' = DatasetVersion.schema_hash v /\
  DatasetVersion.id v' = DatasetVersion.id v /\
  DatasetVersion.dataset v' = DatasetVersion.dataset v /\
  DatasetVersion.version_number v' = DatasetVersion.version_number v /\
  fill_column_count v' = Some v'.
Proof.
  unfold fill_column_count.
  destruct (Py.truthy (DatasetVersion.schema v)) eqn:Et.
  - destruct (contains_columns (DatasetVersion.schema v)) as [[|]|] eqn:Ec; try discriminate.
    + destruct (len_columns (DatasetVersion.schema v)) as [n|] eqn:El; [|discriminate].
      intros [= <-]. simpl. rewrite Et, Ec, El. repeat split.
    + intros [= <-]. rewrite Et, Ec. repeat split.
  - intros [= <-]. rewrite Et. repeat split.
Qed.

Lemma fill_schema_hash_transfer (x y : DatasetVersion.t) :
  DatasetVersion.schema y = DatasetVersion.schema x ->
  DatasetVersion.schema_hash y = DatasetVersion.schema_hash x ->
  fill_schema_hash sha256_hexdigest x = x ->
  fill_schema_hash sha256_hexdigest y = y.
Proof.
  unfold fill_schema_hash, calculate_schema_hash. intros Hs Hh. rewrite Hs, Hh.
  destruct (Py.truthy (DatasetVersion.schema x) &&
            negb (Py.str_truthy (DatasetVersion.schema_hash x)))%bool; [|reflexivity].
  intros Hx. apply (f_equal DatasetVersion.schema_hash) in Hx. simpl in Hx.
  rewrite Hx, <- Hh. apply set_schema_hash_same.
Qed.

Lemma fill_schema_hash_fixed (v v' : DatasetVersion.t) :
  fill_column_count (fill_schema_hash sha256_hexdigest v) = Some v' ->
  fill_schema_hash sha256_hexdigest v' = v'.
Proof.
  intros H. apply fill_column_count_schema in H as (Hs & Hh & _).
  apply (fill_schema_hash_transfer (fill_schema_hash sha256_hexdigest v));
    [exact Hs | exact Hh | apply fill_schema_hash_again].
Qed.

(** Writing an instance that has just been written changes nothing. *)
Lemma write_again (s s' : Store) (adding : bool) (v : DatasetVersion.t) :
  write s adding v = Some s' -> write s' false v = Some s'.
Proof.
  assert (Hinsert : key_taken s v = false ->
                    write (with_dataset_versions s (v :: dataset_versions s)) false v =
                    Some (with_dataset_versions s (v :: dataset_versions s))).
  { intros Ek. unfold write, key_taken. simpl. rewrite Nat.eqb_refl. simpl.
    unfold with_dataset_versions. simpl. do 3 f_equal.
    rewrite <- (map_id (dataset_versions s)) at 2.
    apply map_ext_in. intros w Hw.
    destruct (DatasetVersion.id w =? DatasetVersion.id v)%nat eqn:Ew; [|reflexivity].
    exfalso. unfold key_taken in Ek.
    assert (Ht : existsb (fun w0 => (DatasetVersion.id w0 =? DatasetVersion.id v)%nat)
                         (dataset_versions s) = true)
      by (apply existsb_exists; now exists w).
    congruence. }
  unfold write at 1.
  destruct adding; destruct (key_taken s v) eqn:Ek; try discriminate;
    intros [= <-]; try (now apply Hinsert).
  unfold write, key_taken in *. simpl.
  assert (Hstill : existsb (fun w => (DatasetVersion.id w =? DatasetVersion.id v)%nat)
                     (map (fun w => if (DatasetVersion.id w =? DatasetVersion.id v)%nat
                                    then v else w) (dataset_versions s)) = true).
  { apply existsb_exists in Ek as (w & Hw & Ew).
    apply existsb_exists. exists v. split; [|apply Nat.eqb_refl].
    apply in_map_iff. exists w. split; [now rewrite Ew | exact Hw]. }
  rewrite Hstill. unfold with_dataset_versions. simpl. do 2 f_equal.
  rewrite map_map. apply map_ext. intros w.
  destruct (DatasetVersion.id w =? DatasetVersion.id v)%nat eqn:Ew;
    [now rewrite Nat.eqb_refl | now rewrite Ew].
Qed.

Lemma slot_free_after_write (s s' : Store) (adding : bool) (v : DatasetVersion.t) :
  write s adding v = Some s' -> slot_taken s v = false -> slot_taken s' v = false.
Proof.
  intros Hw H.
  assert (Hold : forall w, In w (dataset_versions s) ->
                   (negb (DatasetVersion.id w =? DatasetVersion.id v)%nat &&
                    (DatasetVersion.dataset w =? DatasetVersion.dataset v)%nat &&
                    (DatasetVersion.version_number w =? DatasetVersion.version_number v)%Z)%bool
                   = false).
  { intros w Hin. destruct (_ && _ && _)%bool eqn:E; [|reflexivity].
    unfold slot_taken in H. rewrite <- H. symmetry. apply existsb_exists. now exists w. }
  assert (Hinsert : slot_taken (with_dataset_versions s (v :: dataset_versions s)) v = false).
  { unfold slot_taken. simpl. rewrite Nat.eqb_refl. simpl. exact H. }
  unfold write in Hw.
  destruct adding; destruct (key_taken s v); try discriminate;
    injection Hw as <-; try exact Hinsert.
  unfold slot_taken. simpl.
  destruct (existsb _ (map _ (dataset_versions s))) eqn:E; [|reflexivity].
  apply existsb_exists in E as (x & Hx & Ex).
  apply in_map_iff in Hx as (w & <- & Hin).
  destruct (DatasetVersion.id w =? DatasetVersion.id v)%nat eqn:Ew.
  - now rewrite Nat.eqb_refl in Ex.
  - now rewrite (Hold w Hin) in Ex.
Qed.

(** Writing a version leaves the other tables as they are. *)
Lemma dangling_after_write (s s' : Store) (adding : bool) (v u : DatasetVersion.t) :
  write s adding v = Some s' -> dangling s' u = dangling s u.
Proof.
  unfold write.
  destruct adding; destruct (key_taken s v); try discriminate; now intros [= <-].
Qed.

Lemma fill_column_count_profiles (v v' : DatasetVersion.t) :
  fill_column_count v = Some v' ->
  DatasetVersion.column_profiles v' = DatasetVersion.column_profiles v /\
  DatasetVersion.created_by_pipeline v' = DatasetVersion.created_by_pipeline v.
Proof.
  unfold fill_column_count.
  destruct (Py.truthy (DatasetVersion.schema v)); [|now intros [= <-]].
  destruct (contains_columns (DatasetVersion.schema v)) as [[|]|]; try discriminate;
    [|now intros [= <-]].
  destruct (len_columns (DatasetVersion.schema v)); [|discriminate]. now intros [= <-].
Qed.

Lemma key_taken_after_write (s s' : Store) (adding : bool) (v : DatasetVersion.t) :
  write s adding v = Some s' -> key_taken s' v = true.
Proof.
  assert (Hinsert : key_taken (with_dataset_versions s (v :: dataset_versions s)) v = true).
  { unfold key_taken. simpl. now rewrite Nat.eqb_refl. }
  unfold write.
  destruct adding; destruct (key_taken s v) eqn:Ek; try discriminate;
    intros [= <-]; try exact Hinsert.
  unfold key_taken in *. simpl.
  apply existsb_exists in Ek as (w & Hw & Ew).
  apply existsb_exists. exists v. split; [|apply Nat.eqb_refl].
  apply in_map_iff. exists w. split; [now rewrite Ew | exact Hw].
Qed.

(** The two first statements of [save] do not look at [created_at]. *)
Lemma fill_schema_hash_stamped (v : DatasetVersion.t) (time : datetime) :
  fill_schema_hash sha256_hexdigest v = v ->
  fill_schema_hash sha256_hexdigest (DatasetVersion.set_created_at v time) =
  DatasetVersion.set_created_at v time.
Proof.
  apply fill_schema_hash_transfer; reflexivity.
Qed.

Lemma fill_column_count_stamped (v : DatasetVersion.t) (time : datetime) :
  fill_column_count v = Some v ->
  fill_column_count (DatasetVersion.set_created_at v time) =
  Some (DatasetVersion.set_created_at v time).
Proof.
  unfold fill_column_count. simpl.
  destruct (Py.truthy (DatasetVersion.schema v)); [|reflexivity].
  destruct (contains_columns (DatasetVersion.schema v)) as [[|]|]; try discriminate;
    [|reflexivity].
  destruct (len_columns (DatasetVersion.schema v)) as [n|]; [|discriminate].
  intros [= E]. apply (f_equal DatasetVersion.column_count) in E. simpl in E.
  rewrite E. f_equal; now destruct v.
Qed.

(** X15.  [save] is idempotent: saving the instance that [save]
    returned, in the store it left and at any later time, returns the
    same instance and leaves the store as it is (the hash and the
    column count are not computed anew, [created_at] is kept, and the
    row is updated with what it holds). *)
Theorem save_again_changes_nothing
        (s s' : Store) (now later : datetime) (adding : bool) (v v' : DatasetVersion.t) :
  save sha256_hexdigest s now adding v = (s', inl v') ->
  save sha256_hexdigest s' later false v' = (s', inl v').
Proof.
  unfold save.
  destruct (fill_column_count (fill_schema_hash sha256_hexdigest v)) as [w|] eqn:E;
    [|discriminate].
  cbv zeta.
  pose proof (fill_schema_hash_fixed v w E) as Hhash.
  apply fill_column_count_schema in E as (_ & _ & _ & _ & _ & Hcount).
  assert (Hfixed : fill_schema_hash sha256_hexdigest (stamp s now adding w) =
                   stamp s now adding w /\
                   fill_column_count (stamp s now adding w) = Some (stamp s now adding w)).
  { destruct (FingerprintFacts.stamp_cases s now adding w) as [->| ->].
    - now split.
    - split; [now apply fill_schema_hash_stamped | now apply fill_column_count_stamped]. }
  destruct Hfixed as [Hh Hc].
  set (u := stamp s now adding w) in *.
  destruct (null_column u) eqn:En; [discriminate|].
  destruct (dangling s u) eqn:Ed; [discriminate|].
  destruct (slot_taken s u) eqn:Es; [discriminate|]. simpl orb. cbv iota.
  destruct (write s adding u) as [s1|] eqn:Ew; [|discriminate].
  intros [= <- <-]. rewrite Hh, Hc.
  assert (Hstamp : stamp s1 later false u = u).
  { unfold stamp. now rewrite (key_taken_after_write _ _ _ _ Ew). }
  rewrite Hstamp, En, (dangling_after_write _ _ _ _ u Ew), Ed,
    (slot_free_after_write _ _ _ _ Ew Es), (write_again _ _ _ _ Ew).
  reflexivity.
Qed.

(** X16.  [save] raises [TypeError], and writes nothing, exactly when
    the schema is truthy and is a number or a boolean, a list with the
    element 'columns', a string that contains 'columns', or a dict whose
    'columns' entry has no length (None, a boolean or a number). *)
Theorem save_type_error (s : Store) (now : datetime) (adding : bool) (v : DatasetVersion.t) :
  (snd (save sha256_hexdigest s now adding v) = inr "TypeError" <->
   Py.truthy (DatasetVersion.schema v) = true /\
   match DatasetVersion.schema v with
   | Py.PyDict items =>
       exists columns, Py.lookup "columns" items = Some columns /\ Py.len columns = None
   | Py.PyList xs => existsb (fun x => Py.py_eq x (Py.PyStr "columns")) xs = true
   | Py.PyStr text => Text.contains "columns" text = true
   | _ => True
   end) /\
  (snd (save sha256_hexdigest s now adding v) = inr "TypeError" ->
   fst (save sha256_hexdigest s now adding v) = s).
Proof.
  assert (Hschema : DatasetVersion.schema (fill_schema_hash sha256_hexdigest v) =
                    DatasetVersion.schema v).
  { unfold fill_schema_hash. destruct (_ && _)%bool; reflexivity. }
  assert (Hsave : snd (save sha256_hexdigest s now adding v) = inr "TypeError" <->
                  fill_column_count (fill_schema_hash sha256_hexdigest v) = None).
  { unfold save.
    destruct (fill_column_count (fill_schema_hash sha256_hexdigest v)) as [w|].
    - cbv zeta. destruct (null_column _ || dangling s _ || slot_taken s _);
        [|destruct (write s adding _)]; simpl; split; discriminate.
    - simpl. split; reflexivity. }
  split.
  - rewrite Hsave. unfold fill_column_count. rewrite Hschema.
    unfold contains_columns, len_columns, Py.has_key.
    destruct (DatasetVersion.schema v) as [|b|n|t|xs|items]; simpl.
    + split; [discriminate | intros [H _]; discriminate].
    + destruct b; split; try discriminate; auto. intros [H _]. discriminate.
    + destruct (n =? 0)%Z; simpl; split; try discriminate; auto. intros [H _]. discriminate.
    + destruct (t =? EmptyString)%string; simpl.
      * split; [discriminate | intros [H _]; discriminate].
      * destruct (Text.contains "columns" t); split; try discriminate; auto.
        intros [_ H]. discriminate.
    + destruct xs as [|x xs]; [split; [discriminate | intros [H _]; discriminate]|].
      destruct (existsb _ (x :: xs)); split; try discriminate; auto.
      intros [_ H]. discriminate.
    + destruct items as [|i items]; [split; [discriminate | intros [H _]; discriminate]|].
      destruct (Py.lookup "columns" (i :: items)) as [c|].
      * destruct (Py.len c) as [n|] eqn:El.
        -- split; [discriminate|]. intros [_ (c' & [= <-] & Hc)]. congruence.
        -- split; [|reflexivity]. intros _. split; [reflexivity|]. now exists c.
      * split; [discriminate|]. intros [_ (c' & Hc & _)]. discriminate.
  - unfold save.
    destruct (fill_column_count (fill_schema_hash sha256_hexdigest v)) as [w|];
      [|reflexivity].
    cbv zeta. destruct (null_column _ || dangling s _ || slot_taken s _); [reflexivity|].
    destruct (write s adding _); simpl; [discriminate | reflexivity].
Qed.

End Hashing.

Lemma save_again_changes_nothing_witness :
  let version :=
    DatasetVersion.mk 34 30 4 "creating" Sample.type_first EmptyString
                      0 0 0 "datasets_10_orders_v4" 0 0 (Py.PyDict []) 0 (Some 1%nat) None
                      EmptyString in
  exists s' v',
    save Sample.digest Sample.store 100 true version = (s', inl v') /\
    In v' (dataset_versions s') /\
    DatasetVersion.schema_hash v' = Sample.digest (Py.dumps_sorted Sample.type_first) /\
    DatasetVersion.column_count v' = 2%Z /\
    DatasetVersion.created_at v' = 100%Z /\
    save Sample.digest s' 200 false v' = (s', inl v').
Proof.
  intros version.
  eexists; eexists. split; [reflexivity|]. split; [now left|].
  split; [reflexivity|]. split; [reflexivity|]. split; [reflexivity|].
  exact (save_again_changes_nothing Sample.digest Sample.store _ 100 200 true version _
           eq_refl).
Defined.

Lemma save_type_error_witness :
  let version :=
    DatasetVersion.mk 34 30 4 "creating" (Py.PyDict [("columns", Py.PyInt 3)]) EmptyString
                      0 0 0 "datasets_10_orders_v4" 0 0 (Py.PyDict []) 0 (Some 1%nat) None
                      EmptyString in
  snd (save Sample.digest Sample.store 100 true version) = inr "TypeError" /\
  fst (save Sample.digest Sample.store 100 true version) = Sample.store.
Proof.
  intros version.
  destruct (save_type_error Sample.digest Sample.store 100 true version)
    as [[_ Hraise] Hkeep].
  assert (H : snd (save Sample.digest Sample.store 100 true version) = inr "TypeError").
  { apply Hraise. split; [reflexivity|]. exists (Py.PyInt 3). split; reflexivity. }
  split; [exact H | exact (Hkeep H)].
Defined.

End SaveFacts.

(** ** The read-only views of the datasets *)

Module ReadFacts.
Import DatasetViewSet.

Lemma insert_desc_in {A : Type} (key : A -> Z) (x y : A) (l : list A) :
  In x (Ordering.insert_desc key y l) <-> x = y \/ In x l.
Proof.
  induction l as [|h t IH]; simpl.
  - split; [intros [<-|[]]; now left | intros [->|[]]; now left].
  - destruct (key h <=? key y)%Z; simpl.
    + split; [intros [<-|[<-|H]]; auto | intros [->|[<-|H]]; auto].
    + rewrite IH. split; [intros [<-|[->|H]]; auto | intros [->|[<-|H]]; auto].
Qed.

(** Ordering keeps the rows. *)
Lemma order_desc_in {A : Type} (key : A -> Z) (l : list A) (x : A) :
  In x (Ordering.order_desc key l) <-> In x l.
Proof.
  induction l as [|y l IH]; simpl; [reflexivity|].
  rewrite insert_desc_in, IH. split; intros [->|H]; auto.
Qed.

Lemma insert_desc_sorted {A : Type} (key : A -> Z) (y : A) (l : list A) :
  StronglySorted (fun a b => (key b <= key a)%Z) l ->
  StronglySorted (fun a b => (key b <= key a)%Z) (Ordering.insert_desc key y l).
Proof.
  induction l as [|h t IH]; simpl; intros Hs.
  - constructor; constructor.
  - destruct (Z.leb_spec (key h) (key y)) as [Hle|Hlt].
    + constructor; [exact Hs|]. constructor; [exact Hle|].
      apply StronglySorted_inv in Hs as [_ Hall].
      eapply Forall_impl; [|exact Hall]. simpl. intros a Ha. lia.
    + apply StronglySorted_inv in Hs as [Ht Hall].
      constructor; [now apply IH|].
      apply Forall_forall. intros a Ha. apply insert_desc_in in Ha as [->|Ha]; [lia|].
      rewrite Forall_forall in Hall. now apply Hall.
Qed.

(** The first row of an ordered list has the largest key. *)
Lemma order_desc_first {A : Type} (key : A -> Z) (l : list A) (h : A) :
  Ordering.first (Ordering.order_desc key l) = Some h ->
  In h l /\ forall x, In x l -> (key x <= key h)%Z.
Proof.
  assert (Hs : StronglySorted (fun a b => (key b <= key a)%Z) (Ordering.order_desc key l)).
  { induction l as [|y l IH]; simpl; [constructor | now apply insert_desc_sorted]. }
  unfold Ordering.first. intros Hh.
  destruct (Ordering.order_desc key l) as [|h' t] eqn:E; [discriminate|].
  injection Hh as ->.
  assert (Hin : forall x, In x l <-> In x (h :: t))
    by (intros x; rewrite <- E; symmetry; apply order_desc_in).
  split; [apply Hin; now left|].
  intros x Hx. apply Hin in Hx as [<-|Hx]; [lia|].
  apply StronglySorted_inv in Hs as [_ Hall]. rewrite Forall_forall in Hall. now apply Hall.
Qed.

Lemma order_desc_first_none {A : Type} (key : A -> Z) (l : list A) :
  Ordering.first (Ordering.order_desc key l) = None -> l = [].
Proof.
  unfold Ordering.first. intros H. destruct l as [|x l]; [reflexivity|].
  assert (Hin : In x (Ordering.order_desc key (x :: l))) by (apply order_desc_in; now left).
  destruct (Ordering.order_desc key (x :: l)); [destruct Hin | discriminate].
Qed.

(** X17.  The [schema] action answers for the highest-numbered version
    of a dataset the caller can see, whatever the dataset's
    [current_version] and the version's state are, and answers 404 'No
    versions available' exactly when the dataset has no version. *)
Theorem schema_reports_highest_version
        (s : Store) (rq : Request) (k : pk) (dataset : Dataset.t) :
  get_object s rq k = Orm.Found dataset ->
  (Orm.dataset_versions_of s (Dataset.id dataset) = [] /\
   DatasetReads.schema s rq k =
     Read.error Http.HTTP_404_NOT_FOUND "No versions available") \/
  (exists version,
      In version (Orm.dataset_versions_of s (Dataset.id dataset)) /\
      (forall other, In other (Orm.dataset_versions_of s (Dataset.id dataset)) ->
                     (DatasetVersion.version_number other <=
                      DatasetVersion.version_number version)%Z) /\
      DatasetReads.schema s rq k =
        Read.mk Http.HTTP_200_OK
          (Read.SchemaData (DatasetVersion.version_number version)
                           (DatasetVersion.schema version)
                           (DatasetVersion.schema_hash version))).
Proof.
  intros Hget. unfold DatasetReads.schema. rewrite Hget.
  unfold DatasetReads.get_latest_version.
  destruct (Ordering.first _) as [version|] eqn:E.
  - right. exists version. apply order_desc_first in E as [Hin Hmax]. auto.
  - left. apply order_desc_first_none in E. auto.
Qed.

Lemma schema_reports_highest_version_witness :
  get_object Sample.store Sample.alice 30 = Orm.Found Sample.orders /\
  Dataset.current_version Sample.orders = 2%Z /\
  DatasetReads.schema Sample.store Sample.alice 30 =
    Read.mk Http.HTTP_200_OK (Read.SchemaData 3 Sample.type_first EmptyString).
Proof.
  split; [reflexivity|]. split; [reflexivity|].
  destruct (schema_reports_highest_version Sample.store Sample.alice 30 Sample.orders eq_refl)
    as [[Hnil _]|(version & _ & _ & _)]; [discriminate Hnil | reflexivity].
Defined.

Section Hashing.
Variable sha256_hexdigest : string -> string.

(** X18.  A query that is answered 200 is found in the dataset's query
    history afterwards: the history lists a row for the version that
    was queried, with the SQL text of the request, its SHA-256 as the
    hash, the caller as [executed_by], the time of the request and
    [success] set; the history of failures ([?success=false]) is what
    it was before the query. *)
Theorem answered_query_is_logged
        (s s' : Store) (rq : Request) (k : pk) (data : QueryData.t) (r : Response) :
  query sha256_hexdigest s rq k data = (s', r) ->
  status_code r = Http.HTTP_200_OK ->
  exists dataset version sql q listed,
    get_object s rq k = Orm.Found dataset /\
    get_version s dataset
      (match QueryData.version data with
       | Some n => n
       | None => Dataset.current_version dataset
       end) = Orm.Found version /\
    QueryData.query data = Some sql /\
    DatasetReads.query_history s' rq k None =
      Read.mk Http.HTTP_200_OK (Read.QueriesData listed) /\
    In q listed /\
    DatasetQuery.dataset_version q = DatasetVersion.id version /\
    DatasetQuery.query_sql q = sql /\
    DatasetQuery.query_hash q = sha256_hexdigest sql /\
    DatasetQuery.executed_by q = Some (user rq) /\
    DatasetQuery.executed_at q = now rq /\
    DatasetQuery.success q = true /\
    DatasetReads.query_history s' rq k (Some "false") =
      DatasetReads.query_history s rq k (Some "false").
Proof.
  unfold query, on_object.
  destruct (get_object s rq k) as [dataset| |] eqn:Hget;
    try (intros [= <- <-]; discriminate).
  destruct (QueryData.query data) as [sql|] eqn:Hsql;
    [|intros [= <- <-]; discriminate].
  destruct (Py.str_truthy sql) eqn:Hsome; simpl; [|intros [= <- <-]; discriminate].
  destruct (get_version s dataset _) as [version| |] eqn:Hver;
    try (intros [= <- <-]; discriminate).
  destruct (DatasetVersion.state version =? "ready")%string; simpl;
    [|intros [= <- <-]; discriminate].
  intros [= <- <-] _.
  pose proof (DatasetFacts.get_version_found _ _ _ _ Hver) as (Hin & Hd & _).
  set (q := DatasetQueryMethods.fill_query_hash sha256_hexdigest
              (DatasetQuery.mk (next_pk s) (DatasetVersion.id version) sql EmptyString
                               (Some (user rq)) (now rq) (Some 45%Z) (Some 2%Z)
                               true EmptyString)).
  assert (Hq : q = DatasetQuery.mk (next_pk s) (DatasetVersion.id version) sql
                                   (sha256_hexdigest sql) (Some (user rq)) (now rq)
                                   (Some 45%Z) (Some 2%Z) true EmptyString).
  { unfold q, DatasetQueryMethods.fill_query_hash. simpl. now rewrite Hsome. }
  assert (Hlogged : DatasetReads.logged_for s (Dataset.id dataset) q = true).
  { unfold DatasetReads.logged_for. apply existsb_exists. exists version.
    split; [exact Hin|]. rewrite Hq. simpl. rewrite Nat.eqb_refl, Hd. apply Nat.eqb_refl. }
  exists dataset, version, sql, q.
  eexists. split; [reflexivity|]. split; [exact Hver|]. split; [reflexivity|].
  unfold DatasetReads.query_history.
  change (get_object _ rq k) with (get_object s rq k). rewrite Hget.
  split; [reflexivity|].
  split.
  { apply order_desc_in. apply filter_In. split; [now left | exact Hlogged]. }
  rewrite Hq. simpl.
  repeat (split; [reflexivity|]).
  do 2 f_equal. f_equal.
  change (DatasetReads.logged_for _ (Dataset.id dataset))
    with (DatasetReads.logged_for s (Dataset.id dataset)).
  fold q. rewrite <- Hq. rewrite Hlogged. simpl. rewrite Hq. reflexivity.
Qed.

End Hashing.

Lemma answered_query_is_logged_witness :
  exists s',
    query Sample.digest Sample.store Sample.alice 30
          (QueryData.mk None (Some "SELECT 1") None) =
      (s', mkResponse Http.HTTP_200_OK
             (QueryResultData ["id"; "name"; "age"]
                [[Py.PyInt 1; Py.PyStr "Alice"; Py.PyInt 30];
                 [Py.PyInt 2; Py.PyStr "Bob"; Py.PyInt 25]] 2 45)) /\
    DatasetReads.query_history s' Sample.alice 30 None =
      Read.mk Http.HTTP_200_OK
        (Read.QueriesData
           [DatasetQuery.mk 100 32 "SELECT 1" "SELECT 1" (Some 1%nat) 100 (Some 45%Z)
                            (Some 2%Z) true EmptyString]) /\
    DatasetReads.query_history s' Sample.alice 30 (Some "false") =
      DatasetReads.query_history Sample.store Sample.alice 30 (Some "false").
Proof.
  eexists. split; [reflexivity|]. split; [reflexivity|].
  destruct (answered_query_is_logged Sample.digest Sample.store _ Sample.alice 30
              (QueryData.mk None (Some "SELECT 1") None) _ eq_refl eq_refl)
    as (_ & _ & _ & _ & _ & _ & _ & _ & _ & _ & _ & _ & _ & _ & _ & _ & H).
  exact H.
Defined.

(** X19.  An edge created for a version of a dataset the caller can see
    is listed by the [lineage] action for this version, with the source
    name the serializer gives it; the other edges listed are the ones
    the version had. *)
Theorem created_edge_is_listed
        (s s' : Store) (rq : Request) (k : pk) (dataset : Dataset.t)
        (version : DatasetVersion.t) (created : datetime) (source_type : string)
        (source_data_source source_pipeline source_dataset_version : option pk)
        (transformation_details : Py.value) (edge : DatasetLineage.t) :
  get_object s rq k = Orm.Found dataset ->
  get_version s dataset (DatasetVersion.version_number version) = Orm.Found version ->
  DatasetLineageMethods.create s created (DatasetVersion.id version) source_type
    source_data_source source_pipeline source_dataset_version transformation_details =
    Some (s', edge) ->
  exists listed,
    DatasetReads.lineage s' rq k (Some (DatasetVersion.version_number version)) =
      Read.mk Http.HTTP_200_OK
        (Read.LineageData (Dataset.name dataset) (DatasetVersion.version_number version)
                          listed) /\
    In (edge, DatasetLineageSerializer.get_source_name s edge) listed /\
    (forall row, In row listed ->
                 fst row = edge \/ In (fst row) (Orm.lineage_of s (DatasetVersion.id version))) /\
    List.length listed = S (List.length (Orm.lineage_of s (DatasetVersion.id version))).
Proof.
  intros Hget Hver. unfold DatasetLineageMethods.create.
  destruct (_ && _ && _ && _)%bool; [|discriminate].
  intros [= <- <-].
  unfold DatasetReads.lineage.
  change (get_object _ rq k) with (get_object s rq k). rewrite Hget.
  change (get_version _ dataset (DatasetVersion.version_number version))
    with (get_version s dataset (DatasetVersion.version_number version)).
  rewrite Hver.
  eexists. split; [reflexivity|].
  unfold Orm.lineage_of. simpl. rewrite Nat.eqb_refl.
  split; [|split].
  - apply in_map_iff. eexists. split; [reflexivity|].
    apply order_desc_in. now left.
  - intros row Hrow. apply in_map_iff in Hrow as (l & <- & Hl). simpl.
    apply order_desc_in in Hl as [<-|Hl]; auto.
  - rewrite length_map.
    assert (Hlen : forall (l : list DatasetLineage.t),
               List.length (Ordering.order_desc DatasetLineage.created_at l) = List.length l).
    { assert (Hins : forall y m, List.length (Ordering.insert_desc DatasetLineage.created_at y m)
                                 = S (List.length m)).
      { intros y m. induction m as [|h t IH]; simpl; [reflexivity|].
        destruct (_ <=? _)%Z; simpl; [reflexivity | now rewrite IH]. }
      induction l as [|y l IH]; simpl; [reflexivity | now rewrite Hins, IH]. }
    rewrite Hlen. reflexivity.
Qed.

Lemma created_edge_is_listed_witness :
  exists s' edge,
    DatasetLineageMethods.create Sample.store 100 32 "dataset" None None (Some 31%nat)
                                 (Py.PyDict []) = Some (s', edge) /\
    DatasetReads.lineage s' Sample.alice 30 None =
      Read.mk Http.HTTP_200_OK
        (Read.LineageData "orders" 2
           [(edge, Some "orders v1"); (Sample.edge, Some "sales")]).
Proof.
  eexists; eexists. split; [reflexivity|].
  destruct (created_edge_is_listed Sample.store _ Sample.alice 30 Sample.orders
              Sample.orders_v2 100 "dataset" None None (Some 31%nat) (Py.PyDict []) _
              eq_refl eq_refl eq_refl) as (listed & _ & _ & _ & _).
  reflexivity.
Defined.

End ReadFacts.
